(** * Ninja Character movement: gravity, floor and network reconciliation

    A shallow embedding of the parts of
    [NinjaCharacterMovementComponent.cpp] and [NinjaMath.h] that the
    specification talks about, with the properties proved about them.

    Conventions of the embedding.
    - A C++ [float] is an idealised real number ([R]): no rounding, no NaN,
      no infinities.  Comparisons are the decidable comparisons of [R].
    - The movement component is a record; a [void] member function that
      mutates it is a function from component to component, a member
      function that returns a value and mutates returns a pair.
    - Everything that lives in the engine (sweeps, line traces, the
      prediction buffers, the game network manager) is a field of an engine
      record handed to the function that calls it, or a function-valued
      field of the object it belongs to.
    - The engine's vector helpers ([GetSafeNormal], [VectorPlaneProject],
      the closest-point queries) are written out as the engine's math
      library defines them. *)

From Stdlib Require Import Reals Lra Psatz Bool List ZArith.
Import ListNotations.

Open Scope R_scope.

Definition int32 : Type := BinNums.Z.

(** ** Scalars: [FMath] *)

Definition Rltb (a b : R) : bool := if Rlt_dec a b then true else false.
Definition Rleb (a b : R) : bool := if Rle_dec a b then true else false.
Definition Reqb (a b : R) : bool := if Req_dec_T a b then true else false.

Definition SMALL_NUMBER : R := 1 / 100000000.
Definition KINDA_SMALL_NUMBER : R := 1 / 10000.

Definition FMath_Max (a b : R) : R := if Rleb a b then b else a.
Definition FMath_Min (a b : R) : R := if Rleb a b then a else b.
Definition FMath_Abs (a : R) : R := if Rleb 0 a then a else - a.
Definition FMath_Square (a : R) : R := a * a.
Definition FMath_InvSqrt (a : R) : R := / sqrt a.
Definition FMath_IsNearlyZero (a : R) : bool := Rleb (FMath_Abs a) SMALL_NUMBER.
Definition FMath_Clamp (x lo hi : R) : R :=
  if Rltb x lo then lo else if Rltb x hi then x else hi.

(** ** Vectors: [FVector] *)

Record FVector : Type := MakeVector { X : R; Y : R; Z : R }.

Declare Scope vec_scope.
Delimit Scope vec_scope with vec.
Bind Scope vec_scope with FVector.

Definition ZeroVector : FVector := MakeVector 0 0 0.
Definition DownVector : FVector := MakeVector 0 0 (-1).

Definition vadd (a b : FVector) : FVector :=
  MakeVector (X a + X b) (Y a + Y b) (Z a + Z b).
Definition vsub (a b : FVector) : FVector :=
  MakeVector (X a - X b) (Y a - Y b) (Z a - Z b).
Definition vscale (a : FVector) (k : R) : FVector :=
  MakeVector (X a * k) (Y a * k) (Z a * k).
Definition vdiv (a : FVector) (k : R) : FVector :=
  vscale a (1 / k).
Definition Dot (a b : FVector) : R := X a * X b + Y a * Y b + Z a * Z b.

Infix "+" := vadd : vec_scope.
Infix "-" := vsub : vec_scope.
Notation "a *v k" := (vscale a k) (at level 40, left associativity).
Notation "a /v k" := (vdiv a k) (at level 40, left associativity).

Definition SizeSquared (a : FVector) : R := X a * X a + Y a * Y a + Z a * Z a.
Definition Size (a : FVector) : R := sqrt (SizeSquared a).
Definition IsZero (a : FVector) : bool :=
  Reqb (X a) 0 && Reqb (Y a) 0 && Reqb (Z a) 0.

Definition GetSafeNormal (a : FVector) : FVector :=
  let SquareSum := SizeSquared a in
  if Reqb SquareSum 1 then a
  else if Rltb SquareSum SMALL_NUMBER then ZeroVector
  else a *v FMath_InvSqrt SquareSum.

Definition VectorPlaneProject (V PlaneNormal : FVector) : FVector :=
  (V - PlaneNormal *v Dot V PlaneNormal)%vec.

Definition PointPlaneProject (Point PlaneBase PlaneNorm : FVector) : FVector :=
  (Point - PlaneNorm *v Dot (Point - PlaneBase) PlaneNorm)%vec.

Definition ClosestPointOnInfiniteLine (LineStart LineEnd Point : FVector) : FVector :=
  let A := Dot (LineStart - Point) (LineEnd - LineStart) in
  let B := SizeSquared (LineEnd - LineStart)%vec in
  if Rltb B SMALL_NUMBER then LineStart
  else (LineStart + (LineEnd - LineStart) *v (- A / B))%vec.

Definition ClosestPointOnLine (LineStart LineEnd Point : FVector) : FVector :=
  let A := Dot (LineStart - Point) (LineEnd - LineStart) in
  let B := SizeSquared (LineEnd - LineStart)%vec in
  let T := FMath_Clamp (- A / B) 0 1 in
  (LineStart + (LineEnd - LineStart) *v T)%vec.

Definition FBox_GetClosestPointTo (BoxMin BoxMax Point : FVector) : FVector :=
  let clamp1 (p lo hi : R) := if Rltb p lo then lo else if Rltb hi p then hi else p in
  MakeVector (clamp1 (X Point) (X BoxMin) (X BoxMax))
             (clamp1 (Y Point) (Y BoxMin) (Y BoxMax))
             (clamp1 (Z Point) (Z BoxMin) (Z BoxMax)).

(** ** Quaternions: the part of [FNinjaMath] the component uses *)

Record FQuat : Type := MakeQuat { QX : R; QY : R; QZ : R; QW : R }.

Definition Quat_IsNormalized (q : FQuat) : Prop :=
  QX q * QX q + QY q * QY q + QZ q * QZ q + QW q * QW q = 1.

Definition Quat_Identity : FQuat := MakeQuat 0 0 0 1.

Definition GetAxisZ (Quat : FQuat) : FVector :=
  let X2 := QX Quat * 2 in
  let Y2 := QY Quat * 2 in
  let Z2 := QZ Quat * 2 in
  MakeVector (QX Quat * Z2 + QW Quat * Y2)
             (QY Quat * Z2 - QW Quat * X2)
             (1 - (QX Quat * X2 + QY Quat * Y2)).

(** [NINJA_NORMALS_PARALLEL], cos(1 degree). *)
Definition NINJA_NORMALS_PARALLEL : R := 99984769515 / 100000000000.

Definition Coincident (Vector1 Vector2 : FVector) (CosineThreshold : R) : bool :=
  Rleb CosineThreshold (Dot Vector1 Vector2).

(** ** Engine data the component reads: hits, floors, actors *)

Definition FName : Type := nat.
Definition NAME_None : FName := 0%nat.

Inductive EMovementMode : Type :=
| MOVE_None | MOVE_Walking | MOVE_NavWalking | MOVE_Falling
| MOVE_Swimming | MOVE_Flying | MOVE_Custom.

Definition EMovementMode_eqb (a b : EMovementMode) : bool :=
  match a, b with
  | MOVE_None, MOVE_None | MOVE_Walking, MOVE_Walking
  | MOVE_NavWalking, MOVE_NavWalking | MOVE_Falling, MOVE_Falling
  | MOVE_Swimming, MOVE_Swimming | MOVE_Flying, MOVE_Flying
  | MOVE_Custom, MOVE_Custom => true
  | _, _ => false
  end.

Inductive ENetRole : Type :=
| ROLE_None | ROLE_SimulatedProxy | ROLE_AutonomousProxy | ROLE_Authority.

(** A primitive component: an identity (the pointer), its walkable-slope
    override and whether characters may step up on it. *)
Record UPrimitiveComponent : Type := MakePrimitive {
  PrimitiveId : nat;
  ModifyWalkableFloorZ : R -> R;
  CanCharacterStepUp : bool;
  bUseRelativeLocation : bool;
  BaseWorldLocation : FVector
}.

Definition SamePrimitive (a b : option UPrimitiveComponent) : bool :=
  match a, b with
  | None, None => true
  | Some p, Some q => Nat.eqb (PrimitiveId p) (PrimitiveId q)
  | _, _ => false
  end.

Record FHitResult : Type := MakeHit {
  bBlockingHit : bool;
  bStartPenetrating : bool;
  Time : R;
  Location : FVector;
  ImpactPoint : FVector;
  Normal : FVector;
  ImpactNormal : FVector;
  HitComponent : option UPrimitiveComponent;
  HitBoneName : FName
}.

(** [FHitResult Hit(1.0f)]: the hit a query starts from. *)
Definition FHitResult_Init (InTime : R) : FHitResult :=
  MakeHit false false InTime ZeroVector ZeroVector ZeroVector ZeroVector None NAME_None.

Definition IsValidBlockingHit (Hit : FHitResult) : bool :=
  bBlockingHit Hit && negb (bStartPenetrating Hit).

Record FFindFloorResult : Type := MakeFloor {
  Floor_bBlockingHit : bool;
  bWalkableFloor : bool;
  bLineTrace : bool;
  FloorDist : R;
  LineDist : R;
  HitResult : FHitResult
}.

Definition IsWalkableFloor (F : FFindFloorResult) : bool :=
  Floor_bBlockingHit F && bWalkableFloor F.

Definition GetDistanceToFloor (F : FFindFloorResult) : R :=
  if bLineTrace F then LineDist F else FloorDist F.

Definition SetFromSweep (InHit : FHitResult) (InSweepFloorDist : R)
    (bIsWalkableFloor : bool) : FFindFloorResult :=
  MakeFloor (IsValidBlockingHit InHit) bIsWalkableFloor false InSweepFloorDist 0 InHit.

Definition Floor_set_FloorDist (F : FFindFloorResult) (d : R) : FFindFloorResult :=
  MakeFloor (Floor_bBlockingHit F) (bWalkableFloor F) (bLineTrace F) d (LineDist F)
            (HitResult F).

(** A spline component, as far as gravity queries it. *)
Record USplineComponent : Type := MakeSpline {
  FindDirectionClosestToWorldLocation : FVector -> FVector;
  FindLocationClosestToWorldLocation : FVector -> FVector;
  FindInputKeyClosestToWorldLocation : FVector -> R;
  GetLocationAtSplineInputKey : R -> FVector;
  GetUpVectorAtSplineInputKey : R -> FVector
}.

(** The gravity actor: [GetActorBounds] gives origin and extent,
    [GetClosestPointOnCollision] a distance and the closest point. *)
Record AActor : Type := MakeActor {
  IsPendingKill : bool;
  GetActorLocation : FVector;
  GetSplineComponent : option USplineComponent;
  GetActorBounds : FVector * FVector;
  GetClosestPointOnCollision : FVector -> R * FVector
}.

Record UBrushComponent : Type := MakeBrush {
  LineTraceComponent : FHitResult -> FVector -> FVector -> FHitResult
}.

Record APhysicsVolume : Type := MakeVolume {
  bWaterVolume : bool;
  GetGravityZ : R;
  FluidFriction : R;
  GetBrushComponent : option UBrushComponent
}.

Record FBasedMovementInfo : Type := MakeBased {
  MovementBase : option UPrimitiveComponent;
  BoneName : FName;
  BasedLocation : FVector
}.

Record ACharacter : Type := MakeCharacter {
  GetSimpleCollisionHalfHeight : R;
  CapsuleRadius : R;
  CapsuleHalfHeight : R;
  GetLocalRole : ENetRole;
  GetBasedMovement : FBasedMovementInfo
}.

Inductive ENinjaGravityDirectionMode : Type :=
| Fixed | SplineTangent | Point | Line | Segment | Spline | Plane
| SplinePlane | Box | Collision
| Unused1 | Unused2 | Unused3 | Unused4 | Unused5 | Unused6 | Unused7
| Unused8 | Unused9.

(** ** The movement component *)

Record Movement : Type := MakeMovement {
  bUpdatedComponent : bool;
  ComponentLocation : FVector;
  ComponentQuat : FQuat;
  CharacterOwner : option ACharacter;
  bIsActive : bool;
  PhysicsVolume : APhysicsVolume;
  MovementMode : EMovementMode;
  Velocity : FVector;
  Acceleration : FVector;
  GravityScale : R;
  GravityDirectionMode : ENinjaGravityDirectionMode;
  GravityVectorA : FVector;
  GravityVectorB : FVector;
  GravityActor : option AActor;
  bLandOnAnySurface : bool;
  bMaintainHorizontalGroundVelocity : bool;
  WalkableFloorZ : R;
  MaxStepHeight : R;
  Buoyancy : R;
  CurrentFloor : FFindFloorResult;
  bJustTeleported : bool;
  bForceNextFloorCheck : bool;
  NumJumpApexAttempts : int32;
  MaxJumpApexAttemptsPerSimulation : int32;
  ThresholdParallelCosine : R;
  bNetworkLargeClientCorrection : bool;
  LastUpdateLocation : FVector;
  LastUpdateRotation : FQuat;
  LastUpdateVelocity : FVector
}.

Definition set_ComponentLocation (s : Movement) (v : FVector) : Movement :=
  MakeMovement
    (bUpdatedComponent s) v (ComponentQuat s) (CharacterOwner s) (bIsActive s)
    (PhysicsVolume s) (MovementMode s) (Velocity s) (Acceleration s) (GravityScale s)
    (GravityDirectionMode s) (GravityVectorA s) (GravityVectorB s) (GravityActor s)
    (bLandOnAnySurface s) (bMaintainHorizontalGroundVelocity s) (WalkableFloorZ s)
    (MaxStepHeight s) (Buoyancy s) (CurrentFloor s) (bJustTeleported s)
    (bForceNextFloorCheck s) (NumJumpApexAttempts s)
    (MaxJumpApexAttemptsPerSimulation s) (ThresholdParallelCosine s)
    (bNetworkLargeClientCorrection s) (LastUpdateLocation s) (LastUpdateRotation s)
    (LastUpdateVelocity s).

Definition set_ComponentQuat (s : Movement) (v : FQuat) : Movement :=
  MakeMovement
    (bUpdatedComponent s) (ComponentLocation s) v (CharacterOwner s) (bIsActive s)
    (PhysicsVolume s) (MovementMode s) (Velocity s) (Acceleration s) (GravityScale s)
    (GravityDirectionMode s) (GravityVectorA s) (GravityVectorB s) (GravityActor s)
    (bLandOnAnySurface s) (bMaintainHorizontalGroundVelocity s) (WalkableFloorZ s)
    (MaxStepHeight s) (Buoyancy s) (CurrentFloor s) (bJustTeleported s)
    (bForceNextFloorCheck s) (NumJumpApexAttempts s)
    (MaxJumpApexAttemptsPerSimulation s) (ThresholdParallelCosine s)
    (bNetworkLargeClientCorrection s) (LastUpdateLocation s) (LastUpdateRotation s)
    (LastUpdateVelocity s).

Definition set_MovementMode (s : Movement) (v : EMovementMode) : Movement :=
  MakeMovement
    (bUpdatedComponent s) (ComponentLocation s) (ComponentQuat s) (CharacterOwner s)
    (bIsActive s) (PhysicsVolume s) v (Velocity s) (Acceleration s) (GravityScale s)
    (GravityDirectionMode s) (GravityVectorA s) (GravityVectorB s) (GravityActor s)
    (bLandOnAnySurface s) (bMaintainHorizontalGroundVelocity s) (WalkableFloorZ s)
    (MaxStepHeight s) (Buoyancy s) (CurrentFloor s) (bJustTeleported s)
    (bForceNextFloorCheck s) (NumJumpApexAttempts s)
    (MaxJumpApexAttemptsPerSimulation s) (ThresholdParallelCosine s)
    (bNetworkLargeClientCorrection s) (LastUpdateLocation s) (LastUpdateRotation s)
    (LastUpdateVelocity s).

Definition set_Velocity (s : Movement) (v : FVector) : Movement :=
  MakeMovement
    (bUpdatedComponent s) (ComponentLocation s) (ComponentQuat s) (CharacterOwner s)
    (bIsActive s) (PhysicsVolume s) (MovementMode s) v (Acceleration s)
    (GravityScale s) (GravityDirectionMode s) (GravityVectorA s) (GravityVectorB s)
    (GravityActor s) (bLandOnAnySurface s) (bMaintainHorizontalGroundVelocity s)
    (WalkableFloorZ s) (MaxStepHeight s) (Buoyancy s) (CurrentFloor s)
    (bJustTeleported s) (bForceNextFloorCheck s) (NumJumpApexAttempts s)
    (MaxJumpApexAttemptsPerSimulation s) (ThresholdParallelCosine s)
    (bNetworkLargeClientCorrection s) (LastUpdateLocation s) (LastUpdateRotation s)
    (LastUpdateVelocity s).

Definition set_Acceleration (s : Movement) (v : FVector) : Movement :=
  MakeMovement
    (bUpdatedComponent s) (ComponentLocation s) (ComponentQuat s) (CharacterOwner s)
    (bIsActive s) (PhysicsVolume s) (MovementMode s) (Velocity s) v (GravityScale s)
    (GravityDirectionMode s) (GravityVectorA s) (GravityVectorB s) (GravityActor s)
    (bLandOnAnySurface s) (bMaintainHorizontalGroundVelocity s) (WalkableFloorZ s)
    (MaxStepHeight s) (Buoyancy s) (CurrentFloor s) (bJustTeleported s)
    (bForceNextFloorCheck s) (NumJumpApexAttempts s)
    (MaxJumpApexAttemptsPerSimulation s) (ThresholdParallelCosine s)
    (bNetworkLargeClientCorrection s) (LastUpdateLocation s) (LastUpdateRotation s)
    (LastUpdateVelocity s).

Definition set_CurrentFloor (s : Movement) (v : FFindFloorResult) : Movement :=
  MakeMovement
    (bUpdatedComponent s) (ComponentLocation s) (ComponentQuat s) (CharacterOwner s)
    (bIsActive s) (PhysicsVolume s) (MovementMode s) (Velocity s) (Acceleration s)
    (GravityScale s) (GravityDirectionMode s) (GravityVectorA s) (GravityVectorB s)
    (GravityActor s) (bLandOnAnySurface s) (bMaintainHorizontalGroundVelocity s)
    (WalkableFloorZ s) (MaxStepHeight s) (Buoyancy s) v (bJustTeleported s)
    (bForceNextFloorCheck s) (NumJumpApexAttempts s)
    (MaxJumpApexAttemptsPerSimulation s) (ThresholdParallelCosine s)
    (bNetworkLargeClientCorrection s) (LastUpdateLocation s) (LastUpdateRotation s)
    (LastUpdateVelocity s).

Definition set_bJustTeleported (s : Movement) (v : bool) : Movement :=
  MakeMovement
    (bUpdatedComponent s) (ComponentLocation s) (ComponentQuat s) (CharacterOwner s)
    (bIsActive s) (PhysicsVolume s) (MovementMode s) (Velocity s) (Acceleration s)
    (GravityScale s) (GravityDirectionMode s) (GravityVectorA s) (GravityVectorB s)
    (GravityActor s) (bLandOnAnySurface s) (bMaintainHorizontalGroundVelocity s)
    (WalkableFloorZ s) (MaxStepHeight s) (Buoyancy s) (CurrentFloor s) v
    (bForceNextFloorCheck s) (NumJumpApexAttempts s)
    (MaxJumpApexAttemptsPerSimulation s) (ThresholdParallelCosine s)
    (bNetworkLargeClientCorrection s) (LastUpdateLocation s) (LastUpdateRotation s)
    (LastUpdateVelocity s).

Definition set_bForceNextFloorCheck (s : Movement) (v : bool) : Movement :=
  MakeMovement
    (bUpdatedComponent s) (ComponentLocation s) (ComponentQuat s) (CharacterOwner s)
    (bIsActive s) (PhysicsVolume s) (MovementMode s) (Velocity s) (Acceleration s)
    (GravityScale s) (GravityDirectionMode s) (GravityVectorA s) (GravityVectorB s)
    (GravityActor s) (bLandOnAnySurface s) (bMaintainHorizontalGroundVelocity s)
    (WalkableFloorZ s) (MaxStepHeight s) (Buoyancy s) (CurrentFloor s)
    (bJustTeleported s) v (NumJumpApexAttempts s) (MaxJumpApexAttemptsPerSimulation s)
    (ThresholdParallelCosine s) (bNetworkLargeClientCorrection s)
    (LastUpdateLocation s) (LastUpdateRotation s) (LastUpdateVelocity s).

Definition set_NumJumpApexAttempts (s : Movement) (v : int32) : Movement :=
  MakeMovement
    (bUpdatedComponent s) (ComponentLocation s) (ComponentQuat s) (CharacterOwner s)
    (bIsActive s) (PhysicsVolume s) (MovementMode s) (Velocity s) (Acceleration s)
    (GravityScale s) (GravityDirectionMode s) (GravityVectorA s) (GravityVectorB s)
    (GravityActor s) (bLandOnAnySurface s) (bMaintainHorizontalGroundVelocity s)
    (WalkableFloorZ s) (MaxStepHeight s) (Buoyancy s) (CurrentFloor s)
    (bJustTeleported s) (bForceNextFloorCheck s) v (MaxJumpApexAttemptsPerSimulation s)
    (ThresholdParallelCosine s) (bNetworkLargeClientCorrection s)
    (LastUpdateLocation s) (LastUpdateRotation s) (LastUpdateVelocity s).

Definition set_bNetworkLargeClientCorrection (s : Movement) (v : bool) : Movement :=
  MakeMovement
    (bUpdatedComponent s) (ComponentLocation s) (ComponentQuat s) (CharacterOwner s)
    (bIsActive s) (PhysicsVolume s) (MovementMode s) (Velocity s) (Acceleration s)
    (GravityScale s) (GravityDirectionMode s) (GravityVectorA s) (GravityVectorB s)
    (GravityActor s) (bLandOnAnySurface s) (bMaintainHorizontalGroundVelocity s)
    (WalkableFloorZ s) (MaxStepHeight s) (Buoyancy s) (CurrentFloor s)
    (bJustTeleported s) (bForceNextFloorCheck s) (NumJumpApexAttempts s)
    (MaxJumpApexAttemptsPerSimulation s) (ThresholdParallelCosine s) v
    (LastUpdateLocation s) (LastUpdateRotation s) (LastUpdateVelocity s).

Definition set_GravityVectors (s : Movement) (a b : FVector) : Movement :=
  MakeMovement
    (bUpdatedComponent s) (ComponentLocation s) (ComponentQuat s) (CharacterOwner s)
    (bIsActive s) (PhysicsVolume s) (MovementMode s) (Velocity s) (Acceleration s)
    (GravityScale s) (GravityDirectionMode s) a b (GravityActor s)
    (bLandOnAnySurface s) (bMaintainHorizontalGroundVelocity s) (WalkableFloorZ s)
    (MaxStepHeight s) (Buoyancy s) (CurrentFloor s) (bJustTeleported s)
    (bForceNextFloorCheck s) (NumJumpApexAttempts s)
    (MaxJumpApexAttemptsPerSimulation s) (ThresholdParallelCosine s)
    (bNetworkLargeClientCorrection s) (LastUpdateLocation s) (LastUpdateRotation s)
    (LastUpdateVelocity s).

Definition set_LastUpdate (s : Movement) (l : FVector) (q : FQuat) (v : FVector) : Movement :=
  MakeMovement
    (bUpdatedComponent s) (ComponentLocation s) (ComponentQuat s) (CharacterOwner s)
    (bIsActive s) (PhysicsVolume s) (MovementMode s) (Velocity s) (Acceleration s)
    (GravityScale s) (GravityDirectionMode s) (GravityVectorA s) (GravityVectorB s)
    (GravityActor s) (bLandOnAnySurface s) (bMaintainHorizontalGroundVelocity s)
    (WalkableFloorZ s) (MaxStepHeight s) (Buoyancy s) (CurrentFloor s)
    (bJustTeleported s) (bForceNextFloorCheck s) (NumJumpApexAttempts s)
    (MaxJumpApexAttemptsPerSimulation s) (ThresholdParallelCosine s)
    (bNetworkLargeClientCorrection s) l q v.

Definition set_PhysicsVolume (s : Movement) (v : APhysicsVolume) : Movement :=
  MakeMovement
    (bUpdatedComponent s) (ComponentLocation s) (ComponentQuat s) (CharacterOwner s)
    (bIsActive s) v (MovementMode s) (Velocity s) (Acceleration s) (GravityScale s)
    (GravityDirectionMode s) (GravityVectorA s) (GravityVectorB s) (GravityActor s)
    (bLandOnAnySurface s) (bMaintainHorizontalGroundVelocity s) (WalkableFloorZ s)
    (MaxStepHeight s) (Buoyancy s) (CurrentFloor s) (bJustTeleported s)
    (bForceNextFloorCheck s) (NumJumpApexAttempts s)
    (MaxJumpApexAttemptsPerSimulation s) (ThresholdParallelCosine s)
    (bNetworkLargeClientCorrection s) (LastUpdateLocation s) (LastUpdateRotation s)
    (LastUpdateVelocity s).

Definition set_GravityScale (s : Movement) (v : R) : Movement :=
  MakeMovement
    (bUpdatedComponent s) (ComponentLocation s) (ComponentQuat s) (CharacterOwner s)
    (bIsActive s) (PhysicsVolume s) (MovementMode s) (Velocity s) (Acceleration s) v
    (GravityDirectionMode s) (GravityVectorA s) (GravityVectorB s) (GravityActor s)
    (bLandOnAnySurface s) (bMaintainHorizontalGroundVelocity s) (WalkableFloorZ s)
    (MaxStepHeight s) (Buoyancy s) (CurrentFloor s) (bJustTeleported s)
    (bForceNextFloorCheck s) (NumJumpApexAttempts s)
    (MaxJumpApexAttemptsPerSimulation s) (ThresholdParallelCosine s)
    (bNetworkLargeClientCorrection s) (LastUpdateLocation s) (LastUpdateRotation s)
    (LastUpdateVelocity s).

Definition set_GravityDirection (s : Movement) (m : ENinjaGravityDirectionMode) (a b : FVector)
    (g : option AActor) : Movement :=
  MakeMovement
    (bUpdatedComponent s) (ComponentLocation s) (ComponentQuat s) (CharacterOwner s)
    (bIsActive s) (PhysicsVolume s) (MovementMode s) (Velocity s) (Acceleration s)
    (GravityScale s) m a b g (bLandOnAnySurface s)
    (bMaintainHorizontalGroundVelocity s) (WalkableFloorZ s) (MaxStepHeight s)
    (Buoyancy s) (CurrentFloor s) (bJustTeleported s) (bForceNextFloorCheck s)
    (NumJumpApexAttempts s) (MaxJumpApexAttemptsPerSimulation s)
    (ThresholdParallelCosine s) (bNetworkLargeClientCorrection s)
    (LastUpdateLocation s) (LastUpdateRotation s) (LastUpdateVelocity s).

Definition HasValidData (s : Movement) : bool :=
  bUpdatedComponent s && match CharacterOwner s with Some _ => true | None => false end.

Definition IsFalling (s : Movement) : bool :=
  EMovementMode_eqb (MovementMode s) MOVE_Falling && bUpdatedComponent s.

Definition IsSwimming (s : Movement) : bool :=
  EMovementMode_eqb (MovementMode s) MOVE_Swimming && bUpdatedComponent s.

Definition IsMovingOnGround (s : Movement) : bool :=
  (EMovementMode_eqb (MovementMode s) MOVE_Walking
   || EMovementMode_eqb (MovementMode s) MOVE_NavWalking) && bUpdatedComponent s.

Definition GetComponentAxisZ (s : Movement) : FVector :=
  GetAxisZ (ComponentQuat s).

Definition GetWalkableFloorZ (s : Movement) : R := WalkableFloorZ s.

(** ** Gravity: [GetGravityDirection] *)

Definition GravityScaleSign (s : Movement) : R :=
  if Rltb 0 (GravityScale s) then 1 else -1.

Definition WorldGravitySign (s : Movement) : R :=
  if Rltb 0 (GetGravityZ (PhysicsVolume s)) then 1 else -1.

(** [GravityActor != nullptr && !GravityActor->IsPendingKill()] *)
Definition LiveGravityActor (s : Movement) : option AActor :=
  match GravityActor s with
  | Some a => if IsPendingKill a then None else Some a
  | None => None
  end.

Definition LiveGravitySpline (s : Movement) : option USplineComponent :=
  match LiveGravityActor s with
  | Some a => GetSplineComponent a
  | None => None
  end.

(** The [switch (GravityDirectionMode)] of [GetGravityDirection].  The source
    writes it twice, once per branch of [GravityScale != 0.0f]; the two copies
    differ only in what is done to the resolved direction at the end
    ([* sign] in the first, nothing in the second), which is [finish] here.
    The spline, point, box and collision modes refresh the cached
    [GravityVectorA] / [GravityVectorB] through [MutableThis]. *)
Definition GravityDirectionSwitch (finish : FVector -> FVector) (s : Movement)
    : FVector * Movement :=
  let Loc := ComponentLocation s in
  let Towards (Target : FVector) (s' : Movement) : FVector * Movement :=
    let GravityDir := (Target - Loc)%vec in
    (if negb (IsZero GravityDir) then finish (GetSafeNormal GravityDir) else GravityDir,
     s') in
  match GravityDirectionMode s with
  | Fixed => (finish (GravityVectorA s), s)
  | SplineTangent =>
      let s' :=
        match LiveGravitySpline s with
        | Some SplineComp =>
            set_GravityVectors s (FindDirectionClosestToWorldLocation SplineComp Loc)
                               (GravityVectorB s)
        | None => s
        end in
      (finish (GravityVectorA s'), s')
  | Point =>
      let s' :=
        match LiveGravityActor s with
        | Some a => set_GravityVectors s (GetActorLocation a) (GravityVectorB s)
        | None => s
        end in
      Towards (GravityVectorA s') s'
  | Line =>
      Towards (ClosestPointOnInfiniteLine (GravityVectorA s) (GravityVectorB s) Loc) s
  | Segment =>
      Towards (ClosestPointOnLine (GravityVectorA s) (GravityVectorB s) Loc) s
  | Spline =>
      let s' :=
        match LiveGravitySpline s with
        | Some SplineComp =>
            set_GravityVectors s (FindLocationClosestToWorldLocation SplineComp Loc)
                               (GravityVectorB s)
        | None => s
        end in
      Towards (GravityVectorA s') s'
  | Plane =>
      Towards (PointPlaneProject Loc (GravityVectorA s) (GravityVectorB s)) s
  | SplinePlane =>
      let s' :=
        match LiveGravitySpline s with
        | Some SplineComp =>
            let InputKey := FindInputKeyClosestToWorldLocation SplineComp Loc in
            let ClosestLocation := GetLocationAtSplineInputKey SplineComp InputKey in
            let ClosestUpVector := GetUpVectorAtSplineInputKey SplineComp InputKey in
            set_GravityVectors s (PointPlaneProject Loc ClosestLocation ClosestUpVector)
                               ClosestUpVector
        | None => s
        end in
      Towards (GravityVectorA s') s'
  | Box =>
      let s' :=
        match LiveGravityActor s with
        | Some a => set_GravityVectors s (fst (GetActorBounds a)) (snd (GetActorBounds a))
        | None => s
        end in
      Towards (FBox_GetClosestPointTo (GravityVectorA s' - GravityVectorB s')
                                      (GravityVectorA s' + GravityVectorB s') Loc) s'
  | Collision =>
      let s' :=
        match LiveGravityActor s with
        | Some a =>
            if Rltb 0 (fst (GetClosestPointOnCollision a Loc))
            then set_GravityVectors s (snd (GetClosestPointOnCollision a Loc))
                                    (GravityVectorB s)
            else s
        | None => s
        end in
      Towards (GravityVectorA s') s'
  | _ => (ZeroVector, s)
  end.

Definition GetGravityDirection (bAvoidZeroGravity : bool) (s : Movement)
    : FVector * Movement :=
  if negb (HasValidData s) then (DownVector, s)
  else if negb (Reqb (GravityScale s) 0) then
    let '(GravityDir, s') :=
      GravityDirectionSwitch (fun v => v *v GravityScaleSign s) s in
    if bAvoidZeroGravity && IsZero GravityDir
    then (MakeVector 0 0 (WorldGravitySign s * GravityScaleSign s), s')
    else (GravityDir, s')
  else if bAvoidZeroGravity then
    let '(GravityDir, s') := GravityDirectionSwitch (fun v => v) s in
    if IsZero GravityDir
    then (MakeVector 0 0 (WorldGravitySign s), s')
    else (GravityDir, s')
  else (ZeroVector, s).

(** ** Floor classification: [IsWalkable] *)

Definition TestWalkableZ (s : Movement) (Hit : FHitResult) : R :=
  match HitComponent Hit with
  | Some c => ModifyWalkableFloorZ c (GetWalkableFloorZ s)
  | None => GetWalkableFloorZ s
  end.

(** [IsWalkable] is [const], but the gravity query it makes may refresh the
    cached gravity vectors, so the component is returned too. *)
Definition IsWalkable (s : Movement) (Hit : FHitResult) : bool * Movement :=
  if negb (IsValidBlockingHit Hit) then (false, s)
  else
    let CapsuleUp := GetComponentAxisZ s in
    if Rltb (Dot (ImpactNormal Hit) CapsuleUp) KINDA_SMALL_NUMBER then (false, s)
    else if Rltb (Dot (ImpactNormal Hit) CapsuleUp) (TestWalkableZ s Hit) then (false, s)
    else if negb (bLandOnAnySurface s) && IsFalling s then
      let '(GravityDir, s') := GetGravityDirection false s in
      if Rltb (Dot (ImpactNormal Hit) (GravityDir *v (-1))) (TestWalkableZ s Hit)
      then (false, s')
      else (true, s')
    else (true, s).

(** ** Ground velocity: [MaintainHorizontalGroundVelocity] *)

Definition MaintainHorizontalGroundVelocity (s : Movement) : Movement :=
  if bMaintainHorizontalGroundVelocity s
  then set_Velocity s (VectorPlaneProject (Velocity s) (GetComponentAxisZ s))
  else set_Velocity s
         (GetSafeNormal (VectorPlaneProject (Velocity s) (GetComponentAxisZ s))
          *v Size (Velocity s)).

(** ** The engine, as the component sees it

    Constants and member functions of the engine's
    [UCharacterMovementComponent] that this plugin calls but does not define:
    they are fields of a record, so that every property below holds for any
    engine behaviour (unless it states an assumption on a field). *)

Record FStepDownResult : Type := MakeStepDown {
  bComputedFloor : bool;
  FloorResult : FFindFloorResult
}.

Definition FStepDownResult_Init : FStepDownResult :=
  MakeStepDown false (MakeFloor false false false 0 0 (FHitResult_Init 1)).

Record Engine : Type := MakeEngine {
  MIN_TICK_TIME : R;
  MIN_FLOOR_DIST : R;
  MAX_FLOOR_DIST : R;
  SWEEP_EDGE_REJECT_DISTANCE : R;
  ForceJumpPeakSubstep : int32;
  CanStepUp : Movement -> FHitResult -> bool;
  MoveUpdatedComponent :
    Movement -> FVector -> FQuat -> bool -> Movement * FHitResult;
  SafeMoveUpdatedComponent :
    Movement -> FVector -> FQuat -> bool -> Movement * FHitResult;
  HandleImpact : Movement -> FHitResult -> R -> FVector -> Movement;
  SlideAlongSurface :
    Movement -> FVector -> R -> FVector -> FHitResult -> bool
    -> R * FHitResult * Movement;
  FindFloor :
    Movement -> FVector -> bool -> option FHitResult -> FFindFloorResult * Movement
}.

Definition MAX_STEP_SIDE_Z : R := 8 / 100.

(** ** Swimming: [ImmersionDepth] *)

(** The line trace of [ImmersionDepth] against the volume's brush, from the
    top to the bottom of the capsule; [FHitResult Hit(1.0f)] is returned
    untouched when the volume has no brush component. *)
Definition ImmersionTrace (s : Movement) (CollisionHalfHeight : R) : FHitResult :=
  match GetBrushComponent (PhysicsVolume s) with
  | Some VolumeBrushComp =>
      let CapsuleHalfHeight := GetComponentAxisZ s *v CollisionHalfHeight in
      let TraceStart := (ComponentLocation s + CapsuleHalfHeight)%vec in
      let TraceEnd := (ComponentLocation s - CapsuleHalfHeight)%vec in
      LineTraceComponent VolumeBrushComp (FHitResult_Init 1) TraceStart TraceEnd
  | None => FHitResult_Init 1
  end.

Definition ImmersionDepth (s : Movement) : R :=
  match CharacterOwner s with
  | Some Owner =>
      if bWaterVolume (PhysicsVolume s) then
        let CollisionHalfHeight := GetSimpleCollisionHalfHeight Owner in
        if Reqb CollisionHalfHeight 0 || Reqb (Buoyancy s) 0 then 1
        else
          let Hit := ImmersionTrace s CollisionHalfHeight in
          if Reqb (Time Hit) 1 then 1 else 1 - Time Hit
      else 0
  | None => 0
  end.

(** ** Falling and swimming: the degenerate-gravity exit

    [PhysFalling] and [PhysSwimming] up to and including the gravity check;
    [Integrate] stands for the rest of the function body (the substep loop of
    [PhysFalling], the single swim step of [PhysSwimming]), which receives
    the gravity direction just resolved. *)

Definition PhysFalling (E : Engine)
    (Integrate : FVector -> R -> int32 -> Movement -> Movement)
    (deltaTime : R) (Iterations : int32) (s : Movement) : Movement :=
  if Rltb deltaTime (MIN_TICK_TIME E) then s
  else
    let '(GravityDir, s1) := GetGravityDirection false s in
    if IsZero GravityDir
    then set_Velocity (set_Acceleration s1 ZeroVector) ZeroVector
    else Integrate GravityDir deltaTime Iterations s1.

Definition PhysSwimming (E : Engine)
    (Integrate : FVector -> R -> int32 -> Movement -> Movement)
    (deltaTime : R) (Iterations : int32) (s : Movement) : Movement :=
  if Rltb deltaTime (MIN_TICK_TIME E) then s
  else
    let '(GravityDir, s1) := GetGravityDirection false s in
    if IsZero GravityDir
    then set_Velocity (set_Acceleration s1 ZeroVector) ZeroVector
    else Integrate GravityDir deltaTime Iterations s1.

(** ** Falling: the jump-apex substep

    The local variables of one iteration of the [PhysFalling] loop that the
    apex block reads and writes; [NumJumpApexAttempts] is a member of the
    component and is carried in it. *)
Record FallingStep : Type := MakeFallingStep {
  Step_Velocity : FVector;
  Step_VelocityZ : R;
  Step_timeTick : R;
  Step_RemainingTime : R;
  Step_Iterations : int32
}.

Definition ApexTimeMinimum : R := 1 / 10000.

Definition OldSpeedZ_of (OldVelocity GravityDir : FVector) : R :=
  Dot OldVelocity GravityDir * -1.

Definition DerivedAccel_of (OldVelocity NewVelocity : FVector) (timeTick : R) : FVector :=
  (NewVelocity - OldVelocity)%vec /v timeTick.

Definition DerivedAccelZ_of (OldVelocity NewVelocity GravityDir : FVector) (timeTick : R)
    : R :=
  Dot (DerivedAccel_of OldVelocity NewVelocity timeTick) GravityDir * -1.

Definition TimeToApex_of (OldVelocity NewVelocity GravityDir : FVector) (timeTick : R)
    : R :=
  - OldSpeedZ_of OldVelocity GravityDir
  / DerivedAccelZ_of OldVelocity NewVelocity GravityDir timeTick.

(** The conditions under which the block inserts the substep. *)
Definition ApexSubstepTaken (E : Engine) (s : Movement)
    (GravityDir OldVelocity NewVelocity : FVector) (timeTick : R) : bool :=
  negb (Z.eqb (ForceJumpPeakSubstep E) 0)
  && Rltb 0 (OldSpeedZ_of OldVelocity GravityDir)
  && Rleb (Dot NewVelocity GravityDir * -1) 0
  && Z.ltb (NumJumpApexAttempts s) (MaxJumpApexAttemptsPerSimulation s)
  && negb (FMath_IsNearlyZero
             (DerivedAccelZ_of OldVelocity NewVelocity GravityDir timeTick))
  && Rleb ApexTimeMinimum (TimeToApex_of OldVelocity NewVelocity GravityDir timeTick)
  && Rltb (TimeToApex_of OldVelocity NewVelocity GravityDir timeTick) timeTick.

(** Lines 1780-1807 of [PhysFalling]: [NewVelocity] is the velocity just
    returned by [NewFallVelocity], [OldVelocity] the velocity at the start of
    the iteration. *)
Definition JumpApexSubstep (E : Engine) (GravityDir OldVelocity NewVelocity : FVector)
    (timeTick RemainingTime : R) (Iterations : int32) (s : Movement)
    : FallingStep * Movement :=
  let OldSpeedZ := OldSpeedZ_of OldVelocity GravityDir in
  let VelocityZ := Dot NewVelocity GravityDir * -1 in
  let unchanged :=
    (MakeFallingStep NewVelocity VelocityZ timeTick RemainingTime Iterations, s) in
  if negb (Z.eqb (ForceJumpPeakSubstep E) 0) && Rltb 0 OldSpeedZ && Rleb VelocityZ 0
     && Z.ltb (NumJumpApexAttempts s) (MaxJumpApexAttemptsPerSimulation s)
  then
    let DerivedAccel := DerivedAccel_of OldVelocity NewVelocity timeTick in
    let DerivedAccelZ := Dot DerivedAccel GravityDir * -1 in
    if negb (FMath_IsNearlyZero DerivedAccelZ) then
      let TimeToApex := - OldSpeedZ / DerivedAccelZ in
      if Rleb ApexTimeMinimum TimeToApex && Rltb TimeToApex timeTick then
        let ApexVelocity := (OldVelocity + DerivedAccel *v TimeToApex)%vec in
        (MakeFallingStep (VectorPlaneProject ApexVelocity GravityDir) 0 TimeToApex
           (RemainingTime + (timeTick - TimeToApex)) (Iterations - 1)%Z,
         set_NumJumpApexAttempts s (NumJumpApexAttempts s + 1)%Z)
      else unchanged
    else unchanged
  else unchanged.

(** ** Walking: [AdjustFloorHeight] *)

Definition AdjustFloorHeight (E : Engine) (s : Movement) : Movement :=
  if negb (IsWalkableFloor (CurrentFloor s)) then s
  else if bLineTrace (CurrentFloor s)
          && (Rltb (FloorDist (CurrentFloor s)) (MIN_FLOOR_DIST E)
              && Rleb (MIN_FLOOR_DIST E) (LineDist (CurrentFloor s)))
  then s
  else
    let OldFloorDist :=
      if bLineTrace (CurrentFloor s) then LineDist (CurrentFloor s)
      else FloorDist (CurrentFloor s) in
    if Rltb OldFloorDist (MIN_FLOOR_DIST E) || Rltb (MAX_FLOOR_DIST E) OldFloorDist then
      let AvgFloorDist := (MIN_FLOOR_DIST E + MAX_FLOOR_DIST E) * (1 / 2) in
      let MoveDist := AvgFloorDist - OldFloorDist in
      let CapsuleUp := GetComponentAxisZ s in
      let InitialLocation := ComponentLocation s in
      let '(s1, AdjustHit) :=
        SafeMoveUpdatedComponent E s (CapsuleUp *v MoveDist) (ComponentQuat s) true in
      let s2 :=
        if negb (IsValidBlockingHit AdjustHit) then
          set_CurrentFloor s1
            (Floor_set_FloorDist (CurrentFloor s1) (FloorDist (CurrentFloor s1) + MoveDist))
        else if Rltb 0 MoveDist then
          set_CurrentFloor s1
            (Floor_set_FloorDist (CurrentFloor s1)
               (FloorDist (CurrentFloor s1)
                + Dot (InitialLocation - ComponentLocation s1) CapsuleUp))
        else
          let s1' :=
            set_CurrentFloor s1
              (Floor_set_FloorDist (CurrentFloor s1)
                 (Dot (Location AdjustHit - ComponentLocation s1) CapsuleUp)) in
          let '(bWalkable, s1'') := IsWalkable s1' AdjustHit in
          if bWalkable
          then set_CurrentFloor s1''
                 (SetFromSweep AdjustHit (FloorDist (CurrentFloor s1'')) true)
          else s1'' in
      let s3 :=
        set_bJustTeleported s2
          (bJustTeleported s2
           || (negb (bMaintainHorizontalGroundVelocity s2) || Rltb OldFloorDist 0)) in
      match CharacterOwner s3 with
      | Some Owner =>
          match GetLocalRole Owner with
          | ROLE_SimulatedProxy => s3
          | _ => set_bForceNextFloorCheck s3 true
          end
      | None => s3
      end
    else s.

(** ** Steps: [IsWithinEdgeToleranceEx] and [StepUp] *)

Definition IsWithinEdgeToleranceEx (E : Engine) (CapsuleLocation CapsuleDown : FVector)
    (CapsuleRadius : R) (TestImpactPoint : FVector) : bool :=
  let DistFromCenterSq :=
    SizeSquared
      (CapsuleLocation
       + CapsuleDown *v Dot (TestImpactPoint - CapsuleLocation) CapsuleDown
       - TestImpactPoint)%vec in
  let ReducedRadiusSq :=
    FMath_Square (FMath_Max (SWEEP_EDGE_REJECT_DISTANCE E + KINDA_SMALL_NUMBER)
                            (CapsuleRadius - SWEEP_EDGE_REJECT_DISTANCE E)) in
  Rltb DistFromCenterSq ReducedRadiusSq.

(** [CharacterOwner->GetCapsuleComponent()->GetScaledCapsuleSize(Radius,
    HalfHeight)].  [StepUp] dereferences the owner unconditionally; without an
    owner the model reads a capsule of size zero. *)
Definition GetScaledCapsuleSize (s : Movement) : R * R :=
  match CharacterOwner s with
  | Some Owner => (CapsuleRadius Owner, CapsuleHalfHeight Owner)
  | None => (0, 0)
  end.

(** [FScopedMovementUpdate::RevertMove]: the updated component goes back to
    the transform it had when the scope was opened (component [s0]). *)
Definition RevertMove (s0 s : Movement) : Movement :=
  set_ComponentQuat (set_ComponentLocation s (ComponentLocation s0)) (ComponentQuat s0).

(** What [StepUp] works out before it moves anything. *)
Record StepUpPlan : Type := MakePlan {
  Plan_OldLocation : FVector;
  Plan_PawnRadius : R;
  Plan_CapsuleDown : FVector;
  Plan_StepTravelUpHeight : R;
  Plan_StepTravelDownHeight : R;
  Plan_StepSideZ : R;
  Plan_PawnFloorPoint : FVector
}.

(** Lines 3352-3407: [None] stands for the three early [return false]. *)
Definition StepUp_plan (E : Engine) (GravDir Delta : FVector) (InHit : FHitResult)
    (s : Movement) : option StepUpPlan :=
  if negb (CanStepUp E s InHit) || Rleb (MaxStepHeight s) 0 then None
  else
    let OldLocation := ComponentLocation s in
    let PawnRadius := fst (GetScaledCapsuleSize s) in
    let PawnHalfHeight := snd (GetScaledCapsuleSize s) in
    let CapsuleDown := GetComponentAxisZ s *v (-1) in
    let BottomPoint := (OldLocation + CapsuleDown *v PawnHalfHeight)%vec in
    let TopPoint :=
      (OldLocation - CapsuleDown *v FMath_Max 0 (PawnHalfHeight - PawnRadius))%vec in
    let Segment := (TopPoint - BottomPoint)%vec in
    if Rltb 1 (Dot (ImpactPoint InHit - BottomPoint) Segment / SizeSquared Segment)
    then None
    else
      let StepSideZ := -1 * Dot (ImpactNormal InHit) GravDir in
      let PawnInitialFloorBase := (OldLocation + CapsuleDown *v PawnHalfHeight)%vec in
      let '(StepTravelUpHeight, StepTravelDownHeight, PawnInitialFloorBase',
            PawnFloorPoint) :=
        if IsMovingOnGround s && IsWalkableFloor (CurrentFloor s) then
          let FloorDist' := FMath_Max 0 (GetDistanceToFloor (CurrentFloor s)) in
          let bHitVerticalFace :=
            negb (IsWithinEdgeToleranceEx E (Location InHit) CapsuleDown PawnRadius
                    (ImpactPoint InHit)) in
          (FMath_Max (MaxStepHeight s - FloorDist') 0,
           MaxStepHeight s + MAX_FLOOR_DIST E * 2,
           (PawnInitialFloorBase + CapsuleDown *v FloorDist')%vec,
           if negb (bLineTrace (CurrentFloor s)) && negb bHitVerticalFace
           then ImpactPoint (HitResult (CurrentFloor s))
           else (PawnInitialFloorBase
                 + CapsuleDown *v FloorDist (CurrentFloor s))%vec)
        else (MaxStepHeight s, MaxStepHeight s, PawnInitialFloorBase,
              PawnInitialFloorBase) in
      if Rleb (Dot (ImpactPoint InHit - PawnInitialFloorBase')
                   (TopPoint - PawnInitialFloorBase')) 0
      then None
      else Some (MakePlan OldLocation PawnRadius CapsuleDown StepTravelUpHeight
                   StepTravelDownHeight StepSideZ PawnFloorPoint).

(** The updated component of [s] has the transform it has in [s0]. *)
Definition SameTransform (s0 s : Movement) : Prop :=
  ComponentLocation s = ComponentLocation s0 /\ ComponentQuat s = ComponentQuat s0.

Definition StepUpResult : Type := (bool * option FStepDownResult * Movement)%type.

Definition StepUp_reject (s0 s : Movement) : StepUpResult :=
  (false, None, RevertMove s0 s).

(** Lines 3471-3562: the sweep back down and everything checked on its hit.
    [s0] is the component when the scope was opened, [s] the component after
    the forward leg; [bOutStepDownResult] says whether the caller passed an
    [OutStepDownResult]. *)
Definition StepUp_down (E : Engine) (s0 : Movement) (P : StepUpPlan)
    (GravDir Delta : FVector) (bOutStepDownResult : bool) (s : Movement)
    : StepUpResult :=
  let '(s1, Hit) :=
    MoveUpdatedComponent E s (GravDir *v Plan_StepTravelDownHeight P)
                         (ComponentQuat s) true in
  let accept (StepDownResult : FStepDownResult) (t : Movement) : StepUpResult :=
    (true,
     if bOutStepDownResult then Some StepDownResult else None,
     set_bJustTeleported t
       (bJustTeleported t || negb (bMaintainHorizontalGroundVelocity t))) in
  if bStartPenetrating Hit then StepUp_reject s0 s1
  else if IsValidBlockingHit Hit then
    let DeltaZ := Dot (Plan_PawnFloorPoint P - ImpactPoint Hit) (Plan_CapsuleDown P) in
    if Rltb (MaxStepHeight s1) DeltaZ then StepUp_reject s0 s1
    else
      let '(bWalkable, s2) := IsWalkable s1 Hit in
      if negb bWalkable && Rltb (Dot Delta (ImpactNormal Hit)) 0
      then StepUp_reject s0 s2
      else if negb bWalkable
              && Rltb 0 (Dot (Plan_OldLocation P - Location Hit) (Plan_CapsuleDown P))
      then StepUp_reject s0 s2
      else if negb (IsWithinEdgeToleranceEx E (Location Hit) (Plan_CapsuleDown P)
                      (Plan_PawnRadius P) (ImpactPoint Hit))
      then StepUp_reject s0 s2
      else if Rltb 0 DeltaZ && negb (CanStepUp E s2 Hit)
      then StepUp_reject s0 s2
      else if bOutStepDownResult then
        let '(Floor, s3) := FindFloor E s2 (ComponentLocation s2) false (Some Hit) in
        if Rltb 0 (Dot (Plan_OldLocation P - Location Hit) (Plan_CapsuleDown P))
           && (negb (Floor_bBlockingHit Floor)
               && Rltb (Plan_StepSideZ P) MAX_STEP_SIDE_Z)
        then StepUp_reject s0 s3
        else accept (MakeStepDown true Floor) s3
      else accept FStepDownResult_Init s2
  else accept FStepDownResult_Init s1.

(** Lines 3424-3469: the forward leg.  It either ends [StepUp] or hands the
    component over to the downward leg. *)
Inductive StepUpForward : Type :=
| ForwardReturn (r : StepUpResult)
| ForwardContinue (s : Movement).

Definition StepUp_forward (E : Engine) (s0 : Movement) (Delta : FVector)
    (PawnRotation : FQuat) (SweepUpHit : FHitResult) (s : Movement) : StepUpForward :=
  let '(s1, Hit) := MoveUpdatedComponent E s Delta PawnRotation true in
  if bBlockingHit Hit then
    if bStartPenetrating Hit then ForwardReturn (StepUp_reject s0 s1)
    else
      let s2 :=
        if bBlockingHit SweepUpHit && bBlockingHit Hit
        then HandleImpact E s1 SweepUpHit 0 ZeroVector
        else s1 in
      let s3 := HandleImpact E s2 Hit 0 ZeroVector in
      if IsFalling s3 then ForwardReturn (true, None, s3)
      else
        let ForwardHitTime := Time Hit in
        let '(ForwardSlideAmount, Hit', s4) :=
          SlideAlongSurface E s3 Delta (1 - Time Hit) (Normal Hit) Hit true in
        if IsFalling s4 then ForwardReturn (StepUp_reject s0 s4)
        else if Reqb ForwardHitTime 0 && Reqb ForwardSlideAmount 0
        then ForwardReturn (StepUp_reject s0 s4)
        else ForwardContinue s4
  else ForwardContinue s1.

Definition StepUp (E : Engine) (GravDir Delta : FVector) (InHit : FHitResult)
    (bOutStepDownResult : bool) (s : Movement) : StepUpResult :=
  match StepUp_plan E GravDir Delta InHit s with
  | None => (false, None, s)
  | Some P =>
      let PawnRotation := ComponentQuat s in
      let '(s1, SweepUpHit) :=
        MoveUpdatedComponent E s (GravDir *v (- Plan_StepTravelUpHeight P))
                             PawnRotation true in
      if bStartPenetrating SweepUpHit then StepUp_reject s s1
      else
        match StepUp_forward E s Delta PawnRotation SweepUpHit s1 with
        | ForwardReturn r => r
        | ForwardContinue s2 => StepUp_down E s P GravDir Delta bOutStepDownResult s2
        end
  end.

(** ** Network reconciliation: data *)

Definition uint8 : Type := nat.

Definition EMovementMode_to_uint8 (m : EMovementMode) : uint8 :=
  match m with
  | MOVE_None => 0 | MOVE_Walking => 1 | MOVE_NavWalking => 2 | MOVE_Falling => 3
  | MOVE_Swimming => 4 | MOVE_Flying => 5 | MOVE_Custom => 6
  end%nat.

Record FRotator : Type := MakeRotator { Pitch : R; Yaw : R; Roll : R }.

Record FClientAdjustment : Type := MakeAdjustment {
  Adj_TimeStamp : R;
  Adj_DeltaTime : R;
  NewLoc : FVector;
  NewVel : FVector;
  NewRot : FRotator;
  NewBase : option UPrimitiveComponent;
  NewBaseBoneName : FName;
  bAckGoodMove : bool;
  bBaseRelativePosition : bool;
  Adj_MovementMode : uint8
}.

Record FNetworkPredictionData_Server_Character : Type := MakeServerData {
  LastUpdateTime : R;
  bForceClientUpdate : bool;
  PendingAdjustment : FClientAdjustment
}.

Record FSavedMove : Type := MakeSavedMove {
  Saved_TimeStamp : R;
  SavedLocation : FVector
}.

Record FNetworkPredictionData_Client_Character : Type := MakeClientData {
  SavedMoves : list FSavedMove;
  LastAckedMove : option FSavedMove;
  bUpdatePosition : bool
}.

(** What [UE_LOG] writes in [ClientAdjustPosition_Implementation]. *)
Inductive LogLine : Type :=
| Warning_UnresolvedRelativeBase
| Verbose_UnresolvedAbsoluteBase
| Log_MoveNotFound.

(** The engine's side of the network code. *)
Record NetEngine : Type := MakeNet {
  ShouldUsePackedMovementRPCs : bool;
  TimeSeconds : R;
  WithinUpdateDelayBounds : R -> bool;
  GetMovementBaseTransform : option UPrimitiveComponent -> FName -> FVector * FQuat;
  RebaseOntoLocalOrigin : FVector -> FVector;
  RebaseOntoZeroOrigin : FVector -> FVector;
  GetComponentRotation : Movement -> FRotator;
  ServerCheckClientError :
    Movement -> R -> R -> FVector -> FVector -> FVector
    -> option UPrimitiveComponent -> FName -> uint8 -> bool * Movement;
  ServerShouldUseAuthoritativePosition :
    Movement -> R -> R -> FVector -> FVector -> FVector
    -> option UPrimitiveComponent -> FName -> uint8 -> bool;
  PackNetworkMovementMode : Movement -> uint8;
  Super_ApplyNetworkMovementMode : Movement -> uint8 -> Movement;
  SetBase : Movement -> option UPrimitiveComponent -> FName -> Movement;
  UpdateFloorFromAdjustment : Movement -> Movement;
  SaveBaseLocation : Movement -> Movement;
  UpdateComponentVelocity : Movement -> Movement;
  GetSavedMoveIndex : FNetworkPredictionData_Client_Character -> R -> option nat;
  AckMove :
    FNetworkPredictionData_Client_Character -> nat -> Movement
    -> FNetworkPredictionData_Client_Character;
  ResponseAxisZ : Movement -> FVector;
  MakeFromZQuat : FVector -> FQuat -> R -> FQuat
}.

(** [MovementBaseUtility::UseRelativeLocation] *)
Definition UseRelativeLocation (MovementBase' : option UPrimitiveComponent) : bool :=
  match MovementBase' with
  | Some c => bUseRelativeLocation c
  | None => false
  end.

(** [CharacterOwner->GetBasedMovement()]; the source dereferences the owner
    unconditionally, without an owner the model reads an empty base. *)
Definition OwnerBasedMovement (s : Movement) : FBasedMovementInfo :=
  match CharacterOwner s with
  | Some Owner => GetBasedMovement Owner
  | None => MakeBased None NAME_None ZeroVector
  end.

Definition GetMovementBase (s : Movement) : option UPrimitiveComponent :=
  MovementBase (OwnerBasedMovement s).

Definition vec_eqb (a b : FVector) : bool :=
  Reqb (X a) (X b) && Reqb (Y a) (Y b) && Reqb (Z a) (Z b).

(** [bApplyingNetworkMovementMode] is raised around the engine's
    implementation and lowered again; nothing modelled here reads it. *)
Definition ApplyNetworkMovementMode (N : NetEngine) (s : Movement) (ReceivedMode : uint8)
    : Movement :=
  Super_ApplyNetworkMovementMode N s ReceivedMode.

(** ** Server: [ServerMoveHandleClientError] *)

(** The adjustment queued when the client has to be corrected. *)
Definition ServerCorrection (N : NetEngine) (ClientTimeStamp DeltaTime : R) (s : Movement)
    : FClientAdjustment :=
  let MovementBase' := GetMovementBase s in
  let bRelative := UseRelativeLocation MovementBase' in
  MakeAdjustment ClientTimeStamp DeltaTime
    (if bRelative then BasedLocation (OwnerBasedMovement s)
     else RebaseOntoZeroOrigin N (ComponentLocation s))
    (Velocity s) (GetComponentRotation N s) MovementBase'
    (BoneName (OwnerBasedMovement s)) false bRelative (PackNetworkMovementMode N s).

(** The acknowledgement of a good move: only the time stamp and the flag of
    the pending adjustment are written. *)
Definition ServerAck (ClientTimeStamp : R) (a : FClientAdjustment) : FClientAdjustment :=
  MakeAdjustment ClientTimeStamp (Adj_DeltaTime a) (NewLoc a) (NewVel a) (NewRot a)
    (NewBase a) (NewBaseBoneName a) true (bBaseRelativePosition a) (Adj_MovementMode a).

(** The two early returns: the first half of a double (unpacked) server move,
    and a move inside the update-delay bound. *)
Definition ServerMoveSkipped (N : NetEngine) (RelativeClientLoc : FVector)
    (ServerData : FNetworkPredictionData_Server_Character) : bool :=
  (negb (ShouldUsePackedMovementRPCs N) && vec_eqb RelativeClientLoc (MakeVector 1 2 3))
  || (negb (Reqb (LastUpdateTime ServerData) (TimeSeconds N))
      && WithinUpdateDelayBounds N (LastUpdateTime ServerData)).

Definition ServerClientLoc (N : NetEngine) (RelativeClientLoc : FVector)
    (ClientMovementBase : option UPrimitiveComponent) (ClientBaseBoneName : FName)
    : FVector :=
  if UseRelativeLocation ClientMovementBase
  then (RelativeClientLoc
        + fst (GetMovementBaseTransform N ClientMovementBase ClientBaseBoneName))%vec
  else RebaseOntoLocalOrigin N RelativeClientLoc.

(** The base the error check uses: the server's own when the client sent
    none while walking. *)
Definition ServerClientBase (s : Movement)
    (ClientMovementBase : option UPrimitiveComponent) (ClientBaseBoneName : FName)
    (ClientMovementMode : uint8) : option UPrimitiveComponent * FName :=
  match ClientMovementBase with
  | None =>
      if Nat.eqb ClientMovementMode (EMovementMode_to_uint8 MOVE_Walking)
      then (MovementBase (OwnerBasedMovement s), BoneName (OwnerBasedMovement s))
      else (ClientMovementBase, ClientBaseBoneName)
  | Some _ => (ClientMovementBase, ClientBaseBoneName)
  end.

(** [bForceClientUpdate || ServerCheckClientError (...)], with the component
    the check leaves behind. *)
Definition ServerClientError (N : NetEngine) (ClientTimeStamp DeltaTime : R)
    (Accel RelativeClientLoc : FVector) (ClientMovementBase : option UPrimitiveComponent)
    (ClientBaseBoneName : FName) (ClientMovementMode : uint8) (s : Movement)
    (ServerData : FNetworkPredictionData_Server_Character) : bool * Movement :=
  let ClientLoc :=
    ServerClientLoc N RelativeClientLoc ClientMovementBase ClientBaseBoneName in
  let '(Base, Bone) :=
    ServerClientBase s ClientMovementBase ClientBaseBoneName ClientMovementMode in
  let s0 := set_bNetworkLargeClientCorrection s (bForceClientUpdate ServerData) in
  if bForceClientUpdate ServerData then (true, s0)
  else ServerCheckClientError N s0 ClientTimeStamp DeltaTime Accel ClientLoc
         RelativeClientLoc Base Bone ClientMovementMode.

Definition ServerMoveHandleClientError (N : NetEngine) (ClientTimeStamp DeltaTime : R)
    (Accel RelativeClientLoc : FVector) (ClientMovementBase : option UPrimitiveComponent)
    (ClientBaseBoneName : FName) (ClientMovementMode : uint8) (s : Movement)
    (ServerData : FNetworkPredictionData_Server_Character)
    : Movement * FNetworkPredictionData_Server_Character :=
  if negb (ShouldUsePackedMovementRPCs N) && vec_eqb RelativeClientLoc (MakeVector 1 2 3)
  then (s, ServerData)
  else if negb (Reqb (LastUpdateTime ServerData) (TimeSeconds N))
          && WithinUpdateDelayBounds N (LastUpdateTime ServerData)
  then (s, ServerData)
  else
    let ClientLoc :=
      ServerClientLoc N RelativeClientLoc ClientMovementBase ClientBaseBoneName in
    let '(Base, Bone) :=
      ServerClientBase s ClientMovementBase ClientBaseBoneName ClientMovementMode in
    let '(bError, s1) :=
      ServerClientError N ClientTimeStamp DeltaTime Accel RelativeClientLoc
        ClientMovementBase ClientBaseBoneName ClientMovementMode s ServerData in
    if bError then
      (s1, MakeServerData (TimeSeconds N) false
             (ServerCorrection N ClientTimeStamp DeltaTime s1))
    else
      let s2 :=
        if ServerShouldUseAuthoritativePosition N s1 ClientTimeStamp DeltaTime Accel
             ClientLoc RelativeClientLoc Base Bone ClientMovementMode
        then
          let LocDiff := (ComponentLocation s1 - ClientLoc)%vec in
          if negb (IsZero LocDiff)
             || negb (Nat.eqb ClientMovementMode (PackNetworkMovementMode N s1))
             || negb (SamePrimitive (GetMovementBase s1) Base)
             || match CharacterOwner s1 with
                | Some Owner => negb (Nat.eqb (BoneName (GetBasedMovement Owner)) Bone)
                | None => false
                end
          then
            let t1 := set_ComponentLocation s1 ClientLoc in
            let t2 := ApplyNetworkMovementMode N t1 ClientMovementMode in
            let t3 := SetBase N t2 Base Bone in
            let t4 := UpdateFloorFromAdjustment N t3 in
            let t5 := SaveBaseLocation N t4 in
            set_LastUpdate t5
              (if bUpdatedComponent t5 then ComponentLocation t5 else ZeroVector)
              (if bUpdatedComponent t5 then ComponentQuat t5 else Quat_Identity)
              (Velocity t5)
          else s1
        else s1 in
      (s2, MakeServerData (LastUpdateTime ServerData) false
             (ServerAck ClientTimeStamp (PendingAdjustment ServerData))).

(** ** Client: [ClientAdjustPosition_Implementation] *)

Record FClientCorrection : Type := MakeCorrection {
  Corr_TimeStamp : R;
  Corr_NewLocation : FVector;
  Corr_NewVelocity : FVector;
  Corr_NewBase : option UPrimitiveComponent;
  Corr_NewBaseBoneName : FName;
  bHasBase : bool;
  Corr_bBaseRelativePosition : bool;
  ServerMovementMode : uint8
}.

Definition bUnresolvedBase (C : FClientCorrection) : bool :=
  bHasBase C && match Corr_NewBase C with None => true | Some _ => false end.

Definition WorldShiftedNewLocation (N : NetEngine) (C : FClientCorrection) : FVector :=
  if Corr_bBaseRelativePosition C
  then (Corr_NewLocation C
        + fst (GetMovementBaseTransform N (Corr_NewBase C) (Corr_NewBaseBoneName C)))%vec
  else RebaseOntoLocalOrigin N (Corr_NewLocation C).

(** Lines 4014-4032: trust the server's positioning. *)
Definition ClientAdjust_snap (N : NetEngine) (C : FClientCorrection) (s : Movement)
    : Movement :=
  let s1 :=
    if bUpdatedComponent s then
      let DesiredAxisZ := ResponseAxisZ N s in
      let PawnRotation := ComponentQuat s in
      if negb (Coincident DesiredAxisZ (GetAxisZ PawnRotation) (ThresholdParallelCosine s))
      then set_ComponentQuat
             (set_ComponentLocation s (WorldShiftedNewLocation N C))
             (MakeFromZQuat N DesiredAxisZ PawnRotation (ThresholdParallelCosine s))
      else set_ComponentLocation s (WorldShiftedNewLocation N C)
    else s in
  set_Velocity s1 (Corr_NewVelocity C).

(** Lines 4034-4076: trust the server's movement mode, settle the base,
    refresh the floor and remember the update. *)
Definition ClientAdjust_finish (N : NetEngine) (E : Engine) (C : FClientCorrection)
    (s : Movement) : Movement :=
  let PreviousBase := GetMovementBase s in
  let s1 := ApplyNetworkMovementMode N s (ServerMovementMode C) in
  let '(FinalBase, FinalBaseBoneName, s2) :=
    if bUnresolvedBase C then
      match PreviousBase with
      | Some _ =>
          if bUpdatedComponent s1 then
            let '(Floor, t) := FindFloor E s1 (ComponentLocation s1) false None in
            let t' := set_CurrentFloor t Floor in
            if IsWalkableFloor Floor
            then (HitComponent (HitResult Floor), HitBoneName (HitResult Floor), t')
            else (None, NAME_None, t')
          else (Corr_NewBase C, Corr_NewBaseBoneName C, s1)
      | None => (Corr_NewBase C, Corr_NewBaseBoneName C, s1)
      end
    else (Corr_NewBase C, Corr_NewBaseBoneName C, s1) in
  let s3 := SetBase N s2 FinalBase FinalBaseBoneName in
  let s4 := UpdateFloorFromAdjustment N s3 in
  let s5 := set_bJustTeleported s4 true in
  let s6 := SaveBaseLocation N s5 in
  let s7 :=
    set_LastUpdate s6
      (if bUpdatedComponent s6 then ComponentLocation s6 else ZeroVector)
      (if bUpdatedComponent s6 then ComponentQuat s6 else Quat_Identity)
      (Velocity s6) in
  UpdateComponentVelocity N s7.

Definition ClientAdjustResult : Type :=
  (Movement * FNetworkPredictionData_Client_Character * list LogLine)%type.

(** [OnClientCorrectionReceived] only draws and logs debug output and is left
    out; the three [UE_LOG] lines of the function itself are the log that is
    returned. *)
Definition ClientAdjustPosition_Implementation (N : NetEngine) (E : Engine)
    (C : FClientCorrection) (s : Movement)
    (ClientData : FNetworkPredictionData_Client_Character) : ClientAdjustResult :=
  if negb (HasValidData s) || negb (bIsActive s) then (s, ClientData, [])
  else if bUnresolvedBase C && Corr_bBaseRelativePosition C
  then (s, ClientData, [Warning_UnresolvedRelativeBase])
  else
    let Logged := if bUnresolvedBase C then [Verbose_UnresolvedAbsoluteBase] else [] in
    match GetSavedMoveIndex N ClientData (Corr_TimeStamp C) with
    | None =>
        (s, ClientData,
         Logged ++ match LastAckedMove ClientData with
                   | Some _ => [Log_MoveNotFound]
                   | None => []
                   end)
    | Some MoveIndex =>
        let ClientData1 := AckMove N ClientData MoveIndex s in
        let s1 := ClientAdjust_finish N E C (ClientAdjust_snap N C s) in
        (s1,
         MakeClientData (SavedMoves ClientData1) (LastAckedMove ClientData1) true,
         Logged)
    end.

(** ** Sample data used to exercise the definitions *)

Definition SampleVolume : APhysicsVolume := MakeVolume false (-980) 0 None.

Definition SampleCharacter : ACharacter :=
  MakeCharacter 88 34 88 ROLE_Authority (MakeBased None NAME_None ZeroVector).

Definition SampleFloor : FFindFloorResult :=
  MakeFloor false false false 0 0 (FHitResult_Init 1).

Definition SampleMovement : Movement :=
  MakeMovement true ZeroVector Quat_Identity (Some SampleCharacter) true SampleVolume
    MOVE_Walking ZeroVector ZeroVector 1 Fixed DownVector ZeroVector None
    false false (71 / 100) 45 1 SampleFloor false false 0%Z 2%Z NINJA_NORMALS_PARALLEL false
    ZeroVector Quat_Identity ZeroVector.

(** A falling component in zero gravity ([GravityScale = 0]), moving along
    the world X axis. *)
Definition FloatingSample : Movement :=
  set_Acceleration
    (set_Velocity
       (set_GravityScale
          (set_MovementMode (set_ComponentLocation SampleMovement (MakeVector 1 2 3))
             MOVE_Falling)
          0)
       (MakeVector 1 0 0))
    (MakeVector 0 1 0).

(** An engine in empty space: every move succeeds without a hit. *)
Definition FreeMove (s : Movement) (Delta : FVector) (NewRotation : FQuat) (bSweep : bool)
    : Movement * FHitResult :=
  (set_ComponentQuat (set_ComponentLocation s (ComponentLocation s + Delta)) NewRotation,
   FHitResult_Init 1).

Definition SampleEngine : Engine :=
  MakeEngine (1 / 1000000) (19 / 10) (24 / 10) (15 / 100) 1%Z
    (fun _ _ => true)
    FreeMove
    FreeMove
    (fun s _ _ _ => s)
    (fun s _ _ _ Hit _ => (0, Hit, s))
    (fun s _ _ _ => (SampleFloor, s)).

(** A network engine that does nothing: no rebasing, no throttling, the
    error check always passes, and saved moves are looked up by time stamp. *)
Definition SampleNet : NetEngine :=
  MakeNet true 10 (fun _ => false)
    (fun _ _ => (ZeroVector, Quat_Identity))
    (fun v => v) (fun v => v)
    (fun _ => MakeRotator 0 0 0)
    (fun s _ _ _ _ _ _ _ _ => (false, s))
    (fun _ _ _ _ _ _ _ _ _ => false)
    (fun s => EMovementMode_to_uint8 (MovementMode s))
    (fun s _ => s)
    (fun s _ _ => s)
    (fun s => s) (fun s => s) (fun s => s)
    (fun cd t =>
       (fix find (l : list FSavedMove) (i : nat) : option nat :=
          match l with
          | [] => None
          | m :: l' => if Reqb (Saved_TimeStamp m) t then Some i else find l' (S i)
          end) (SavedMoves cd) 0%nat)
    (fun cd i _ => MakeClientData (skipn (S i) (SavedMoves cd))
                     (nth_error (SavedMoves cd) i) (bUpdatePosition cd))
    (fun s => GetAxisZ (ComponentQuat s))
    (fun _ q _ => q).

Definition SampleAdjustment : FClientAdjustment :=
  MakeAdjustment 0 0 ZeroVector ZeroVector (MakeRotator 0 0 0) None NAME_None true false
    0%nat.

(** * Further functions of the plugin *)

(** ** [FNinjaMath]: the other axes and the angle tests *)

Definition GetAxisX (Quat : FQuat) : FVector :=
  let Y2 := QY Quat * 2 in
  let Z2 := QZ Quat * 2 in
  MakeVector (1 - (QY Quat * Y2 + QZ Quat * Z2))
             (QX Quat * Y2 + QW Quat * Z2)
             (QX Quat * Z2 - QW Quat * Y2).

Definition GetAxisY (Quat : FQuat) : FVector :=
  let X2 := QX Quat * 2 in
  let Y2 := QY Quat * 2 in
  let Z2 := QZ Quat * 2 in
  MakeVector (QX Quat * Y2 - QW Quat * Z2)
             (1 - (QX Quat * X2 + QZ Quat * Z2))
             (QY Quat * Z2 + QW Quat * X2).

(** [NINJA_NORMALS_ORTHOGONAL], cos(89 degrees). *)
Definition NINJA_NORMALS_ORTHOGONAL : R := 1745240643 / 100000000000.

Definition Opposite (Vector1 Vector2 : FVector) (CosineThreshold : R) : bool :=
  Rleb (Dot Vector1 Vector2) (- CosineThreshold).

Definition Orthogonal (Vector1 Vector2 : FVector) (CosineThreshold : R) : bool :=
  Rleb (FMath_Abs (Dot Vector1 Vector2)) CosineThreshold.

Definition Parallel (Vector1 Vector2 : FVector) (CosineThreshold : R) : bool :=
  Rleb CosineThreshold (FMath_Abs (Dot Vector1 Vector2)).

(** [FVector::operator^], the cross product. *)
Definition Cross (a b : FVector) : FVector :=
  MakeVector (Y a * Z b - Z a * Y b) (Z a * X b - X a * Z b) (X a * Y b - Y a * X b).

(** ** Gravity: [GetGravity] *)

(** The engine's [UCharacterMovementComponent::GetGravityZ]: the gravity of
    the physics volume times [GravityScale]. *)
Definition Character_GetGravityZ (s : Movement) : R :=
  GetGravityZ (PhysicsVolume s) * GravityScale s.

Definition GetGravityMagnitude (s : Movement) : R :=
  FMath_Abs (Character_GetGravityZ s).

(** Lines 4491-4681.  [Strength] is the factor
    [FMath::Abs(UPawnMovementComponent::GetGravityZ()) * GravityScale] every
    case multiplies by; the caches are refreshed as in
    [GetGravityDirection]. *)
Definition GetGravity (s : Movement) : FVector * Movement :=
  if negb (HasValidData s) then (MakeVector 0 0 (Character_GetGravityZ s), s)
  else if Reqb (GravityScale s) 0 then (ZeroVector, s)
  else
    let Loc := ComponentLocation s in
    let Strength := FMath_Abs (GetGravityZ (PhysicsVolume s)) * GravityScale s in
    let Towards (Target : FVector) (s' : Movement) : FVector * Movement :=
      let GravityDir := (Target - Loc)%vec in
      (if negb (IsZero GravityDir) then GetSafeNormal GravityDir *v Strength
       else ZeroVector,
       s') in
    match GravityDirectionMode s with
    | Fixed => (GravityVectorA s *v Strength, s)
    | SplineTangent =>
        let s' :=
          match LiveGravitySpline s with
          | Some SplineComp =>
              set_GravityVectors s (FindDirectionClosestToWorldLocation SplineComp Loc)
                                 (GravityVectorB s)
          | None => s
          end in
        (GravityVectorA s' *v Strength, s')
    | Point =>
        let s' :=
          match LiveGravityActor s with
          | Some a => set_GravityVectors s (GetActorLocation a) (GravityVectorB s)
          | None => s
          end in
        Towards (GravityVectorA s') s'
    | Line =>
        Towards (ClosestPointOnInfiniteLine (GravityVectorA s) (GravityVectorB s) Loc) s
    | Segment =>
        Towards (ClosestPointOnLine (GravityVectorA s) (GravityVectorB s) Loc) s
    | Spline =>
        let s' :=
          match LiveGravitySpline s with
          | Some SplineComp =>
              set_GravityVectors s (FindLocationClosestToWorldLocation SplineComp Loc)
                                 (GravityVectorB s)
          | None => s
          end in
        Towards (GravityVectorA s') s'
    | Plane =>
        Towards (PointPlaneProject Loc (GravityVectorA s) (GravityVectorB s)) s
    | SplinePlane =>
        let s' :=
          match LiveGravitySpline s with
          | Some SplineComp =>
              let InputKey := FindInputKeyClosestToWorldLocation SplineComp Loc in
              let ClosestLocation := GetLocationAtSplineInputKey SplineComp InputKey in
              let ClosestUpVector := GetUpVectorAtSplineInputKey SplineComp InputKey in
              set_GravityVectors s
                (PointPlaneProject Loc ClosestLocation ClosestUpVector) ClosestUpVector
          | None => s
          end in
        Towards (GravityVectorA s') s'
    | Box =>
        let s' :=
          match LiveGravityActor s with
          | Some a =>
              set_GravityVectors s (fst (GetActorBounds a)) (snd (GetActorBounds a))
          | None => s
          end in
        Towards (FBox_GetClosestPointTo (GravityVectorA s' - GravityVectorB s')
                                        (GravityVectorA s' + GravityVectorB s') Loc) s'
    | Collision =>
        let s' :=
          match LiveGravityActor s with
          | Some a =>
              if Rltb 0 (fst (GetClosestPointOnCollision a Loc))
              then set_GravityVectors s (snd (GetClosestPointOnCollision a Loc))
                                      (GravityVectorB s)
              else s
          | None => s
          end in
        Towards (GravityVectorA s') s'
    | _ => (ZeroVector, s)
    end.

(** ** The rest of the component *)

(** The members that the functions of the first part do not read; [Core] is
    the state those functions work on. *)
Record NinjaComponent : Type := MakeComponent {
  Core : Movement;
  AirControl : R;
  AirControlBoostMultiplier : R;
  AirControlBoostVelocityThreshold : R;
  JumpZVelocity : R;
  bConstrainToPlane : bool;
  PlaneConstraintNormal : FVector;
  bDirtyGravityDirection : bool;
  OldGravityScale : R;
  bAlignGravityToBase : bool;
  bAlignComponentToFloor : bool;
  bAlignComponentToGravity : bool;
  ThresholdParallelAngle : R;
  ThresholdOrthogonalCosine : R
}.

Definition set_Core (c : NinjaComponent) (s : Movement) : NinjaComponent :=
  MakeComponent s (AirControl c) (AirControlBoostMultiplier c)
    (AirControlBoostVelocityThreshold c) (JumpZVelocity c) (bConstrainToPlane c)
    (PlaneConstraintNormal c) (bDirtyGravityDirection c) (OldGravityScale c)
    (bAlignGravityToBase c) (bAlignComponentToFloor c) (bAlignComponentToGravity c)
    (ThresholdParallelAngle c) (ThresholdOrthogonalCosine c).

Definition set_bDirtyGravityDirection (c : NinjaComponent) (b : bool) : NinjaComponent :=
  MakeComponent (Core c) (AirControl c) (AirControlBoostMultiplier c)
    (AirControlBoostVelocityThreshold c) (JumpZVelocity c) (bConstrainToPlane c)
    (PlaneConstraintNormal c) b (OldGravityScale c)
    (bAlignGravityToBase c) (bAlignComponentToFloor c) (bAlignComponentToGravity c)
    (ThresholdParallelAngle c) (ThresholdOrthogonalCosine c).

Definition set_OldGravityScale (c : NinjaComponent) (r : R) : NinjaComponent :=
  MakeComponent (Core c) (AirControl c) (AirControlBoostMultiplier c)
    (AirControlBoostVelocityThreshold c) (JumpZVelocity c) (bConstrainToPlane c)
    (PlaneConstraintNormal c) (bDirtyGravityDirection c) r
    (bAlignGravityToBase c) (bAlignComponentToFloor c) (bAlignComponentToGravity c)
    (ThresholdParallelAngle c) (ThresholdOrthogonalCosine c).

(** The inherited implementations ([Super::], [UPawnMovementComponent::]) and
    the owner's queries that the functions below call. *)
Record Super : Type := MakeSuper {
  HasAnimRootMotion : Movement -> bool;
  GetMaxAcceleration : Movement -> R;
  CanJump : Movement -> bool;
  SetMovementMode : Movement -> EMovementMode -> Movement;
  Pawn_TwoWallAdjust : Movement -> FVector -> FHitResult -> FVector -> FVector;
  Pawn_SlideAlongSurface :
    Movement -> FVector -> R -> FVector -> FHitResult -> bool
    -> R * FHitResult * Movement;
  Pawn_ComputeSlideVector : Movement -> FVector -> R -> FVector -> FHitResult -> FVector
}.

Definition VERTICAL_SLOPE_NORMAL_Z : R := 1 / 1000.

(** [DELTA] of the engine's math header. *)
Definition DELTA : R := 1 / 100000.

(** [FVector::GetClampedToMaxSize]. *)
Definition GetClampedToMaxSize (a : FVector) (MaxSize : R) : FVector :=
  if Rltb MaxSize KINDA_SMALL_NUMBER then ZeroVector
  else
    let VSq := SizeSquared a in
    if Rltb (FMath_Square MaxSize) VSq
    then a *v (MaxSize * FMath_InvSqrt VSq)
    else a.

(** ** Jumping: [GetMaxJumpHeight], [DoJump] *)

Definition GetMaxJumpHeight (c : NinjaComponent) : R :=
  let GravityMagnitude := GetGravityMagnitude (Core c) in
  if Rltb KINDA_SMALL_NUMBER GravityMagnitude
  then FMath_Square (JumpZVelocity c) / (2 * GravityMagnitude)
  else 0.

(** The velocity [DoJump] gives the component before it switches to
    falling: the vertical part is removed and replaced by the larger of
    the old vertical speed and [JumpZVelocity]. *)
Definition DoJump_Velocity (c : NinjaComponent) : FVector :=
  let JumpDir := GetComponentAxisZ (Core c) in
  let VelocityZ := Dot (Velocity (Core c)) JumpDir in
  (VectorPlaneProject (Velocity (Core c)) JumpDir
   + JumpDir *v FMath_Max VelocityZ (JumpZVelocity c))%vec.

Definition DoJump (S : Super) (c : NinjaComponent) (bReplayingMoves : bool)
    : bool * NinjaComponent :=
  match CharacterOwner (Core c) with
  | Some _ =>
      if CanJump S (Core c) then
        let JumpDir := GetComponentAxisZ (Core c) in
        if negb (bConstrainToPlane c)
           || Rltb (FMath_Abs (Dot (PlaneConstraintNormal c) JumpDir)) (1 / 2)
        then
          (true,
           set_Core c
             (SetMovementMode S (set_Velocity (Core c) (DoJump_Velocity c)) MOVE_Falling))
        else (false, c)
      else (false, c)
  | None => (false, c)
  end.

(** ** Input: [ConstrainInputAcceleration] *)

Definition ConstrainInputAcceleration (s : Movement) (InputAcceleration : FVector)
    : FVector :=
  if IsMovingOnGround s || IsFalling s
  then VectorPlaneProject InputAcceleration (GetComponentAxisZ s)
  else InputAcceleration.

(** ** Air control *)

Definition BoostAirControlEx (c : NinjaComponent) (DeltaTime TickAirControl : R)
    (FallAcceleration GravDir : FVector) : R :=
  if Rltb 0 (AirControlBoostMultiplier c)
     && Rltb (SizeSquared (VectorPlaneProject (Velocity (Core c)) GravDir))
             (FMath_Square (AirControlBoostVelocityThreshold c))
  then FMath_Min 1 (AirControlBoostMultiplier c * TickAirControl)
  else TickAirControl.

Definition GetAirControlEx (c : NinjaComponent) (DeltaTime TickAirControl : R)
    (FallAcceleration GravDir : FVector) : FVector :=
  let TickAirControl' :=
    if negb (Reqb TickAirControl 0)
    then BoostAirControlEx c DeltaTime TickAirControl FallAcceleration GravDir
    else TickAirControl in
  FallAcceleration *v TickAirControl'.

Definition GetFallingLateralAccelerationEx (S : Super) (c : NinjaComponent)
    (DeltaTime : R) (GravDir : FVector) : FVector :=
  let FallAcceleration := VectorPlaneProject (Acceleration (Core c)) GravDir in
  if negb (HasAnimRootMotion S (Core c)) && Rltb 0 (SizeSquared FallAcceleration)
  then
    GetClampedToMaxSize
      (GetAirControlEx c DeltaTime (AirControl c) FallAcceleration GravDir)
      (GetMaxAcceleration S (Core c))
  else FallAcceleration.

Definition ShouldLimitAirControl (DeltaTime : R) (FallAcceleration : FVector) : bool :=
  Rltb 0 (SizeSquared FallAcceleration).

(** ** Landing: [IsValidLandingSpot], [LimitAirControlEx] *)

(** The checks of lines 3198-3240, made before the floor is searched. *)
Definition LandingSpot_precheck (E : Engine) (s : Movement) (Hit : FHitResult)
    : bool * Movement :=
  let CapsuleDown := GetComponentAxisZ s *v (-1) in
  if negb (bStartPenetrating Hit) then
    let '(bWalkable, s') := IsWalkable s Hit in
    if negb bWalkable then (false, s')
    else
      let '(PawnRadius, PawnHalfHeight) := GetScaledCapsuleSize s' in
      let BottomPoint :=
        (Location Hit + CapsuleDown *v FMath_Max 0 (PawnHalfHeight - PawnRadius))%vec in
      let TopPoint := (Location Hit - CapsuleDown)%vec in
      let Segment := (TopPoint - BottomPoint)%vec in
      let Alpha := Dot (ImpactPoint Hit - BottomPoint) Segment / SizeSquared Segment in
      if Rleb 0 Alpha then (false, s')
      else if negb (IsWithinEdgeToleranceEx E (Location Hit) CapsuleDown PawnRadius
                      (ImpactPoint Hit))
      then (false, s')
      else (true, s')
  else if Rltb (- KINDA_SMALL_NUMBER) (Dot (Normal Hit) CapsuleDown) then (false, s)
  else (true, s).

Definition IsValidLandingSpot (E : Engine) (s : Movement) (CapsuleLocation : FVector)
    (Hit : FHitResult) : bool * Movement :=
  if negb (bBlockingHit Hit) then (false, s)
  else
    let '(bOk, s1) := LandingSpot_precheck E s Hit in
    if negb bOk then (false, s1)
    else
      let '(FloorResult, s2) := FindFloor E s1 CapsuleLocation false (Some Hit) in
      (IsWalkableFloor FloorResult, s2).

Definition LimitAirControlEx (E : Engine) (s : Movement) (DeltaTime : R)
    (FallAcceleration : FVector) (HitResult' : FHitResult) (GravDir : FVector)
    (bCheckForValidLandingSpot : bool) : FVector * Movement :=
  if IsValidBlockingHit HitResult'
     && Rltb (Dot (Normal HitResult') GravDir) (- VERTICAL_SLOPE_NORMAL_Z)
  then
    let '(bLanding, s') :=
      if bCheckForValidLandingSpot
      then IsValidLandingSpot E s (Location HitResult') HitResult'
      else (false, s) in
    if negb bLanding && Rltb (Dot FallAcceleration (Normal HitResult')) 0 then
      let Normal2D := GetSafeNormal (VectorPlaneProject (Normal HitResult') GravDir) in
      (VectorPlaneProject FallAcceleration Normal2D, s')
    else (FallAcceleration, s')
  else if bStartPenetrating HitResult' then
    (if Rltb 0 (Dot FallAcceleration (Normal HitResult')) then FallAcceleration
     else ZeroVector, s)
  else (FallAcceleration, s).

(** ** Sliding: [SlideAlongSurface], [TwoWallAdjust], [HandleSlopeBoosting] *)

(** The normal [NewNormal] that [SlideAlongSurface] computes (lines
    1110-1139) before it calls the inherited implementation. *)
Definition SlideAlongSurface_Normal (E : Engine) (s : Movement)
    (Delta InNormal : FVector) (Hit : FHitResult) : FVector * Movement :=
  if IsMovingOnGround s then
    let CapsuleUp := GetComponentAxisZ s in
    let Dot' := Dot InNormal CapsuleUp in
    if Rltb 0 Dot' then
      let '(bWalkable, s') := IsWalkable s Hit in
      if negb bWalkable
      then (GetSafeNormal (VectorPlaneProject InNormal CapsuleUp), s')
      else (InNormal, s')
    else if Rltb Dot' (- KINDA_SMALL_NUMBER) then
      if Rltb (FloorDist (CurrentFloor s)) (MIN_FLOOR_DIST E)
         && Floor_bBlockingHit (CurrentFloor s)
      then
        let FloorNormal := Normal (HitResult (CurrentFloor s)) in
        let bFloorOpposedToMovement :=
          Rltb (Dot Delta FloorNormal) 0 && Rltb (Dot FloorNormal CapsuleUp) (1 - DELTA) in
        let NewNormal := if bFloorOpposedToMovement then FloorNormal else InNormal in
        (GetSafeNormal (VectorPlaneProject NewNormal CapsuleUp), s)
      else (InNormal, s)
    else (InNormal, s)
  else (InNormal, s).

(** The component's own [SlideAlongSurface]; the name without prefix is the
    virtual call of the first part. *)
Definition Ninja_SlideAlongSurface (E : Engine) (S : Super) (s : Movement)
    (Delta : FVector) (Time' : R) (InNormal : FVector) (Hit : FHitResult)
    (bHandleImpact : bool) : R * FHitResult * Movement :=
  if negb (bBlockingHit Hit) then (0, Hit, s)
  else
    let '(NewNormal, s') := SlideAlongSurface_Normal E s Delta InNormal Hit in
    Pawn_SlideAlongSurface S s' Delta Time' NewNormal Hit bHandleImpact.

Definition TwoWallAdjust (E : Engine) (S : Super) (s : Movement) (Delta : FVector)
    (Hit : FHitResult) (OldHitNormal : FVector) : FVector * Movement :=
  let InDelta := Delta in
  let Delta := Pawn_TwoWallAdjust S s Delta Hit OldHitNormal in
  if IsMovingOnGround s then
    let CapsuleUp := GetComponentAxisZ s in
    let DotDelta := Dot Delta CapsuleUp in
    if Rltb 0 DotDelta then
      let DotHitNormal := Dot (Normal Hit) CapsuleUp in
      let '(bSlideUp, s') :=
        if Rltb KINDA_SMALL_NUMBER DotHitNormal then
          if Rleb (GetWalkableFloorZ s) DotHitNormal then (true, s)
          else IsWalkable s Hit
        else (false, s) in
      if bSlideUp then
        let Time' := 1 - Time Hit in
        let ScaledDelta := GetSafeNormal Delta *v Size InDelta in
        let Delta :=
          (VectorPlaneProject InDelta CapsuleUp
           + CapsuleUp *v (Dot ScaledDelta CapsuleUp / DotHitNormal))%vec *v Time' in
        let DeltaZ := Dot Delta CapsuleUp in
        if Rltb (MaxStepHeight s) DeltaZ
        then (Delta *v (MaxStepHeight s / DeltaZ), s')
        else (Delta, s')
      else (VectorPlaneProject Delta CapsuleUp, s')
    else if Rltb DotDelta 0 then
      if Rltb (FloorDist (CurrentFloor s)) (MIN_FLOOR_DIST E)
         && Floor_bBlockingHit (CurrentFloor s)
      then (VectorPlaneProject Delta CapsuleUp, s)
      else (Delta, s)
    else (Delta, s)
  else (Delta, s).

Definition HandleSlopeBoosting (S : Super) (s : Movement) (SlideResult Delta : FVector)
    (Time' : R) (Normal' : FVector) (Hit : FHitResult) : FVector :=
  let CapsuleUp := GetComponentAxisZ s in
  let Dot' := Dot SlideResult CapsuleUp in
  if Rltb 0 Dot' then
    let ZLimit := Dot Delta CapsuleUp * Time' in
    if Rltb KINDA_SMALL_NUMBER (Dot' - ZLimit) then
      let Result :=
        if Rltb 0 ZLimit then SlideResult *v (ZLimit / Dot') else ZeroVector in
      let RemainderXY := VectorPlaneProject (SlideResult - Result) CapsuleUp in
      let NormalXY := GetSafeNormal (VectorPlaneProject Normal' CapsuleUp) in
      let Adjust := Pawn_ComputeSlideVector S s RemainderXY 1 NormalXY Hit in
      (Result + Adjust)%vec
    else SlideResult
  else SlideResult.

(** ** Edge tolerance *)

Definition IsWithinEdgeTolerance (E : Engine) (s : Movement)
    (CapsuleLocation TestImpactPoint : FVector) (CapsuleRadius' : R) : bool :=
  IsWithinEdgeToleranceEx E CapsuleLocation (GetComponentAxisZ s *v (-1)) CapsuleRadius'
    TestImpactPoint.

(** ** Gravity settings: the setters, their multicast counterparts,
    [UpdateGravity] and [ReplicateGravityToClients] *)

Definition ENinjaGravityDirectionMode_eqb (a b : ENinjaGravityDirectionMode) : bool :=
  match a, b with
  | Fixed, Fixed | SplineTangent, SplineTangent | Point, Point | Line, Line
  | Segment, Segment | Spline, Spline | Plane, Plane | SplinePlane, SplinePlane
  | Box, Box | Collision, Collision
  | Unused1, Unused1 | Unused2, Unused2 | Unused3, Unused3 | Unused4, Unused4
  | Unused5, Unused5 | Unused6, Unused6 | Unused7, Unused7 | Unused8, Unused8
  | Unused9, Unused9 => true
  | _, _ => false
  end.

(** What the functions below ask of actors: [ActorAddress] is the pointer,
    compared by [==]; [HasRootPrimitive] says whether
    [Cast<UPrimitiveComponent>(GetRootComponent())] is not null;
    [Hit_GetActor] is [FHitResult::GetActor]. *)
Record Actors : Type := MakeActors {
  ActorAddress : AActor -> nat;
  HasRootPrimitive : AActor -> bool;
  Hit_GetActor : FHitResult -> option AActor
}.

(** [GravityActor == NewGravityActor] on two pointers that may be null. *)
Definition SameActor (A : Actors) (a b : option AActor) : bool :=
  match a, b with
  | None, None => true
  | Some x, Some y => Nat.eqb (ActorAddress A x) (ActorAddress A y)
  | _, _ => false
  end.

(** A call of [OnGravityDirectionChanged(Old, Current)], which the owner's
    delegate receives too when the owner is an [ANinjaCharacter]. *)
Definition GravityNotification : Type :=
  (ENinjaGravityDirectionMode * ENinjaGravityDirectionMode)%type.

Definition GravityDirectionChanged (c : NinjaComponent)
    (OldGravityDirectionMode : ENinjaGravityDirectionMode) : list GravityNotification :=
  [(OldGravityDirectionMode, GravityDirectionMode (Core c))].

(** The tail every setter shares: the old mode is remembered, the setters
    of the server mark the direction dirty ([bDirty]), the mode and the
    data it needs are assigned, and the change is notified. *)
Definition AssignGravityDirection (c : NinjaComponent) (bDirty : bool)
    (m : ENinjaGravityDirectionMode) (a b : FVector) (g : option AActor)
    : NinjaComponent * list GravityNotification :=
  let OldGravityDirectionMode := GravityDirectionMode (Core c) in
  let c1 := if bDirty then set_bDirtyGravityDirection c true else c in
  let c2 := set_Core c1 (set_GravityDirection (Core c1) m a b g) in
  (c2, GravityDirectionChanged c2 OldGravityDirectionMode).

Definition InMode (c : NinjaComponent) (m : ENinjaGravityDirectionMode) : bool :=
  ENinjaGravityDirectionMode_eqb (GravityDirectionMode (Core c)) m.

Definition SetFixedGravityDirection (c : NinjaComponent)
    (NewFixedGravityDirection : FVector) : NinjaComponent * list GravityNotification :=
  if IsZero NewFixedGravityDirection
     || (InMode c Fixed && vec_eqb (GravityVectorA (Core c)) NewFixedGravityDirection)
  then (c, [])
  else AssignGravityDirection c true Fixed NewFixedGravityDirection
         (GravityVectorB (Core c)) (GravityActor (Core c)).

Definition K2_SetFixedGravityDirection (c : NinjaComponent)
    (NewGravityDirection : FVector) : NinjaComponent * list GravityNotification :=
  SetFixedGravityDirection c (GetSafeNormal NewGravityDirection).

Definition MulticastSetFixedGravityDirection_Implementation (c : NinjaComponent)
    (NewFixedGravityDirection : FVector) : NinjaComponent * list GravityNotification :=
  if InMode c Fixed && vec_eqb (GravityVectorA (Core c)) NewFixedGravityDirection
  then (c, [])
  else AssignGravityDirection c false Fixed NewFixedGravityDirection
         (GravityVectorB (Core c)) (GravityActor (Core c)).

(** The setters that take a spline actor: nothing happens without an actor,
    for the actor already set, or for an actor without spline component. *)
Definition SetSplineActorGravityDirection (A : Actors) (m : ENinjaGravityDirectionMode)
    (c : NinjaComponent) (NewGravityActor : option AActor)
    : NinjaComponent * list GravityNotification :=
  match NewGravityActor with
  | None => (c, [])
  | Some a =>
      if InMode c m && SameActor A (GravityActor (Core c)) NewGravityActor then (c, [])
      else
        match GetSplineComponent a with
        | Some _ =>
            AssignGravityDirection c true m (GravityVectorA (Core c))
              (GravityVectorB (Core c)) NewGravityActor
        | None => (c, [])
        end
  end.

(** The multicast counterparts that take an actor. *)
Definition MulticastSetActorGravityDirection (A : Actors) (m : ENinjaGravityDirectionMode)
    (c : NinjaComponent) (NewGravityActor : option AActor)
    : NinjaComponent * list GravityNotification :=
  if InMode c m && SameActor A (GravityActor (Core c)) NewGravityActor then (c, [])
  else AssignGravityDirection c false m (GravityVectorA (Core c))
         (GravityVectorB (Core c)) NewGravityActor.

Definition SetSplineTangentGravityDirection (A : Actors) :=
  SetSplineActorGravityDirection A SplineTangent.

Definition MulticastSetSplineTangentGravityDirection_Implementation (A : Actors) :=
  MulticastSetActorGravityDirection A SplineTangent.

Definition SetPointGravityDirection (c : NinjaComponent) (NewGravityPoint : FVector)
    : NinjaComponent * list GravityNotification :=
  if InMode c Point && vec_eqb (GravityVectorA (Core c)) NewGravityPoint then (c, [])
  else AssignGravityDirection c true Point NewGravityPoint (GravityVectorB (Core c)) None.

Definition SetPointGravityDirectionFromActor (A : Actors) (c : NinjaComponent)
    (NewGravityActor : option AActor) : NinjaComponent * list GravityNotification :=
  if InMode c Point && SameActor A (GravityActor (Core c)) NewGravityActor then (c, [])
  else AssignGravityDirection c true Point (GravityVectorA (Core c))
         (GravityVectorB (Core c)) NewGravityActor.

Definition MulticastSetPointGravityDirection_Implementation (c : NinjaComponent)
    (NewGravityPoint : FVector) : NinjaComponent * list GravityNotification :=
  if InMode c Point && vec_eqb (GravityVectorA (Core c)) NewGravityPoint then (c, [])
  else AssignGravityDirection c false Point NewGravityPoint (GravityVectorB (Core c)) None.

Definition MulticastSetPointGravityDirectionFromActor_Implementation (A : Actors) :=
  MulticastSetActorGravityDirection A Point.

(** Line and segment share their code but for the mode. *)
Definition SetTwoPointGravityDirection (m : ENinjaGravityDirectionMode)
    (c : NinjaComponent) (NewStart NewEnd : FVector)
    : NinjaComponent * list GravityNotification :=
  if vec_eqb NewStart NewEnd
     || (InMode c m && vec_eqb (GravityVectorA (Core c)) NewStart
         && vec_eqb (GravityVectorB (Core c)) NewEnd)
  then (c, [])
  else AssignGravityDirection c true m NewStart NewEnd (GravityActor (Core c)).

(** The multicast counterparts that take two vectors and keep the actor. *)
Definition MulticastSetTwoVectorGravityDirection (m : ENinjaGravityDirectionMode)
    (c : NinjaComponent) (NewA NewB : FVector)
    : NinjaComponent * list GravityNotification :=
  if InMode c m && vec_eqb (GravityVectorA (Core c)) NewA
     && vec_eqb (GravityVectorB (Core c)) NewB
  then (c, [])
  else AssignGravityDirection c false m NewA NewB (GravityActor (Core c)).

Definition SetLineGravityDirection := SetTwoPointGravityDirection Line.
Definition MulticastSetLineGravityDirection_Implementation :=
  MulticastSetTwoVectorGravityDirection Line.
Definition SetSegmentGravityDirection := SetTwoPointGravityDirection Segment.
Definition MulticastSetSegmentGravityDirection_Implementation :=
  MulticastSetTwoVectorGravityDirection Segment.

Definition SetSplineGravityDirection (A : Actors) :=
  SetSplineActorGravityDirection A Spline.
Definition MulticastSetSplineGravityDirection_Implementation (A : Actors) :=
  MulticastSetActorGravityDirection A Spline.

Definition SetPlaneGravityDirection (c : NinjaComponent)
    (NewGravityPlaneBase NewGravityPlaneNormal : FVector)
    : NinjaComponent * list GravityNotification :=
  if IsZero NewGravityPlaneNormal
     || (InMode c Plane && vec_eqb (GravityVectorA (Core c)) NewGravityPlaneBase
         && vec_eqb (GravityVectorB (Core c)) NewGravityPlaneNormal)
  then (c, [])
  else AssignGravityDirection c true Plane NewGravityPlaneBase NewGravityPlaneNormal
         (GravityActor (Core c)).

Definition K2_SetPlaneGravityDirection (c : NinjaComponent)
    (NewGravityPlaneBase NewGravityPlaneNormal : FVector)
    : NinjaComponent * list GravityNotification :=
  SetPlaneGravityDirection c NewGravityPlaneBase (GetSafeNormal NewGravityPlaneNormal).

Definition MulticastSetPlaneGravityDirection_Implementation :=
  MulticastSetTwoVectorGravityDirection Plane.

Definition SetSplinePlaneGravityDirection (A : Actors) :=
  SetSplineActorGravityDirection A SplinePlane.
Definition MulticastSetSplinePlaneGravityDirection_Implementation (A : Actors) :=
  MulticastSetActorGravityDirection A SplinePlane.

Definition SetBoxGravityDirection (c : NinjaComponent)
    (NewGravityBoxOrigin NewGravityBoxExtent : FVector)
    : NinjaComponent * list GravityNotification :=
  if InMode c Box && vec_eqb (GravityVectorA (Core c)) NewGravityBoxOrigin
     && vec_eqb (GravityVectorB (Core c)) NewGravityBoxExtent
  then (c, [])
  else AssignGravityDirection c true Box NewGravityBoxOrigin NewGravityBoxExtent None.

Definition SetBoxGravityDirectionFromActor (A : Actors) (c : NinjaComponent)
    (NewGravityActor : option AActor) : NinjaComponent * list GravityNotification :=
  if InMode c Box && SameActor A (GravityActor (Core c)) NewGravityActor then (c, [])
  else AssignGravityDirection c true Box (GravityVectorA (Core c))
         (GravityVectorB (Core c)) NewGravityActor.

Definition MulticastSetBoxGravityDirection_Implementation (c : NinjaComponent)
    (NewGravityBoxOrigin NewGravityBoxExtent : FVector)
    : NinjaComponent * list GravityNotification :=
  if InMode c Box && vec_eqb (GravityVectorA (Core c)) NewGravityBoxOrigin
     && vec_eqb (GravityVectorB (Core c)) NewGravityBoxExtent
  then (c, [])
  else AssignGravityDirection c false Box NewGravityBoxOrigin NewGravityBoxExtent None.

Definition MulticastSetBoxGravityDirectionFromActor_Implementation (A : Actors) :=
  MulticastSetActorGravityDirection A Box.

Definition SetCollisionGravityDirection (A : Actors) (c : NinjaComponent)
    (NewGravityActor : option AActor) : NinjaComponent * list GravityNotification :=
  match NewGravityActor with
  | None => (c, [])
  | Some a =>
      if InMode c Collision && SameActor A (GravityActor (Core c)) NewGravityActor
      then (c, [])
      else if HasRootPrimitive A a then
        AssignGravityDirection c true Collision (GravityVectorA (Core c))
          (GravityVectorB (Core c)) NewGravityActor
      else (c, [])
  end.

Definition MulticastSetCollisionGravityDirection_Implementation (A : Actors) :=
  MulticastSetActorGravityDirection A Collision.

Definition MulticastSetGravityScale_Implementation (c : NinjaComponent)
    (NewGravityScale : R) : NinjaComponent * list GravityNotification :=
  (set_Core c (set_GravityScale (Core c) NewGravityScale), []).

(** The multicast calls of the component, as sent to every machine. *)
Inductive GravityMulticast : Type :=
| MulticastSetFixedGravityDirection (NewFixedGravityDirection : FVector)
| MulticastSetSplineTangentGravityDirection (NewGravityActor : option AActor)
| MulticastSetPointGravityDirection (NewGravityPoint : FVector)
| MulticastSetPointGravityDirectionFromActor (NewGravityActor : option AActor)
| MulticastSetLineGravityDirection (NewGravityLineStart NewGravityLineEnd : FVector)
| MulticastSetSegmentGravityDirection (NewGravitySegmentStart NewGravitySegmentEnd : FVector)
| MulticastSetSplineGravityDirection (NewGravityActor : option AActor)
| MulticastSetPlaneGravityDirection (NewGravityPlaneBase NewGravityPlaneNormal : FVector)
| MulticastSetSplinePlaneGravityDirection (NewGravityActor : option AActor)
| MulticastSetBoxGravityDirection (NewGravityBoxOrigin NewGravityBoxExtent : FVector)
| MulticastSetBoxGravityDirectionFromActor (NewGravityActor : option AActor)
| MulticastSetCollisionGravityDirection (NewGravityActor : option AActor)
| MulticastSetGravityScale (NewGravityScale : R).

(** What a machine does when a multicast call reaches it. *)
Definition Multicast_Implementation (A : Actors) (c : NinjaComponent)
    (Call : GravityMulticast) : NinjaComponent * list GravityNotification :=
  match Call with
  | MulticastSetFixedGravityDirection v =>
      MulticastSetFixedGravityDirection_Implementation c v
  | MulticastSetSplineTangentGravityDirection g =>
      MulticastSetSplineTangentGravityDirection_Implementation A c g
  | MulticastSetPointGravityDirection v =>
      MulticastSetPointGravityDirection_Implementation c v
  | MulticastSetPointGravityDirectionFromActor g =>
      MulticastSetPointGravityDirectionFromActor_Implementation A c g
  | MulticastSetLineGravityDirection a b =>
      MulticastSetLineGravityDirection_Implementation c a b
  | MulticastSetSegmentGravityDirection a b =>
      MulticastSetSegmentGravityDirection_Implementation c a b
  | MulticastSetSplineGravityDirection g =>
      MulticastSetSplineGravityDirection_Implementation A c g
  | MulticastSetPlaneGravityDirection a b =>
      MulticastSetPlaneGravityDirection_Implementation c a b
  | MulticastSetSplinePlaneGravityDirection g =>
      MulticastSetSplinePlaneGravityDirection_Implementation A c g
  | MulticastSetBoxGravityDirection a b =>
      MulticastSetBoxGravityDirection_Implementation c a b
  | MulticastSetBoxGravityDirectionFromActor g =>
      MulticastSetBoxGravityDirectionFromActor_Implementation A c g
  | MulticastSetCollisionGravityDirection g =>
      MulticastSetCollisionGravityDirection_Implementation A c g
  | MulticastSetGravityScale k =>
      MulticastSetGravityScale_Implementation c k
  end.

(** A machine that receives calls runs them in order. *)
Fixpoint ReceiveMulticasts (A : Actors) (c : NinjaComponent)
    (Calls : list GravityMulticast) : NinjaComponent * list GravityNotification :=
  match Calls with
  | [] => (c, [])
  | Call :: Rest =>
      let '(c1, n1) := Multicast_Implementation A c Call in
      let '(c2, n2) := ReceiveMulticasts A c1 Rest in
      (c2, n1 ++ n2)
  end.

(** A multicast call made on the server: the call is sent to the clients
    and runs on the server itself as well. *)
Definition Multicast (A : Actors) (c : NinjaComponent) (Call : GravityMulticast)
    : NinjaComponent * list GravityMulticast * list GravityNotification :=
  let '(c', n) := Multicast_Implementation A c Call in (c', [Call], n).

(** The first block of [ReplicateGravityToClients]: the direction, when it
    is dirty. *)
Definition ReplicateGravityDirection (A : Actors) (c : NinjaComponent)
    : NinjaComponent * list GravityMulticast * list GravityNotification :=
  if bDirtyGravityDirection c then
    let s := Core c in
    let '(c', Sent, n) :=
      match GravityDirectionMode s with
      | Fixed => Multicast A c (MulticastSetFixedGravityDirection (GravityVectorA s))
      | SplineTangent =>
          Multicast A c (MulticastSetSplineTangentGravityDirection (GravityActor s))
      | Point => Multicast A c (MulticastSetPointGravityDirection (GravityVectorA s))
      | Line =>
          Multicast A c
            (MulticastSetLineGravityDirection (GravityVectorA s) (GravityVectorB s))
      | Segment =>
          Multicast A c
            (MulticastSetSegmentGravityDirection (GravityVectorA s) (GravityVectorB s))
      | Spline => Multicast A c (MulticastSetSplineGravityDirection (GravityActor s))
      | Plane =>
          Multicast A c
            (MulticastSetPlaneGravityDirection (GravityVectorA s) (GravityVectorB s))
      | SplinePlane =>
          Multicast A c (MulticastSetSplinePlaneGravityDirection (GravityActor s))
      | Box =>
          Multicast A c
            (MulticastSetBoxGravityDirection (GravityVectorA s) (GravityVectorB s))
      | Collision =>
          Multicast A c (MulticastSetCollisionGravityDirection (GravityActor s))
      | _ => (c, [], [])
      end in
    (set_bDirtyGravityDirection c' false, Sent, n)
  else (c, [], []).

(** The whole function: the direction block, then the scale when it differs
    from the one remembered. *)
Definition ReplicateGravityToClients (A : Actors) (c : NinjaComponent)
    : NinjaComponent * list GravityMulticast * list GravityNotification :=
  let '(c1, Sent1, n1) := ReplicateGravityDirection A c in
  if negb (Reqb (OldGravityScale c1) (GravityScale (Core c1))) then
    let '(c2, Sent2, n2) :=
      Multicast A c1 (MulticastSetGravityScale (GravityScale (Core c1))) in
    (set_OldGravityScale c2 (GravityScale (Core c2)), Sent1 ++ Sent2, n1 ++ n2)
  else (c1, Sent1, n1).

Definition UpdateGravity (A : Actors) (c : NinjaComponent)
    : NinjaComponent * list GravityNotification :=
  if negb (bAlignGravityToBase c) || negb (IsMovingOnGround (Core c)) then (c, [])
  else
    let Floor := HitResult (CurrentFloor (Core c)) in
    match GravityDirectionMode (Core c) with
    | Fixed =>
        if negb (IsZero (ImpactNormal Floor))
        then SetFixedGravityDirection c (ImpactNormal Floor *v (-1))
        else (c, [])
    | Point =>
        match Hit_GetActor A Floor with
        | Some a => SetPointGravityDirectionFromActor A c (Some a)
        | None => (c, [])
        end
    | Box =>
        match Hit_GetActor A Floor with
        | Some a => SetBoxGravityDirectionFromActor A c (Some a)
        | None => (c, [])
        end
    | Collision =>
        match Hit_GetActor A Floor with
        | Some a => SetCollisionGravityDirection A c (Some a)
        | None => (c, [])
        end
    | _ => (c, [])
    end.

(** The contract of a setter of the server for the mode [m]: a call either
    changes nothing and notifies nothing, or leaves the component in mode
    [m], marked dirty, and notifies once with the mode before and [m]; the
    same call made again then does nothing. *)
Definition GravitySetterContract (m : ENinjaGravityDirectionMode)
    (f : NinjaComponent -> NinjaComponent * list GravityNotification) : Prop :=
  forall c : NinjaComponent,
    (f c = (c, []) \/
     (GravityDirectionMode (Core (fst (f c))) = m /\
      bDirtyGravityDirection (fst (f c)) = true /\
      snd (f c) = [(GravityDirectionMode (Core c), m)])) /\
    f (fst (f c)) = (fst (f c), []).

(** ** Rotation: [GetComponentDesiredAxisZ], [SetThresholdParallelAngle] *)

Definition UpVector : FVector := MakeVector 0 0 1.

(** The desired axis before the snap to the world up vector (lines
    5792-5805); the gravity query may refresh the cached vectors. *)
Definition DesiredAxisZ_raw (c : NinjaComponent) : FVector * Movement :=
  let s := Core c in
  if bAlignComponentToFloor c && IsMovingOnGround s
     && negb (IsZero (ImpactNormal (HitResult (CurrentFloor s))))
  then (ImpactNormal (HitResult (CurrentFloor s)), s)
  else if bAlignComponentToGravity c then
    let '(GravityDir, s') := GetGravityDirection true s in
    (GravityDir *v (-1), s')
  else (GetComponentAxisZ s, s).

Definition GetComponentDesiredAxisZ (c : NinjaComponent) : FVector * NinjaComponent :=
  let '(DesiredAxisZ, s') := DesiredAxisZ_raw c in
  (if Reqb (Z DesiredAxisZ) 1
      || Coincident DesiredAxisZ UpVector (ThresholdParallelCosine s')
   then UpVector
   else DesiredAxisZ,
   set_Core c s').

(** [FMath::DegreesToRadians]. *)
Definition DegreesToRadians (DegVal : R) : R := DegVal * (PI / 180).

Definition set_ThresholdParallelCosine (s : Movement) (v : R) : Movement :=
  MakeMovement
    (bUpdatedComponent s) (ComponentLocation s) (ComponentQuat s) (CharacterOwner s)
    (bIsActive s) (PhysicsVolume s) (MovementMode s) (Velocity s) (Acceleration s)
    (GravityScale s) (GravityDirectionMode s) (GravityVectorA s) (GravityVectorB s)
    (GravityActor s) (bLandOnAnySurface s) (bMaintainHorizontalGroundVelocity s)
    (WalkableFloorZ s) (MaxStepHeight s) (Buoyancy s) (CurrentFloor s)
    (bJustTeleported s) (bForceNextFloorCheck s) (NumJumpApexAttempts s)
    (MaxJumpApexAttemptsPerSimulation s) v
    (bNetworkLargeClientCorrection s) (LastUpdateLocation s) (LastUpdateRotation s)
    (LastUpdateVelocity s).

Definition SetThresholdParallelAngle (c : NinjaComponent) (NewThresholdParallelAngle : R)
    : NinjaComponent :=
  let Angle := FMath_Clamp NewThresholdParallelAngle (1 / 4) 1 in
  MakeComponent
    (set_ThresholdParallelCosine (Core c) (cos (DegreesToRadians Angle)))
    (AirControl c) (AirControlBoostMultiplier c)
    (AirControlBoostVelocityThreshold c) (JumpZVelocity c) (bConstrainToPlane c)
    (PlaneConstraintNormal c) (bDirtyGravityDirection c) (OldGravityScale c)
    (bAlignGravityToBase c) (bAlignComponentToFloor c) (bAlignComponentToGravity c)
    Angle (cos (DegreesToRadians (90 - Angle))).

(** ** The character: [ANinjaCharacter] *)

(** What the functions below read of the character: whether it is pending
    kill, its movement component, whether that component updates the root
    component, the Z axis of the actor's own rotation
    ([GetActorQuat().GetAxisZ()]), the actor's velocity, and the mass and
    the class default of [JumpZVelocity] of the movement component. *)
Record ANinjaCharacter : Type := MakeNinja {
  Ninja_IsPendingKill : bool;
  GetCharacterMovement : option NinjaComponent;
  bUpdatesRootComponent : bool;
  ActorQuat_GetAxisZ : FVector;
  GetVelocity : FVector;
  Mass : R;
  Default_JumpZVelocity : R
}.

Definition set_CharacterMovement (N : ANinjaCharacter) (c : NinjaComponent)
    : ANinjaCharacter :=
  MakeNinja (Ninja_IsPendingKill N) (Some c) (bUpdatesRootComponent N)
    (ActorQuat_GetAxisZ N) (GetVelocity N) (Mass N) (Default_JumpZVelocity N).

Definition GetActorAxisZ (N : ANinjaCharacter) : FVector :=
  match GetCharacterMovement N with
  | Some MovementComponent =>
      if bUpdatesRootComponent N then GetComponentAxisZ (Core MovementComponent)
      else ActorQuat_GetAxisZ N
  | None => ActorQuat_GetAxisZ N
  end.

(** [LaunchCharacterRotated]: the velocity given to [Launch], if there is a
    movement component; the [OnLaunched] event is left out. *)
Definition LaunchCharacterRotated (N : ANinjaCharacter) (LaunchVelocity : FVector)
    (bHorizontalOverride bVerticalOverride : bool) : option FVector :=
  match GetCharacterMovement N with
  | Some _ =>
      if negb bHorizontalOverride && negb bVerticalOverride
      then Some (GetVelocity N + LaunchVelocity)%vec
      else if bHorizontalOverride && bVerticalOverride then Some LaunchVelocity
      else
        let Velocity' := GetVelocity N in
        let AxisZ := GetActorAxisZ N in
        if bHorizontalOverride
        then Some (VectorPlaneProject LaunchVelocity AxisZ
                   + AxisZ *v Dot Velocity' AxisZ)%vec
        else Some (VectorPlaneProject Velocity' AxisZ
                   + AxisZ *v Dot LaunchVelocity AxisZ)%vec
  | None => None
  end.

(** The damage event as [ApplyDamageMomentum] reads it: the impulse and the
    mass flag of the damage type, and the direction [GetBestHitInfo]
    answers. *)
Record FDamageEvent : Type := MakeDamage {
  DamageImpulse : R;
  bScaleMomentumByMass : bool;
  ImpulseDir : FVector
}.

(** [ApplyDamageMomentum]: the arguments given to [AddImpulse], if any. *)
Definition ApplyDamageMomentum (N : ANinjaCharacter) (DamageEvent : FDamageEvent)
    : option (FVector * bool) :=
  let ImpulseScale := DamageImpulse DamageEvent in
  match GetCharacterMovement N with
  | Some CharMovement =>
      if Rltb 3 ImpulseScale then
        let Impulse := ImpulseDir DamageEvent *v ImpulseScale in
        let bMassIndependentImpulse := negb (bScaleMomentumByMass DamageEvent) in
        let MassScaledImpulse :=
          if negb bMassIndependentImpulse && Rltb SMALL_NUMBER (Mass N)
          then Impulse /v Mass N
          else Impulse in
        let AxisZ := GetActorAxisZ N in
        let Impulse' :=
          if Rltb (Default_JumpZVelocity N) (Dot (Velocity (Core CharMovement)) AxisZ)
             && Rltb 0 (Dot MassScaledImpulse AxisZ)
          then (VectorPlaneProject Impulse AxisZ
                + AxisZ *v (Dot Impulse AxisZ * (1 / 2)))%vec
          else Impulse in
        Some (Impulse', bMassIndependentImpulse)
      else None
  | None => None
  end.

(** ** Floors: [ComputeFloorDist], [ComputePerchResult] *)

(** The queries of the world that [ComputeFloorDist] makes:
    [FloorSweepTest] with start, end, radius and half height of the capsule
    shape, the line trace with start and end, and
    [FCollisionShape::IsNearlyZero] of a capsule shape.  Each query starts
    from [FHitResult Hit(1.0f)] and answers whether it was blocked, and the
    hit. *)
Record World : Type := MakeWorld {
  FloorSweepTest : Movement -> FVector -> FVector -> R -> R -> bool * FHitResult;
  LineTraceSingleByChannel : Movement -> FVector -> FVector -> bool * FHitResult;
  Capsule_IsNearlyZero : R -> R -> bool
}.

(** [FFindFloorResult::Clear]. *)
Definition FFindFloorResult_Clear : FFindFloorResult :=
  MakeFloor false false false 0 0 (FHitResult_Init 1).

Definition Floor_set_bWalkableFloor (F : FFindFloorResult) (b : bool) : FFindFloorResult :=
  MakeFloor (Floor_bBlockingHit F) b (bLineTrace F) (FloorDist F) (LineDist F)
            (HitResult F).

Definition Floor_set_bBlockingHit (F : FFindFloorResult) (b : bool) : FFindFloorResult :=
  MakeFloor b (bWalkableFloor F) (bLineTrace F) (FloorDist F) (LineDist F)
            (HitResult F).

(** [FFindFloorResult::SetFromLineTrace]: when the stored sweep and the line
    trace both hit, the line's hit replaces the sweep's but for its time,
    impact point and location. *)
Definition SetFromLineTrace (F : FFindFloorResult) (InHit : FHitResult)
    (InSweepFloorDist InLineDist : R) (bIsWalkableFloor : bool) : FFindFloorResult :=
  if bBlockingHit (HitResult F) && bBlockingHit InHit then
    let OldHit := HitResult F in
    MakeFloor (Floor_bBlockingHit F) bIsWalkableFloor true InSweepFloorDist InLineDist
      (MakeHit (bBlockingHit InHit) (bStartPenetrating InHit) (Time OldHit)
         (Location OldHit) (ImpactPoint OldHit) (Normal InHit) (ImpactNormal InHit)
         (HitComponent InHit) (HitBoneName InHit))
  else F.

(** Lines 3023-3047: the sweep the caller supplies, with its [TraceStart] and
    [TraceEnd].  The answer says whether the function returns at once and
    whether the sweep test is skipped. *)
Definition ComputeFloorDist_supplied (E : Engine) (s : Movement)
    (CapsuleLocation : FVector) (DownwardSweepResult : option (FHitResult * FVector * FVector))
    : bool * bool * FFindFloorResult * Movement :=
  let '(PawnRadius, PawnHalfHeight) := GetScaledCapsuleSize s in
  let CapsuleDown := GetComponentAxisZ s *v (-1) in
  match DownwardSweepResult with
  | Some (Sweep, TraceStart, TraceEnd) =>
      if IsValidBlockingHit Sweep then
        if Coincident (GetSafeNormal (TraceEnd - TraceStart)) CapsuleDown
             (ThresholdParallelCosine s)
        then
          if IsWithinEdgeToleranceEx E (Location Sweep) CapsuleDown PawnRadius
               (ImpactPoint Sweep)
          then
            let '(bIsWalkable, s') := IsWalkable s Sweep in
            let FloorDist' := Size (CapsuleLocation - Location Sweep) in
            (bIsWalkable, true, SetFromSweep Sweep FloorDist' bIsWalkable, s')
          else (false, false, FFindFloorResult_Clear, s)
        else (false, false, FFindFloorResult_Clear, s)
      else (false, false, FFindFloorResult_Clear, s)
  | None => (false, false, FFindFloorResult_Clear, s)
  end.

(** Lines 3065-3111: the sweep test.  The answer says whether the function
    returns with a walkable floor. *)
Definition ComputeFloorDist_sweep (E : Engine) (W : World) (s : Movement)
    (CapsuleLocation : FVector) (SweepDistance SweepRadius : R)
    (OutFloorResult : FFindFloorResult) : bool * FFindFloorResult * Movement :=
  let '(PawnRadius, PawnHalfHeight) := GetScaledCapsuleSize s in
  let CapsuleDown := GetComponentAxisZ s *v (-1) in
  let ShrinkScale := 9 / 10 in
  let ShrinkScaleOverlap := 1 / 10 in
  let ShrinkHeight := (PawnHalfHeight - PawnRadius) * (1 - ShrinkScale) in
  let TraceDist := SweepDistance + ShrinkHeight in
  let '(bBlockingHit', Hit) :=
    FloorSweepTest W s CapsuleLocation (CapsuleLocation + CapsuleDown *v TraceDist)
      SweepRadius (PawnHalfHeight - ShrinkHeight) in
  if bBlockingHit' then
    let '(ShrinkHeight2, TraceDist2, Hit2) :=
      if bStartPenetrating Hit
         || negb (IsWithinEdgeToleranceEx E CapsuleLocation CapsuleDown SweepRadius
                    (ImpactPoint Hit))
      then
        let Radius' :=
          FMath_Max 0 (SweepRadius - SWEEP_EDGE_REJECT_DISTANCE E - KINDA_SMALL_NUMBER) in
        if negb (Capsule_IsNearlyZero W Radius' (PawnHalfHeight - ShrinkHeight)) then
          let ShrinkHeight' := (PawnHalfHeight - PawnRadius) * (1 - ShrinkScaleOverlap) in
          let TraceDist' := SweepDistance + ShrinkHeight' in
          let HalfHeight' := FMath_Max (PawnHalfHeight - ShrinkHeight') Radius' in
          let '(_, Hit') :=
            FloorSweepTest W s CapsuleLocation
              (CapsuleLocation + CapsuleDown *v TraceDist') Radius' HalfHeight' in
          (ShrinkHeight', TraceDist', Hit')
        else (ShrinkHeight, TraceDist, Hit)
      else (ShrinkHeight, TraceDist, Hit) in
    let MaxPenetrationAdjust := FMath_Max (MAX_FLOOR_DIST E) PawnRadius in
    let SweepResult :=
      FMath_Max (- MaxPenetrationAdjust) (Time Hit2 * TraceDist2 - ShrinkHeight2) in
    let Out := SetFromSweep Hit2 SweepResult false in
    if IsValidBlockingHit Hit2 then
      let '(bWalkable, s') := IsWalkable s Hit2 in
      if bWalkable && Rleb SweepResult SweepDistance
      then (true, Floor_set_bWalkableFloor Out true, s')
      else (false, Out, s')
    else (false, Out, s)
  else (false, OutFloorResult, s).

(** Lines 3123-3151: the line trace.  The answer says whether the function
    returns with the line result. *)
Definition ComputeFloorDist_line (E : Engine) (W : World) (s : Movement)
    (CapsuleLocation : FVector) (LineDistance : R) (OutFloorResult : FFindFloorResult)
    : bool * FFindFloorResult * Movement :=
  let '(PawnRadius, PawnHalfHeight) := GetScaledCapsuleSize s in
  let CapsuleDown := GetComponentAxisZ s *v (-1) in
  let ShrinkHeight := PawnHalfHeight in
  let TraceDist := LineDistance + ShrinkHeight in
  let '(bBlockingHit', Hit) :=
    LineTraceSingleByChannel W s CapsuleLocation
      (CapsuleLocation + CapsuleDown *v TraceDist) in
  if bBlockingHit' then
    if Rltb 0 (Time Hit) then
      let MaxPenetrationAdjust := FMath_Max (MAX_FLOOR_DIST E) PawnRadius in
      let LineResult :=
        FMath_Max (- MaxPenetrationAdjust) (Time Hit * TraceDist - ShrinkHeight) in
      let Out := Floor_set_bBlockingHit OutFloorResult true in
      if Rleb LineResult LineDistance then
        let '(bWalkable, s') := IsWalkable s Hit in
        if bWalkable
        then (true, SetFromLineTrace Out Hit (FloorDist Out) LineResult true, s')
        else (false, Out, s')
      else (false, Out, s)
    else (false, OutFloorResult, s)
  else (false, OutFloorResult, s).

Definition ComputeFloorDist (E : Engine) (W : World) (s : Movement)
    (CapsuleLocation : FVector) (LineDistance SweepDistance SweepRadius : R)
    (DownwardSweepResult : option (FHitResult * FVector * FVector))
    : FFindFloorResult * Movement :=
  let '(bReturn1, bSkipSweep, Out1, s1) :=
    ComputeFloorDist_supplied E s CapsuleLocation DownwardSweepResult in
  if bReturn1 then (Out1, s1)
  else if Rltb SweepDistance LineDistance then (Out1, s1)
  else
    let '(bReturn2, Out2, s2) :=
      if negb bSkipSweep && Rltb 0 SweepDistance && Rltb 0 SweepRadius
      then ComputeFloorDist_sweep E W s1 CapsuleLocation SweepDistance SweepRadius Out1
      else (false, Out1, s1) in
    if bReturn2 then (Out2, s2)
    else if negb (Floor_bBlockingHit Out2) && negb (bStartPenetrating (HitResult Out2))
    then (Floor_set_FloorDist Out2 SweepDistance, s2)
    else
      let '(bReturn3, Out3, s3) :=
        if Rltb 0 LineDistance
        then ComputeFloorDist_line E W s2 CapsuleLocation LineDistance Out2
        else (false, Out2, s2) in
      if bReturn3 then (Out3, s3)
      else (Floor_set_bWalkableFloor Out3 false, s3).

(** The height of the hit above the base of the capsule, measured along
    the capsule axis (lines 3310-3311). *)
Definition InHitAboveBase (s : Movement) (InHit : FHitResult) : R :=
  let CapsuleDown := GetComponentAxisZ s *v (-1) in
  Size (Location InHit
        + CapsuleDown *v Dot (ImpactPoint InHit - Location InHit) CapsuleDown
        - (Location InHit + CapsuleDown *v snd (GetScaledCapsuleSize s)))%vec.

Definition ComputePerchResult (E : Engine) (W : World) (s : Movement) (TestRadius : R)
    (InHit : FHitResult) (InMaxFloorDist : R) (OutPerchFloorResult : FFindFloorResult)
    : bool * FFindFloorResult * Movement :=
  if Rleb InMaxFloorDist 0 then (false, OutPerchFloorResult, s)
  else
    let '(PawnRadius, PawnHalfHeight) := GetScaledCapsuleSize s in
    let PerchLineDist := FMath_Max 0 (InMaxFloorDist - InHitAboveBase s InHit) in
    let PerchSweepDist := FMath_Max 0 InMaxFloorDist in
    let ActualSweepDist := PerchSweepDist + PawnRadius in
    let '(Out, s') :=
      ComputeFloorDist E W s (Location InHit) PerchLineDist ActualSweepDist TestRadius
        None in
    if negb (IsWalkableFloor Out) then (false, Out, s')
    else if Rltb InMaxFloorDist (InHitAboveBase s InHit + FloorDist Out)
    then (false, Floor_set_bWalkableFloor Out false, s')
    else (true, Out, s').

(** ** The physics volume: [ANinjaPhysicsVolume] *)

(** The volume: [Volume_AsActor] is the volume as an actor ([this], whose
    spline component the spline modes fall back to), [Volume_GetGravityZ]
    the engine's [GetGravityZ], and [TrackedNinjas] the addresses in the
    heap of characters of the Ninjas inside, null entries included. *)
Record ANinjaPhysicsVolume : Type := MakeNinjaVolume {
  Volume_AsActor : AActor;
  Volume_GetGravityZ : R;
  Volume_GravityActor : option AActor;
  Volume_GravityDirectionMode : ENinjaGravityDirectionMode;
  Volume_GravityScale : R;
  Volume_GravityVectorA : FVector;
  Volume_GravityVectorB : FVector;
  NinjaFallVelocity : FVector;
  TrackedNinjas : list (option nat)
}.

(** An actor pointer that is neither null nor pending kill. *)
Definition LiveActor (g : option AActor) : option AActor :=
  match g with
  | Some a => if IsPendingKill a then None else Some a
  | None => None
  end.

(** The spline of the spline modes: the gravity actor's when that actor is
    alive, the volume's own otherwise. *)
Definition Volume_Spline (V : ANinjaPhysicsVolume) : option USplineComponent :=
  match LiveActor (Volume_GravityActor V) with
  | Some a => GetSplineComponent a
  | None => GetSplineComponent (Volume_AsActor V)
  end.

(** [ANinjaPhysicsVolume::GetGravity] (lines 286-562), the debug drawing
    left out. *)
Definition Volume_GetGravity (V : ANinjaPhysicsVolume) (Point' : FVector) : FVector :=
  if Reqb (Volume_GravityScale V) 0 then ZeroVector
  else
    let Strength := FMath_Abs (Volume_GetGravityZ V) * Volume_GravityScale V in
    let Towards (Target : FVector) : FVector :=
      let GravityDir := (Target - Point')%vec in
      if negb (IsZero GravityDir) then GetSafeNormal GravityDir *v Strength
      else ZeroVector in
    match Volume_GravityDirectionMode V with
    | Fixed => Volume_GravityVectorA V *v Strength
    | SplineTangent =>
        match Volume_Spline V with
        | Some SplineComp =>
            let GravityDir := FindDirectionClosestToWorldLocation SplineComp Point' in
            if negb (IsZero GravityDir) then GravityDir *v Strength else ZeroVector
        | None => ZeroVector
        end
    | Point =>
        Towards match LiveActor (Volume_GravityActor V) with
                | Some a => GetActorLocation a
                | None => Volume_GravityVectorA V
                end
    | Line =>
        Towards (ClosestPointOnInfiniteLine (Volume_GravityVectorA V)
                   (Volume_GravityVectorB V) Point')
    | Segment =>
        Towards (ClosestPointOnLine (Volume_GravityVectorA V) (Volume_GravityVectorB V)
                   Point')
    | Spline =>
        match Volume_Spline V with
        | Some SplineComp => Towards (FindLocationClosestToWorldLocation SplineComp Point')
        | None => ZeroVector
        end
    | Plane =>
        Towards (PointPlaneProject Point' (Volume_GravityVectorA V)
                   (Volume_GravityVectorB V))
    | SplinePlane =>
        match Volume_Spline V with
        | Some SplineComp =>
            let InputKey := FindInputKeyClosestToWorldLocation SplineComp Point' in
            let ClosestLocation := GetLocationAtSplineInputKey SplineComp InputKey in
            let ClosestUpVector := GetUpVectorAtSplineInputKey SplineComp InputKey in
            Towards (PointPlaneProject Point' ClosestLocation ClosestUpVector)
        | None => ZeroVector
        end
    | Box =>
        let '(BoxOrigin, BoxExtent) :=
          match LiveActor (Volume_GravityActor V) with
          | Some a => GetActorBounds a
          | None => (Volume_GravityVectorA V, Volume_GravityVectorB V)
          end in
        Towards (FBox_GetClosestPointTo (BoxOrigin - BoxExtent) (BoxOrigin + BoxExtent)
                   Point')
    | Collision =>
        match LiveActor (Volume_GravityActor V) with
        | Some a =>
            if Rltb 0 (fst (GetClosestPointOnCollision a Point'))
            then Towards (snd (GetClosestPointOnCollision a Point'))
            else ZeroVector
        | None => ZeroVector
        end
    | _ => ZeroVector
    end.

(** [ANinjaPhysicsVolume::GetGravityDirection] (lines 564-766). *)
Definition Volume_GetGravityDirection (V : ANinjaPhysicsVolume) (Point' : FVector)
    : FVector :=
  if Reqb (Volume_GravityScale V) 0 then ZeroVector
  else
    let Sign := if Rltb 0 (Volume_GravityScale V) then 1 else -1 in
    let Towards (Target : FVector) : FVector :=
      let GravityDir := (Target - Point')%vec in
      if negb (IsZero GravityDir) then GetSafeNormal GravityDir *v Sign
      else GravityDir in
    match Volume_GravityDirectionMode V with
    | Fixed => Volume_GravityVectorA V *v Sign
    | SplineTangent =>
        match Volume_Spline V with
        | Some SplineComp => FindDirectionClosestToWorldLocation SplineComp Point' *v Sign
        | None => ZeroVector
        end
    | Point =>
        Towards match LiveActor (Volume_GravityActor V) with
                | Some a => GetActorLocation a
                | None => Volume_GravityVectorA V
                end
    | Line =>
        Towards (ClosestPointOnInfiniteLine (Volume_GravityVectorA V)
                   (Volume_GravityVectorB V) Point')
    | Segment =>
        Towards (ClosestPointOnLine (Volume_GravityVectorA V) (Volume_GravityVectorB V)
                   Point')
    | Spline =>
        match Volume_Spline V with
        | Some SplineComp => Towards (FindLocationClosestToWorldLocation SplineComp Point')
        | None => ZeroVector
        end
    | Plane =>
        Towards (PointPlaneProject Point' (Volume_GravityVectorA V)
                   (Volume_GravityVectorB V))
    | SplinePlane =>
        match Volume_Spline V with
        | Some SplineComp =>
            let InputKey := FindInputKeyClosestToWorldLocation SplineComp Point' in
            let ClosestLocation := GetLocationAtSplineInputKey SplineComp InputKey in
            let ClosestUpVector := GetUpVectorAtSplineInputKey SplineComp InputKey in
            Towards (PointPlaneProject Point' ClosestLocation ClosestUpVector)
        | None => ZeroVector
        end
    | Box =>
        let '(BoxOrigin, BoxExtent) :=
          match LiveActor (Volume_GravityActor V) with
          | Some a => GetActorBounds a
          | None => (Volume_GravityVectorA V, Volume_GravityVectorB V)
          end in
        Towards (FBox_GetClosestPointTo (BoxOrigin - BoxExtent) (BoxOrigin + BoxExtent)
                   Point')
    | Collision =>
        match LiveActor (Volume_GravityActor V) with
        | Some a =>
            if Rltb 0 (fst (GetClosestPointOnCollision a Point'))
            then Towards (snd (GetClosestPointOnCollision a Point'))
            else ZeroVector
        | None => ZeroVector
        end
    | _ => ZeroVector
    end.

Definition Volume_GetGravityMagnitude (V : ANinjaPhysicsVolume) (Point' : FVector) : R :=
  FMath_Abs (Volume_GetGravityZ V * Volume_GravityScale V).

Definition Volume_GetGravityScale (V : ANinjaPhysicsVolume) : R := Volume_GravityScale V.

(** *** The characters the volume tracks *)

(** The characters of the level, by address.  A volume holds pointers to
    the Ninjas inside it and changes their settings through them, so a
    Ninja that is tracked twice is one object changed twice. *)
Definition NinjaHeap : Type := list ANinjaCharacter.

Fixpoint heap_update (H : NinjaHeap) (p : nat) (N : ANinjaCharacter) : NinjaHeap :=
  match H, p with
  | [], _ => []
  | _ :: T, O => N :: T
  | X0 :: T, S q => X0 :: heap_update T q N
  end.

(** The body of the loops over [TrackedNinjas]: a Ninja that is neither
    null nor pending kill has the setter [f] applied to its movement
    component.  (The source dereferences the component without a test; a
    character without one is left alone here, and so is an address outside
    the heap.) *)
Definition ApplyToNinja (f : NinjaComponent -> NinjaComponent * list GravityNotification)
    (H : NinjaHeap) (Ninja : option nat) : NinjaHeap * list GravityNotification :=
  match Ninja with
  | Some p =>
      match nth_error H p with
      | Some N =>
          if negb (Ninja_IsPendingKill N) then
            match GetCharacterMovement N with
            | Some c =>
                let '(c', n) := f c in
                (heap_update H p (set_CharacterMovement N c'), n)
            | None => (H, [])
            end
          else (H, [])
      | None => (H, [])
      end
  | None => (H, [])
  end.

(** [for (ANinjaCharacter* Ninja : TrackedNinjas)]. *)
Fixpoint ForEachTrackedNinja
    (f : NinjaComponent -> NinjaComponent * list GravityNotification)
    (Tracked : list (option nat)) (H : NinjaHeap)
    : NinjaHeap * list GravityNotification :=
  match Tracked with
  | [] => (H, [])
  | Ninja :: Rest =>
      let '(H1, n1) := ApplyToNinja f H Ninja in
      let '(H2, n2) := ForEachTrackedNinja f Rest H1 in
      (H2, n1 ++ n2)
  end.

Definition Volume_set_GravityDirection (V : ANinjaPhysicsVolume)
    (m : ENinjaGravityDirectionMode) (a b : FVector) (g : option AActor)
    : ANinjaPhysicsVolume :=
  MakeNinjaVolume (Volume_AsActor V) (Volume_GetGravityZ V) g m (Volume_GravityScale V)
    a b (NinjaFallVelocity V) (TrackedNinjas V).

Definition Volume_set_GravityScale (V : ANinjaPhysicsVolume) (k : R)
    : ANinjaPhysicsVolume :=
  MakeNinjaVolume (Volume_AsActor V) (Volume_GetGravityZ V) (Volume_GravityActor V)
    (Volume_GravityDirectionMode V) k (Volume_GravityVectorA V)
    (Volume_GravityVectorB V) (NinjaFallVelocity V) (TrackedNinjas V).

Definition Volume_set_TrackedNinjas (V : ANinjaPhysicsVolume) (T : list (option nat))
    : ANinjaPhysicsVolume :=
  MakeNinjaVolume (Volume_AsActor V) (Volume_GetGravityZ V) (Volume_GravityActor V)
    (Volume_GravityDirectionMode V) (Volume_GravityScale V) (Volume_GravityVectorA V)
    (Volume_GravityVectorB V) (NinjaFallVelocity V) T.

(** The tail the setters of the volume share: the mode and its data are
    assigned, then every tracked Ninja is given the same call. *)
Definition Volume_AssignGravityDirection (V : ANinjaPhysicsVolume) (H : NinjaHeap)
    (m : ENinjaGravityDirectionMode) (a b : FVector) (g : option AActor)
    (f : NinjaComponent -> NinjaComponent * list GravityNotification)
    : ANinjaPhysicsVolume * NinjaHeap * list GravityNotification :=
  let V' := Volume_set_GravityDirection V m a b g in
  let '(H', n) := ForEachTrackedNinja f (TrackedNinjas V') H in
  (V', H', n).

Definition Volume_InMode (V : ANinjaPhysicsVolume) (m : ENinjaGravityDirectionMode) : bool :=
  ENinjaGravityDirectionMode_eqb (Volume_GravityDirectionMode V) m.

Definition Volume_SetFixedGravityDirection (V : ANinjaPhysicsVolume) (H : NinjaHeap)
    (NewFixedGravityDirection : FVector)
    : ANinjaPhysicsVolume * NinjaHeap * list GravityNotification :=
  if IsZero NewFixedGravityDirection
     || (Volume_InMode V Fixed
         && vec_eqb (Volume_GravityVectorA V) NewFixedGravityDirection)
  then (V, H, [])
  else Volume_AssignGravityDirection V H Fixed NewFixedGravityDirection
         (Volume_GravityVectorB V) (Volume_GravityActor V)
         (fun c => SetFixedGravityDirection c NewFixedGravityDirection).

Definition Volume_K2_SetFixedGravityDirection (V : ANinjaPhysicsVolume) (H : NinjaHeap)
    (NewGravityDirection : FVector) :=
  Volume_SetFixedGravityDirection V H (GetSafeNormal NewGravityDirection).

(** The three setters that take a spline actor. *)
Definition Volume_SetSplineActorGravityDirection (A : Actors)
    (m : ENinjaGravityDirectionMode) (V : ANinjaPhysicsVolume) (H : NinjaHeap)
    (NewGravityActor : option AActor)
    : ANinjaPhysicsVolume * NinjaHeap * list GravityNotification :=
  match NewGravityActor with
  | None => (V, H, [])
  | Some a =>
      if Volume_InMode V m && SameActor A (Volume_GravityActor V) NewGravityActor
      then (V, H, [])
      else
        match GetSplineComponent a with
        | Some _ =>
            Volume_AssignGravityDirection V H m (Volume_GravityVectorA V)
              (Volume_GravityVectorB V) NewGravityActor
              (fun c => SetSplineActorGravityDirection A m c NewGravityActor)
        | None => (V, H, [])
        end
  end.

Definition Volume_SetSplineTangentGravityDirection (A : Actors) :=
  Volume_SetSplineActorGravityDirection A SplineTangent.
Definition Volume_SetSplineGravityDirection (A : Actors) :=
  Volume_SetSplineActorGravityDirection A Spline.
Definition Volume_SetSplinePlaneGravityDirection (A : Actors) :=
  Volume_SetSplineActorGravityDirection A SplinePlane.

Definition Volume_SetPointGravityDirection (V : ANinjaPhysicsVolume) (H : NinjaHeap)
    (NewGravityPoint : FVector)
    : ANinjaPhysicsVolume * NinjaHeap * list GravityNotification :=
  if Volume_InMode V Point && vec_eqb (Volume_GravityVectorA V) NewGravityPoint
  then (V, H, [])
  else Volume_AssignGravityDirection V H Point NewGravityPoint
         (Volume_GravityVectorB V) None
         (fun c => SetPointGravityDirection c NewGravityPoint).

Definition Volume_SetPointGravityDirectionFromActor (A : Actors)
    (V : ANinjaPhysicsVolume) (H : NinjaHeap) (NewGravityActor : option AActor)
    : ANinjaPhysicsVolume * NinjaHeap * list GravityNotification :=
  if Volume_InMode V Point && SameActor A (Volume_GravityActor V) NewGravityActor
  then (V, H, [])
  else Volume_AssignGravityDirection V H Point (Volume_GravityVectorA V)
         (Volume_GravityVectorB V) NewGravityActor
         (fun c => SetPointGravityDirectionFromActor A c NewGravityActor).

(** Line and segment. *)
Definition Volume_SetTwoPointGravityDirection (m : ENinjaGravityDirectionMode)
    (V : ANinjaPhysicsVolume) (H : NinjaHeap) (NewStart NewEnd : FVector)
    : ANinjaPhysicsVolume * NinjaHeap * list GravityNotification :=
  if vec_eqb NewStart NewEnd
     || (Volume_InMode V m && vec_eqb (Volume_GravityVectorA V) NewStart
         && vec_eqb (Volume_GravityVectorB V) NewEnd)
  then (V, H, [])
  else Volume_AssignGravityDirection V H m NewStart NewEnd (Volume_GravityActor V)
         (fun c => SetTwoPointGravityDirection m c NewStart NewEnd).

Definition Volume_SetLineGravityDirection := Volume_SetTwoPointGravityDirection Line.
Definition Volume_SetSegmentGravityDirection := Volume_SetTwoPointGravityDirection Segment.

Definition Volume_SetPlaneGravityDirection (V : ANinjaPhysicsVolume) (H : NinjaHeap)
    (NewGravityPlaneBase NewGravityPlaneNormal : FVector)
    : ANinjaPhysicsVolume * NinjaHeap * list GravityNotification :=
  if IsZero NewGravityPlaneNormal
     || (Volume_InMode V Plane && vec_eqb (Volume_GravityVectorA V) NewGravityPlaneBase
         && vec_eqb (Volume_GravityVectorB V) NewGravityPlaneNormal)
  then (V, H, [])
  else Volume_AssignGravityDirection V H Plane NewGravityPlaneBase NewGravityPlaneNormal
         (Volume_GravityActor V)
         (fun c => SetPlaneGravityDirection c NewGravityPlaneBase NewGravityPlaneNormal).

Definition Volume_K2_SetPlaneGravityDirection (V : ANinjaPhysicsVolume) (H : NinjaHeap)
    (NewGravityPlaneBase NewGravityPlaneNormal : FVector) :=
  Volume_SetPlaneGravityDirection V H NewGravityPlaneBase
    (GetSafeNormal NewGravityPlaneNormal).

Definition Volume_SetBoxGravityDirection (V : ANinjaPhysicsVolume) (H : NinjaHeap)
    (NewGravityBoxOrigin NewGravityBoxExtent : FVector)
    : ANinjaPhysicsVolume * NinjaHeap * list GravityNotification :=
  if Volume_InMode V Box && vec_eqb (Volume_GravityVectorA V) NewGravityBoxOrigin
     && vec_eqb (Volume_GravityVectorB V) NewGravityBoxExtent
  then (V, H, [])
  else Volume_AssignGravityDirection V H Box NewGravityBoxOrigin NewGravityBoxExtent None
         (fun c => SetBoxGravityDirection c NewGravityBoxOrigin NewGravityBoxExtent).

Definition Volume_SetBoxGravityDirectionFromActor (A : Actors)
    (V : ANinjaPhysicsVolume) (H : NinjaHeap) (NewGravityActor : option AActor)
    : ANinjaPhysicsVolume * NinjaHeap * list GravityNotification :=
  if Volume_InMode V Box && SameActor A (Volume_GravityActor V) NewGravityActor
  then (V, H, [])
  else Volume_AssignGravityDirection V H Box (Volume_GravityVectorA V)
         (Volume_GravityVectorB V) NewGravityActor
         (fun c => SetBoxGravityDirectionFromActor A c NewGravityActor).

Definition Volume_SetCollisionGravityDirection (A : Actors)
    (V : ANinjaPhysicsVolume) (H : NinjaHeap) (NewGravityActor : option AActor)
    : ANinjaPhysicsVolume * NinjaHeap * list GravityNotification :=
  match NewGravityActor with
  | None => (V, H, [])
  | Some a =>
      if Volume_InMode V Collision && SameActor A (Volume_GravityActor V) NewGravityActor
      then (V, H, [])
      else if HasRootPrimitive A a then
        Volume_AssignGravityDirection V H Collision (Volume_GravityVectorA V)
          (Volume_GravityVectorB V) NewGravityActor
          (fun c => SetCollisionGravityDirection A c NewGravityActor)
      else (V, H, [])
  end.

(** [SetGravityScale] writes the scale of every tracked Ninja directly. *)
Definition Volume_SetGravityScale (V : ANinjaPhysicsVolume) (H : NinjaHeap)
    (NewGravityScale : R) : ANinjaPhysicsVolume * NinjaHeap :=
  let V' := Volume_set_GravityScale V NewGravityScale in
  (V',
   fst (ForEachTrackedNinja
          (fun c => (set_Core c (set_GravityScale (Core c) NewGravityScale), []))
          (TrackedNinjas V') H)).

(** [TArray::RemoveAll] of the null entries. *)
Definition RemoveNullNinjas (T : list (option nat)) : list (option nat) :=
  filter (fun Ninja => match Ninja with Some _ => true | None => false end) T.

(** [TArray::Remove]: every entry equal to the pointer goes. *)
Definition RemoveNinja (p : nat) (T : list (option nat)) : list (option nat) :=
  filter (fun Ninja => match Ninja with Some q => negb (Nat.eqb q p) | None => true end) T.

(** The engine's [IsWalking]. *)
Definition IsWalking (s : Movement) : bool := IsMovingOnGround s.

(** The gravity settings a Ninja receives when it enters the volume
    (lines 121-221): the scale is written directly, the direction goes
    through the setter of the volume's mode. *)
Definition ActorEnteredVolume_Settings (A : Actors) (V : ANinjaPhysicsVolume)
    (NinjaCharMoveComp : NinjaComponent) : NinjaComponent * list GravityNotification :=
  let c :=
    set_Core NinjaCharMoveComp
      (set_GravityScale (Core NinjaCharMoveComp) (Volume_GetGravityScale V)) in
  let a := Volume_GravityVectorA V in
  let b := Volume_GravityVectorB V in
  let This := Some (Volume_AsActor V) in
  match Volume_GravityDirectionMode V with
  | Fixed => SetFixedGravityDirection c a
  | SplineTangent =>
      match LiveActor (Volume_GravityActor V) with
      | Some g => SetSplineTangentGravityDirection A c (Some g)
      | None => SetSplineTangentGravityDirection A c This
      end
  | Point =>
      match LiveActor (Volume_GravityActor V) with
      | Some g => SetPointGravityDirectionFromActor A c (Some g)
      | None => SetPointGravityDirection c a
      end
  | Line => SetLineGravityDirection c a b
  | Segment => SetSegmentGravityDirection c a b
  | Spline =>
      match LiveActor (Volume_GravityActor V) with
      | Some g => SetSplineGravityDirection A c (Some g)
      | None => SetSplineGravityDirection A c This
      end
  | Plane => SetPlaneGravityDirection c a b
  | SplinePlane =>
      match LiveActor (Volume_GravityActor V) with
      | Some g => SetSplinePlaneGravityDirection A c (Some g)
      | None => SetSplinePlaneGravityDirection A c This
      end
  | Box =>
      match LiveActor (Volume_GravityActor V) with
      | Some g => SetBoxGravityDirectionFromActor A c (Some g)
      | None => SetBoxGravityDirection c a b
      end
  | Collision =>
      match LiveActor (Volume_GravityActor V) with
      | Some g => SetCollisionGravityDirection A c (Some g)
      | None => (c, [])
      end
  | _ => (c, [])
  end.

(** [ActorEnteredVolume] for a Ninja ([Other] is its address, or null): the
    null entries are dropped, a Ninja that is alive receives the volume's
    gravity settings, is launched with [NinjaFallVelocity] when that is not
    zero and the Ninja walks (the answer's last component is the velocity
    given to [Launch]), and is added to the list.  Actors that are not
    Ninjas, and the list the volume keeps of them, are left out. *)
Definition ActorEnteredVolume (A : Actors) (V : ANinjaPhysicsVolume) (H : NinjaHeap)
    (Other : option nat)
    : ANinjaPhysicsVolume * NinjaHeap * list GravityNotification * option FVector :=
  let Tracked := RemoveNullNinjas (TrackedNinjas V) in
  match Other with
  | Some p =>
      match nth_error H p with
      | Some Ninja =>
          if negb (Ninja_IsPendingKill Ninja) then
            match GetCharacterMovement Ninja with
            | Some NinjaCharMoveComp =>
                let '(c, n) := ActorEnteredVolume_Settings A V NinjaCharMoveComp in
                let Launched :=
                  if negb (IsZero (NinjaFallVelocity V)) && IsWalking (Core c)
                  then Some (NinjaFallVelocity V)
                  else None in
                (Volume_set_TrackedNinjas V (Tracked ++ [Some p]),
                 heap_update H p (set_CharacterMovement Ninja c), n, Launched)
            | None => (Volume_set_TrackedNinjas V Tracked, H, [], None)
            end
          else (Volume_set_TrackedNinjas V Tracked, H, [], None)
      | None => (Volume_set_TrackedNinjas V Tracked, H, [], None)
      end
  | None => (Volume_set_TrackedNinjas V Tracked, H, [], None)
  end.

(** [ActorLeavingVolume] for a Ninja: its pointer is removed, then the null
    entries. *)
Definition ActorLeavingVolume (V : ANinjaPhysicsVolume) (Other : option nat)
    : ANinjaPhysicsVolume :=
  let Tracked :=
    match Other with
    | Some p => RemoveNinja p (TrackedNinjas V)
    | None => TrackedNinjas V
    end in
  Volume_set_TrackedNinjas V (RemoveNullNinjas Tracked).

(** Every tracked Ninja that is alive and has a movement component has a
    component with the property [P]. *)
Definition AllTrackedNinjas (V : ANinjaPhysicsVolume) (H : NinjaHeap)
    (P : NinjaComponent -> Prop) : Prop :=
  forall (p : nat) (N : ANinjaCharacter) (c : NinjaComponent),
    In (Some p) (TrackedNinjas V) ->
    nth_error H p = Some N ->
    Ninja_IsPendingKill N = false ->
    GetCharacterMovement N = Some c ->
    P c.

(** The character at the address [p], if alive and with a movement
    component, has a component with the property [P]. *)
Definition NinjaAt (H : NinjaHeap) (p : nat) (P : NinjaComponent -> Prop) : Prop :=
  forall (N : ANinjaCharacter) (c : NinjaComponent),
    nth_error H p = Some N ->
    Ninja_IsPendingKill N = false ->
    GetCharacterMovement N = Some c ->
    P c.

(** What a setter of the volume answers: when the call is ignored nothing
    changes; otherwise the volume has the settings [PV], tracks the same
    Ninjas, and every tracked Ninja has the settings [P]. *)
Definition VolumeSetterResult (V : ANinjaPhysicsVolume) (H : NinjaHeap)
    (Ignored : bool)
    (r : ANinjaPhysicsVolume * NinjaHeap * list GravityNotification)
    (PV : ANinjaPhysicsVolume -> Prop) (P : NinjaComponent -> Prop) : Prop :=
  if Ignored then r = (V, H, [])
  else
    PV (fst (fst r)) /\
    TrackedNinjas (fst (fst r)) = TrackedNinjas V /\
    AllTrackedNinjas (fst (fst r)) (snd (fst r)) P.

(** ** Sample values for the rest of the component *)

Definition SampleComponent : NinjaComponent :=
  MakeComponent SampleMovement (5 / 100) 2 25 420 false ZeroVector false 1
    false false false 1 NINJA_NORMALS_ORTHOGONAL.

(** Inherited implementations in empty space: no root motion, the pawn's
    two-wall adjustment keeps the delta, and the slide vector is the
    projection on the plane of the normal. *)
Definition SampleSuper : Super :=
  MakeSuper (fun _ => false) (fun _ => 2048) (fun _ => true)
    (fun s m => set_MovementMode s m)
    (fun _ d _ _ => d)
    (fun s _ _ _ h _ => (0, h, s))
    (fun _ d t n _ => VectorPlaneProject d n *v t).

(** A world with one actor address, and floors that belong to no actor. *)
Definition SampleActors : Actors :=
  MakeActors (fun _ => 0%nat) (fun _ => true) (fun _ => None).

(** A server whose gravity was just set to the line through the origin
    along the world X axis. *)
Definition DirtyServer : NinjaComponent :=
  set_bDirtyGravityDirection
    (set_Core SampleComponent
       (set_GravityDirection SampleMovement Line ZeroVector (MakeVector 1 0 0) None))
    true.

(** A character whose movement component updates its root. *)
Definition SampleNinja : ANinjaCharacter :=
  MakeNinja false (Some SampleComponent) true UpVector (MakeVector 100 0 50) 100 420.

(** A world with a flat floor: every sweep is blocked half way by a
    horizontal surface under the capsule axis, and line traces hit
    nothing. *)
Definition SampleFloorHit : FHitResult :=
  MakeHit true false (1 / 2) (MakeVector 0 0 (-10)) (MakeVector 0 0 (-98))
    UpVector UpVector None NAME_None.

Definition SampleWorld : World :=
  MakeWorld (fun _ _ _ _ _ => (true, SampleFloorHit))
    (fun _ _ _ => (false, FHitResult_Init 1))
    (fun Radius _ => Rleb Radius KINDA_SMALL_NUMBER).

(** The sample engine over solid ground: [FindFloor] always finds the
    flat floor, one unit below. *)
Definition GroundEngine : Engine :=
  MakeEngine (1 / 1000000) (19 / 10) (24 / 10) (15 / 100) 1%Z
    (fun _ _ => true)
    FreeMove
    FreeMove
    (fun s _ _ _ => s)
    (fun s _ _ _ Hit _ => (0, Hit, s))
    (fun s _ _ _ => (MakeFloor true true false 1 0 SampleFloorHit, s)).

(** An actor without spline, and a volume with the default settings of the
    engine's gravity. *)
Definition SampleActor : AActor :=
  MakeActor false ZeroVector None (ZeroVector, ZeroVector) (fun _ => (0, ZeroVector)).

Definition SampleNinjaVolume : ANinjaPhysicsVolume :=
  MakeNinjaVolume SampleActor (-980) None Fixed 1 DownVector ZeroVector ZeroVector
    [Some 0%nat; None; Some 0%nat].

(** * Properties *)

(** Case analysis along the branches of a function body. *)
Ltac split_paths :=
  repeat match goal with
         | |- context [match ?x with pair _ _ => _ end] => destruct x eqn:?
         | |- context [if ?c then _ else _] => destruct c eqn:?
         end.

(** ** Basic facts about the scalar and vector layer *)

Lemma Rltb_true (a b : R) : Rltb a b = true <-> a < b.
Proof. unfold Rltb; destruct (Rlt_dec a b); split; intros; try easy. Qed.

Lemma Rltb_false (a b : R) : Rltb a b = false <-> b <= a.
Proof.
  unfold Rltb; destruct (Rlt_dec a b); split; intros; try easy; lra.
Qed.

Lemma Rleb_true (a b : R) : Rleb a b = true <-> a <= b.
Proof. unfold Rleb; destruct (Rle_dec a b); split; intros; try easy. Qed.

Lemma Rleb_false (a b : R) : Rleb a b = false <-> b < a.
Proof.
  unfold Rleb; destruct (Rle_dec a b); split; intros; try easy; lra.
Qed.

Lemma Reqb_true (a b : R) : Reqb a b = true <-> a = b.
Proof. unfold Reqb; destruct (Req_dec_T a b); split; intros; try easy. Qed.

Lemma Reqb_false (a b : R) : Reqb a b = false <-> a <> b.
Proof. unfold Reqb; destruct (Req_dec_T a b); split; intros; try easy. Qed.

Lemma Reqb_refl (a : R) : Reqb a a = true.
Proof. now apply Reqb_true. Qed.

Lemma vec_eq (a b : FVector) :
  X a = X b -> Y a = Y b -> Z a = Z b -> a = b.
Proof. destruct a, b; simpl; intros; subst; reflexivity. Qed.

Lemma IsZero_true (a : FVector) : IsZero a = true <-> a = ZeroVector.
Proof.
  unfold IsZero; rewrite !andb_true_iff, !Reqb_true; split.
  - intros [[Hx Hy] Hz]; now apply vec_eq.
  - intros ->; simpl; auto.
Qed.

Lemma IsZero_false_Z (x y z : R) : z <> 0 -> IsZero (MakeVector x y z) = false.
Proof.
  intros Hz; unfold IsZero; simpl.
  apply Reqb_false in Hz; rewrite Hz; now rewrite andb_false_r.
Qed.

Lemma SizeSquared_nonneg (a : FVector) : 0 <= SizeSquared a.
Proof. unfold SizeSquared; nra. Qed.

Lemma Size_nonneg (a : FVector) : 0 <= Size a.
Proof. apply sqrt_pos. Qed.

Lemma SizeSquared_vscale (a : FVector) (k : R) :
  SizeSquared (a *v k) = k * k * SizeSquared a.
Proof. unfold SizeSquared, vscale; simpl; ring. Qed.

Lemma Size_vscale_nonneg (a : FVector) (k : R) :
  0 <= k -> Size (a *v k) = k * Size a.
Proof.
  intros Hk; unfold Size; rewrite SizeSquared_vscale.
  rewrite sqrt_mult; [ | nra | apply SizeSquared_nonneg ].
  now rewrite sqrt_square.
Qed.

Lemma Dot_vscale_l (a b : FVector) (k : R) : Dot (a *v k) b = k * Dot a b.
Proof. unfold Dot, vscale; simpl; ring. Qed.

Lemma Dot_ZeroVector_l (b : FVector) : Dot ZeroVector b = 0.
Proof. unfold Dot; simpl; ring. Qed.

Lemma Dot_VectorPlaneProject (V N : FVector) :
  Dot (VectorPlaneProject V N) N = Dot V N * (1 - SizeSquared N).
Proof. unfold VectorPlaneProject, Dot, SizeSquared, vsub, vscale; simpl; ring. Qed.

Lemma GetAxisZ_unit (q : FQuat) :
  Quat_IsNormalized q -> SizeSquared (GetAxisZ q) = 1.
Proof.
  unfold Quat_IsNormalized, SizeSquared, GetAxisZ; destruct q as [x y z w]; simpl.
  intros H; nra.
Qed.

Lemma Dot_GetSafeNormal (a N : FVector) :
  Dot a N = 0 -> Dot (GetSafeNormal a) N = 0.
Proof.
  intros H; unfold GetSafeNormal.
  destruct (Reqb _ 1); [ exact H | ].
  destruct (Rltb _ _); [ apply Dot_ZeroVector_l | ].
  rewrite Dot_vscale_l, H; ring.
Qed.

Lemma Size_GetSafeNormal (a : FVector) :
  SMALL_NUMBER <= SizeSquared a -> Size (GetSafeNormal a) = 1.
Proof.
  intros H; unfold GetSafeNormal.
  destruct (Reqb (SizeSquared a) 1) eqn:E1.
  - apply Reqb_true in E1; unfold Size; rewrite E1; apply sqrt_1.
  - apply Rltb_false in H; rewrite H.
    assert (Hpos : 0 < SizeSquared a).
    { apply Rltb_false in H; unfold SMALL_NUMBER in H; lra. }
    assert (Hs : 0 < sqrt (SizeSquared a)) by now apply sqrt_lt_R0.
    rewrite Size_vscale_nonneg.
    + unfold FMath_InvSqrt, Size; field; lra.
    + unfold FMath_InvSqrt; left; now apply Rinv_0_lt_compat.
Qed.

Lemma GetSafeNormal_ZeroVector : GetSafeNormal ZeroVector = ZeroVector.
Proof.
  unfold GetSafeNormal.
  replace (SizeSquared ZeroVector) with 0 by (unfold SizeSquared; simpl; ring).
  assert (E1 : Reqb 0 1 = false) by (apply Reqb_false; lra).
  assert (E2 : Rltb 0 SMALL_NUMBER = true)
    by (apply Rltb_true; unfold SMALL_NUMBER; lra).
  now rewrite E1, E2.
Qed.

Lemma Size_ZeroVector : Size ZeroVector = 0.
Proof.
  unfold Size.
  replace (SizeSquared ZeroVector) with 0 by (unfold SizeSquared; simpl; ring).
  apply sqrt_0.
Qed.

Lemma vscale_ZeroVector (k : R) : ZeroVector *v k = ZeroVector.
Proof. apply vec_eq; simpl; ring. Qed.

Lemma WorldGravitySign_nonzero (s : Movement) : WorldGravitySign s <> 0.
Proof. unfold WorldGravitySign; destruct (Rltb _ _); lra. Qed.

Lemma GravityScaleSign_nonzero (s : Movement) : GravityScaleSign s <> 0.
Proof. unfold GravityScaleSign; destruct (Rltb _ _); lra. Qed.

(** ** [IsWalkable] *)

(** C5.  [IsWalkable] answers [true] exactly when none of its four rejections
    applies: the hit is a valid blocking hit, the impact normal's dot product
    with the capsule up axis is at least [KINDA_SMALL_NUMBER] and at least
    the walkable-floor threshold (after the hit component's slope override),
    and, unless [bLandOnAnySurface] is set or the agent is not falling, the
    impact normal's dot product with the reversed gravity direction reaches
    that same threshold.  In every other case it answers [false]. *)
Theorem IsWalkable_iff (s : Movement) (Hit : FHitResult) :
  fst (IsWalkable s Hit) = true <->
  IsValidBlockingHit Hit = true /\
  KINDA_SMALL_NUMBER <= Dot (ImpactNormal Hit) (GetComponentAxisZ s) /\
  TestWalkableZ s Hit <= Dot (ImpactNormal Hit) (GetComponentAxisZ s) /\
  (bLandOnAnySurface s = true \/ IsFalling s = false \/
   TestWalkableZ s Hit
     <= Dot (ImpactNormal Hit) (fst (GetGravityDirection false s) *v (-1))).
Proof.
  unfold IsWalkable.
  destruct (IsValidBlockingHit Hit); simpl.
  2: { split; [ discriminate | intros [H _]; discriminate ]. }
  destruct (Rltb (Dot (ImpactNormal Hit) (GetComponentAxisZ s)) KINDA_SMALL_NUMBER) eqn:E1.
  { apply Rltb_true in E1; simpl; split; [ discriminate | intros (_ & H & _); lra ]. }
  apply Rltb_false in E1.
  destruct (Rltb (Dot (ImpactNormal Hit) (GetComponentAxisZ s)) (TestWalkableZ s Hit)) eqn:E2.
  { apply Rltb_true in E2; simpl; split; [ discriminate | intros (_ & _ & H & _); lra ]. }
  apply Rltb_false in E2.
  destruct (bLandOnAnySurface s); simpl.
  { split; auto. }
  destruct (IsFalling s); simpl.
  2: { split; auto 6. }
  destruct (GetGravityDirection false s) as [GravityDir s']; simpl.
  destruct (Rltb (Dot (ImpactNormal Hit) (GravityDir *v -1)) (TestWalkableZ s Hit)) eqn:E3; simpl.
  - apply Rltb_true in E3; split; [ discriminate | ].
    intros (_ & _ & _ & [H | [H | H]]); try discriminate; lra.
  - apply Rltb_false in E3; split; auto 6.
Qed.

(** ** Projection on a plane and normalisation *)

Lemma SizeSquared_VectorPlaneProject (V N : FVector) :
  SizeSquared (VectorPlaneProject V N)
  = SizeSquared V - Dot V N * Dot V N * (2 - SizeSquared N).
Proof. unfold VectorPlaneProject, SizeSquared, Dot; simpl; ring. Qed.

Lemma SizeSquared_VectorPlaneProject_le (V N : FVector) :
  SizeSquared N <= 2 -> SizeSquared (VectorPlaneProject V N) <= SizeSquared V.
Proof.
  intros HN; rewrite SizeSquared_VectorPlaneProject.
  assert (0 <= Dot V N * Dot V N) by nra.
  nra.
Qed.

Lemma GetSafeNormal_rescale (a : FVector) :
  SMALL_NUMBER <= SizeSquared a -> GetSafeNormal a = a *v (/ Size a).
Proof.
  intros H; unfold GetSafeNormal.
  destruct (Reqb (SizeSquared a) 1) eqn:E1.
  - apply Reqb_true in E1; unfold Size; rewrite E1, sqrt_1.
    apply vec_eq; simpl; field.
  - apply Rltb_false in H; rewrite H; reflexivity.
Qed.

(** ** [MaintainHorizontalGroundVelocity] *)

Lemma MaintainHorizontalGroundVelocity_axis (s : Movement) :
  GetComponentAxisZ (MaintainHorizontalGroundVelocity s) = GetComponentAxisZ s.
Proof.
  unfold MaintainHorizontalGroundVelocity.
  now destruct (bMaintainHorizontalGroundVelocity s).
Qed.

(** C9 (amended).  With a normalised component rotation (so that the up axis
    is a unit vector), the velocity left by [MaintainHorizontalGroundVelocity]
    is orthogonal to the up axis.  When [bMaintainHorizontalGroundVelocity]
    is true it is the projection of the old velocity onto the plane
    orthogonal to the up axis.  When the flag is false and that projection
    has squared length at least [SMALL_NUMBER], it is the projection
    rescaled by the positive factor |velocity| / |projection|, and so has
    the magnitude of the old velocity. *)
Theorem MaintainHorizontalGroundVelocity_spec (s : Movement) :
  Quat_IsNormalized (ComponentQuat s) ->
  let s' := MaintainHorizontalGroundVelocity s in
  let Projected := VectorPlaneProject (Velocity s) (GetComponentAxisZ s) in
  Dot (Velocity s') (GetComponentAxisZ s') = 0 /\
  (bMaintainHorizontalGroundVelocity s = true -> Velocity s' = Projected) /\
  (bMaintainHorizontalGroundVelocity s = false ->
   SMALL_NUMBER <= SizeSquared Projected ->
   Size (Velocity s') = Size (Velocity s) /\
   0 < Size (Velocity s) / Size Projected /\
   Velocity s' = Projected *v (Size (Velocity s) / Size Projected)).
Proof.
  intros Hq s' Projected.
  assert (Hu : SizeSquared (GetComponentAxisZ s) = 1) by now apply GetAxisZ_unit.
  assert (Hp : Dot Projected (GetComponentAxisZ s) = 0).
  { subst Projected; rewrite Dot_VectorPlaneProject, Hu; ring. }
  subst s'; rewrite MaintainHorizontalGroundVelocity_axis.
  unfold MaintainHorizontalGroundVelocity; fold Projected.
  destruct (bMaintainHorizontalGroundVelocity s); simpl.
  - split; [ exact Hp | split; [ reflexivity | discriminate ] ].
  - split; [ | split; [ discriminate | ] ].
    + rewrite Dot_vscale_l, Dot_GetSafeNormal by exact Hp; ring.
    + intros _ Hbig.
      assert (Hpos : 0 < SizeSquared Projected) by (unfold SMALL_NUMBER in Hbig; lra).
      assert (HsP : 0 < Size Projected) by (unfold Size; now apply sqrt_lt_R0).
      assert (HsV : 0 < Size (Velocity s)).
      { unfold Size; apply sqrt_lt_R0.
        pose proof (SizeSquared_VectorPlaneProject_le (Velocity s) (GetComponentAxisZ s))
          as Hle.
        fold Projected in Hle; lra. }
      split; [ | split ].
      * rewrite Size_vscale_nonneg by apply Size_nonneg.
        rewrite Size_GetSafeNormal by exact Hbig; ring.
      * apply Rdiv_lt_0_compat; assumption.
      * rewrite (GetSafeNormal_rescale Projected Hbig).
        apply vec_eq; simpl; field; lra.
Qed.

Lemma MaintainHorizontalGroundVelocity_spec_witness :
  let s := set_Velocity SampleMovement (MakeVector 3 0 4) in
  Quat_IsNormalized (ComponentQuat s) /\
  Dot (Velocity (MaintainHorizontalGroundVelocity s))
      (GetComponentAxisZ (MaintainHorizontalGroundVelocity s)) = 0 /\
  Size (Velocity (MaintainHorizontalGroundVelocity s)) = Size (Velocity s) /\
  Velocity (MaintainHorizontalGroundVelocity s)
  = VectorPlaneProject (Velocity s) (GetComponentAxisZ s)
    *v (Size (Velocity s) / Size (VectorPlaneProject (Velocity s) (GetComponentAxisZ s))).
Proof.
  intros s.
  assert (Hq : Quat_IsNormalized (ComponentQuat s))
    by (unfold Quat_IsNormalized; simpl; lra).
  destruct (MaintainHorizontalGroundVelocity_spec s Hq) as [Hdot [_ Hscaled]].
  assert (Hbig : SMALL_NUMBER
                 <= SizeSquared (VectorPlaneProject (Velocity s) (GetComponentAxisZ s))).
  { unfold SizeSquared, VectorPlaneProject, GetComponentAxisZ, Dot, SMALL_NUMBER; simpl.
    lra. }
  destruct (Hscaled eq_refl Hbig) as [Hsize [_ Hvec]].
  split; [ exact Hq | split; [ exact Hdot | split; [ exact Hsize | exact Hvec ] ] ].
Defined.

(** C9, as stated, fails for a velocity along the up axis: the projection is
    the zero vector, [GetSafeNormal] keeps it zero, and the magnitude 1 of
    the velocity is lost. *)
Lemma MaintainHorizontalGroundVelocity_magnitude_counterexample :
  let s := set_Velocity SampleMovement (MakeVector 0 0 1) in
  Quat_IsNormalized (ComponentQuat s) /\
  SizeSquared (GetComponentAxisZ s) = 1 /\
  bMaintainHorizontalGroundVelocity s = false /\
  Size (Velocity s) = 1 /\
  Size (Velocity (MaintainHorizontalGroundVelocity s)) = 0.
Proof.
  intros s.
  assert (Hp : VectorPlaneProject (Velocity s) (GetComponentAxisZ s) = ZeroVector).
  { apply vec_eq; unfold s, VectorPlaneProject, Dot, GetComponentAxisZ; simpl; ring. }
  repeat split.
  - unfold Quat_IsNormalized; simpl; lra.
  - unfold SizeSquared; simpl; ring.
  - unfold Size.
    replace (SizeSquared (Velocity s)) with 1 by (unfold SizeSquared; simpl; ring).
    apply sqrt_1.
  - unfold MaintainHorizontalGroundVelocity.
    replace (bMaintainHorizontalGroundVelocity s) with false by reflexivity.
    rewrite Hp, GetSafeNormal_ZeroVector, vscale_ZeroVector.
    apply Size_ZeroVector.
Qed.

(** ** [GetGravityDirection] *)

Lemma IsZero_DownVector : IsZero DownVector = false.
Proof. apply IsZero_false_Z; lra. Qed.

(** C1 (amended).  [GetGravityDirection(true)] never returns the zero
    vector, whatever the mode, the position and the validity of the
    component.  With valid data and a non-zero [GravityScale], whenever the
    raw direction ([bAvoidZeroGravity = false]) is the zero vector the result
    is the world-vertical vector whose sign is the sign of the engine gravity
    times the sign of [GravityScale].  With valid data and a zero
    [GravityScale] the direction is resolved from the mode without a sign,
    and only when that direction is zero is the result the world-vertical
    vector, signed by the engine gravity alone. *)
Theorem GetGravityDirection_avoid_zero (s : Movement) :
  IsZero (fst (GetGravityDirection true s)) = false /\
  (HasValidData s = true -> GravityScale s <> 0 ->
   IsZero (fst (GetGravityDirection false s)) = true ->
   fst (GetGravityDirection true s)
     = MakeVector 0 0 (WorldGravitySign s * GravityScaleSign s)) /\
  (HasValidData s = true -> GravityScale s = 0 ->
   fst (GetGravityDirection false s) = ZeroVector /\
   fst (GetGravityDirection true s)
     = if IsZero (fst (GravityDirectionSwitch (fun v => v) s))
       then MakeVector 0 0 (WorldGravitySign s)
       else fst (GravityDirectionSwitch (fun v => v) s)).
Proof.
  pose proof (WorldGravitySign_nonzero s) as Hw.
  pose proof (GravityScaleSign_nonzero s) as Hg.
  unfold GetGravityDirection.
  destruct (HasValidData s); simpl.
  2: { split; [ apply IsZero_DownVector | split; discriminate ]. }
  destruct (Reqb (GravityScale s) 0) eqn:Escale; simpl.
  - apply Reqb_true in Escale.
    destruct (GravityDirectionSwitch (fun v => v) s) as [d s'] eqn:Esw; simpl.
    destruct (IsZero d) eqn:Ed; simpl.
    + split; [ now apply IsZero_false_Z | ].
      split; [ intros _ Hne; contradiction | auto ].
    + split; [ exact Ed | ].
      split; [ intros _ Hne; contradiction | auto ].
  - apply Reqb_false in Escale.
    destruct (GravityDirectionSwitch (fun v => v *v GravityScaleSign s) s)
      as [d s'] eqn:Esw; simpl.
    destruct (IsZero d) eqn:Ed; simpl.
    + split; [ apply IsZero_false_Z; now apply Rmult_integral_contrapositive | ].
      split; [ reflexivity | intros _ H0; contradiction ].
    + split; [ exact Ed | ].
      split; [ intros _ _ H; discriminate | intros _ H0; contradiction ].
Qed.

Lemma GetGravityDirection_avoid_zero_witness :
  let s := set_ComponentLocation
             (set_GravityScale
                (set_GravityDirection SampleMovement Point (MakeVector 5 6 7)
                   ZeroVector None)
                (-2))
             (MakeVector 5 6 7) in
  HasValidData s = true /\ GravityScale s <> 0 /\
  IsZero (fst (GetGravityDirection false s)) = true /\
  fst (GetGravityDirection true s) = MakeVector 0 0 1.
Proof.
  intros s.
  assert (Hv : HasValidData s = true) by reflexivity.
  assert (Hs : GravityScale s <> 0) by (simpl; lra).
  assert (Hsign : GravityScaleSign s = -1).
  { unfold GravityScaleSign; simpl.
    assert (E : Rltb 0 (-2) = false) by (apply Rltb_false; lra).
    now rewrite E. }
  assert (Hworld : WorldGravitySign s = -1).
  { unfold WorldGravitySign; simpl.
    assert (E : Rltb 0 (-980) = false) by (apply Rltb_false; lra).
    now rewrite E. }
  assert (Hraw : IsZero (fst (GetGravityDirection false s)) = true).
  { unfold GetGravityDirection; simpl.
    assert (E : Reqb (-2) 0 = false) by (apply Reqb_false; lra).
    rewrite E; simpl.
    unfold GravityDirectionSwitch; simpl.
    assert (Ez : IsZero (MakeVector 5 6 7 - MakeVector 5 6 7) = true).
    { apply IsZero_true, vec_eq; simpl; ring. }
    now rewrite Ez. }
  repeat split; auto.
  rewrite (proj1 (proj2 (GetGravityDirection_avoid_zero s)) Hv Hs Hraw).
  rewrite Hsign, Hworld; f_equal; ring.
Defined.

(** C1, as stated, fails when [GravityScale] is zero: the raw direction is
    the zero vector, yet with a fixed gravity direction along the world X
    axis the result is that direction, not a world-vertical fallback. *)
Lemma GetGravityDirection_zero_scale_counterexample :
  let s := set_GravityScale
             (set_GravityDirection SampleMovement Fixed (MakeVector 1 0 0) ZeroVector
                None)
             0 in
  GravityScale s = 0 /\
  fst (GetGravityDirection false s) = ZeroVector /\
  fst (GetGravityDirection true s) = MakeVector 1 0 0 /\
  X (fst (GetGravityDirection true s)) <> 0.
Proof.
  intros s.
  assert (E0 : Reqb 0 0 = true) by apply Reqb_refl.
  assert (Ez : IsZero (MakeVector 1 0 0) = false).
  { unfold IsZero; simpl.
    assert (E : Reqb 1 0 = false) by (apply Reqb_false; lra).
    now rewrite E. }
  assert (Hres : fst (GetGravityDirection true s) = MakeVector 1 0 0).
  { unfold GetGravityDirection; simpl; rewrite E0; simpl.
    unfold GravityDirectionSwitch; simpl; now rewrite Ez. }
  repeat split.
  - unfold GetGravityDirection; simpl; now rewrite E0.
  - exact Hres.
  - rewrite Hres; simpl; lra.
Qed.

(** ** [ImmersionDepth] *)

(** C10.  Provided the brush's line trace reports a hit time between 0 and 1
    (the engine's contract for [FHitResult::Time]), [ImmersionDepth] lies in
    [[0, 1]].  It is 0 when the physics volume is not a water volume; in a
    water volume it is exactly 1 when the owner's collision half-height or
    [Buoyancy] is zero, and exactly 1 when the trace comes back without a hit
    (hit time still 1). *)
Theorem ImmersionDepth_range (s : Movement) :
  (forall b h a e, GetBrushComponent (PhysicsVolume s) = Some b ->
     0 <= Time (LineTraceComponent b h a e) <= 1) ->
  0 <= ImmersionDepth s <= 1 /\
  (bWaterVolume (PhysicsVolume s) = false -> ImmersionDepth s = 0) /\
  (forall Owner, CharacterOwner s = Some Owner ->
     bWaterVolume (PhysicsVolume s) = true ->
     (GetSimpleCollisionHalfHeight Owner = 0 \/ Buoyancy s = 0 ->
      ImmersionDepth s = 1) /\
     (Time (ImmersionTrace s (GetSimpleCollisionHalfHeight Owner)) = 1 ->
      ImmersionDepth s = 1)).
Proof.
  intros Htrace.
  assert (Hrange : forall hh, 0 <= Time (ImmersionTrace s hh) <= 1).
  { intros hh; unfold ImmersionTrace.
    destruct (GetBrushComponent (PhysicsVolume s)) as [b | ] eqn:Eb.
    - now apply Htrace.
    - simpl; lra. }
  unfold ImmersionDepth.
  destruct (CharacterOwner s) as [Owner | ] eqn:Eo.
  2: { repeat split; try lra; intros; discriminate. }
  destruct (bWaterVolume (PhysicsVolume s)) eqn:Ew.
  2: { repeat split; try lra; intros; discriminate. }
  split; [ | split; [ discriminate | ] ].
  - destruct (Reqb _ 0 || Reqb _ 0); [ lra | ].
    specialize (Hrange (GetSimpleCollisionHalfHeight Owner)).
    destruct (Reqb _ 1); lra.
  - intros Owner' HO _; injection HO as <-; split.
    + intros [H | H]; apply Reqb_true in H; rewrite H; simpl; auto.
      now rewrite orb_true_r.
    + intros H; apply Reqb_true in H; rewrite H.
      now destruct (Reqb _ 0 || Reqb _ 0).
Qed.

Lemma ImmersionDepth_range_witness :
  let Brush := MakeBrush (fun h _ _ =>
                 MakeHit true false (1 / 4) ZeroVector ZeroVector ZeroVector
                         ZeroVector None NAME_None) in
  let s := set_PhysicsVolume SampleMovement
             (MakeVolume true (-980) (3 / 10) (Some Brush)) in
  0 <= ImmersionDepth s <= 1.
Proof.
  intros Brush s.
  apply (ImmersionDepth_range s).
  intros b h a e Hb; injection Hb as <-; simpl; lra.
Defined.

(** ** [PhysFalling] and [PhysSwimming] with degenerate gravity *)

Lemma GravityDirectionSwitch_frame (k : FVector -> FVector) (s : Movement) :
  ComponentLocation (snd (GravityDirectionSwitch k s)) = ComponentLocation s.
Proof.
  unfold GravityDirectionSwitch, LiveGravitySpline, LiveGravityActor.
  destruct (GravityDirectionMode s); simpl; try reflexivity;
    destruct (GravityActor s) as [a | ]; simpl; try reflexivity;
    destruct (IsPendingKill a); simpl; try reflexivity;
    try (destruct (GetSplineComponent a); reflexivity).
  destruct (Rltb 0 _); reflexivity.
Qed.

Lemma GetGravityDirection_frame (b : bool) (s : Movement) :
  ComponentLocation (snd (GetGravityDirection b s)) = ComponentLocation s.
Proof.
  unfold GetGravityDirection.
  destruct (negb (HasValidData s)); [ reflexivity | ].
  destruct (negb (Reqb (GravityScale s) 0)).
  - pose proof (GravityDirectionSwitch_frame (fun v => v *v GravityScaleSign s) s) as H.
    destruct (GravityDirectionSwitch _ s) as [d s']; simpl in *.
    now destruct (b && IsZero d).
  - destruct b; [ | reflexivity ].
    pose proof (GravityDirectionSwitch_frame (fun v => v) s) as H.
    destruct (GravityDirectionSwitch _ s) as [d s']; simpl in *.
    now destruct (IsZero d).
Qed.

(** C8 (amended).  For a tick of at least [MIN_TICK_TIME] in which the
    resolved gravity direction is the zero vector, [PhysFalling] and
    [PhysSwimming] both stop right after the gravity check: acceleration and
    velocity are the zero vector, the location is the one before the call,
    and the rest of the integrator is not run (the result does not depend on
    it). *)
Theorem Phys_degenerate_gravity_exit (E : Engine)
    (Integrate : FVector -> R -> int32 -> Movement -> Movement)
    (deltaTime : R) (Iterations : int32) (s : Movement) :
  MIN_TICK_TIME E <= deltaTime ->
  IsZero (fst (GetGravityDirection false s)) = true ->
  let stopped :=
    set_Velocity (set_Acceleration (snd (GetGravityDirection false s)) ZeroVector)
                 ZeroVector in
  PhysFalling E Integrate deltaTime Iterations s = stopped /\
  PhysSwimming E Integrate deltaTime Iterations s = stopped /\
  Acceleration stopped = ZeroVector /\
  Velocity stopped = ZeroVector /\
  ComponentLocation stopped = ComponentLocation s.
Proof.
  intros Hdt Hzero stopped.
  apply Rltb_false in Hdt.
  unfold PhysFalling, PhysSwimming; rewrite Hdt.
  subst stopped.
  pose proof (GetGravityDirection_frame false s) as Hloc.
  destruct (GetGravityDirection false s) as [GravityDir s1]; simpl in *.
  rewrite Hzero; repeat split; exact Hloc.
Qed.

Lemma Phys_degenerate_gravity_exit_witness :
  let s := FloatingSample in
  let s' := PhysFalling SampleEngine (fun _ _ _ t => t) (1 / 60) 0%Z s in
  Acceleration s' = ZeroVector /\ Velocity s' = ZeroVector /\
  ComponentLocation s' = MakeVector 1 2 3.
Proof.
  intros s s'.
  assert (Hdt : MIN_TICK_TIME SampleEngine <= 1 / 60) by (simpl; lra).
  assert (Hz : IsZero (fst (GetGravityDirection false s)) = true).
  { unfold GetGravityDirection; simpl; rewrite Reqb_refl; simpl.
    now apply IsZero_true. }
  destruct (Phys_degenerate_gravity_exit SampleEngine (fun _ _ _ t => t)
              (1 / 60) 0%Z s Hdt Hz) as (Hf & _ & Ha & Hv & Hl).
  subst s'; rewrite Hf; auto.
Defined.

(** C8, as stated, fails for a tick shorter than [MIN_TICK_TIME]: the
    integrator returns before it looks at gravity and the velocity stays. *)
Lemma PhysFalling_short_tick_counterexample :
  let s := FloatingSample in
  fst (GetGravityDirection false s) = ZeroVector /\
  Velocity (PhysFalling SampleEngine (fun _ _ _ t => t) 0 0%Z s) = MakeVector 1 0 0 /\
  Velocity (PhysSwimming SampleEngine (fun _ _ _ t => t) 0 0%Z s) = MakeVector 1 0 0 /\
  MakeVector 1 0 0 <> ZeroVector.
Proof.
  intros s.
  assert (Hdt : Rltb 0 (MIN_TICK_TIME SampleEngine) = true)
    by (apply Rltb_true; simpl; lra).
  repeat split.
  - unfold GetGravityDirection; simpl; now rewrite Reqb_refl.
  - unfold PhysFalling; now rewrite Hdt.
  - unfold PhysSwimming; now rewrite Hdt.
  - intros H; apply (f_equal X) in H; simpl in H; lra.
Qed.

(** ** The jump-apex substep of [PhysFalling] *)

Lemma JumpApexSubstep_cases (E : Engine) (GravityDir OldVelocity NewVelocity : FVector)
    (timeTick RemainingTime : R) (Iterations : int32) (s : Movement) :
  JumpApexSubstep E GravityDir OldVelocity NewVelocity timeTick RemainingTime Iterations s
  = if ApexSubstepTaken E s GravityDir OldVelocity NewVelocity timeTick
    then
      let TimeToApex := TimeToApex_of OldVelocity NewVelocity GravityDir timeTick in
      let ApexVelocity :=
        (OldVelocity
         + DerivedAccel_of OldVelocity NewVelocity timeTick *v TimeToApex)%vec in
      (MakeFallingStep (VectorPlaneProject ApexVelocity GravityDir) 0 TimeToApex
         (RemainingTime + (timeTick - TimeToApex)) (Iterations - 1)%Z,
       set_NumJumpApexAttempts s (NumJumpApexAttempts s + 1)%Z)
    else (MakeFallingStep NewVelocity (Dot NewVelocity GravityDir * -1) timeTick
            RemainingTime Iterations, s).
Proof.
  unfold JumpApexSubstep, ApexSubstepTaken, TimeToApex_of, DerivedAccelZ_of.
  destruct (negb (Z.eqb (ForceJumpPeakSubstep E) 0)); simpl; [ | reflexivity ].
  destruct (Rltb 0 (OldSpeedZ_of OldVelocity GravityDir)); simpl; [ | reflexivity ].
  destruct (Rleb (Dot NewVelocity GravityDir * -1) 0); simpl; [ | reflexivity ].
  destruct (Z.ltb (NumJumpApexAttempts s) (MaxJumpApexAttemptsPerSimulation s));
    simpl; [ | reflexivity ].
  destruct (negb (FMath_IsNearlyZero _)); simpl; [ | reflexivity ].
  reflexivity.
Qed.

Lemma IsNearlyZero_false_nonzero (a : R) : FMath_IsNearlyZero a = false -> a <> 0.
Proof.
  unfold FMath_IsNearlyZero, FMath_Abs; intros H Ha; subst a.
  assert (E : Rleb 0 0 = true) by (apply Rleb_true; lra).
  rewrite E in H; apply Rleb_false in H; unfold SMALL_NUMBER in H; lra.
Qed.

Lemma Dot_vadd_l (a b c : FVector) : Dot (a + b) c = Dot a c + Dot b c.
Proof. unfold Dot, vadd; simpl; ring. Qed.

(** C3 (amended).  The apex block of the falling loop inserts the substep
    exactly when all of its guards hold: [p.ForceJumpPeakSubstep] is on, the
    speed against gravity was positive before gravity was applied and is
    non-positive after, fewer than [MaxJumpApexAttemptsPerSimulation]
    attempts were made, the derived acceleration against gravity is not
    nearly zero, and the apex time lies in [[0.0001, timeTick)].  Then the
    substep lasts [v0 / g] ([v0] the prior speed against gravity, [g] the
    derived deceleration), the new velocity has no component along the
    gravity direction, [VelocityZ] is 0, the unused time is given back to
    [RemainingTime], the iteration is not counted and the attempt is.  When a
    guard fails, the block changes nothing. *)
Theorem JumpApexSubstep_spec (E : Engine) (GravityDir OldVelocity NewVelocity : FVector)
    (timeTick RemainingTime : R) (Iterations : int32) (s : Movement) :
  let v0 := OldSpeedZ_of OldVelocity GravityDir in
  let g := - DerivedAccelZ_of OldVelocity NewVelocity GravityDir timeTick in
  let r := JumpApexSubstep E GravityDir OldVelocity NewVelocity timeTick RemainingTime
             Iterations s in
  (ApexSubstepTaken E s GravityDir OldVelocity NewVelocity timeTick = true ->
   0 < v0 /\ Dot NewVelocity GravityDir * -1 <= 0 /\
   Step_timeTick (fst r) = v0 / g /\
   Dot (Step_Velocity (fst r)) GravityDir = 0 /\
   Step_VelocityZ (fst r) = 0 /\
   Step_RemainingTime (fst r) + Step_timeTick (fst r) = RemainingTime + timeTick /\
   Step_Iterations (fst r) = (Iterations - 1)%Z /\
   NumJumpApexAttempts (snd r) = (NumJumpApexAttempts s + 1)%Z) /\
  (ApexSubstepTaken E s GravityDir OldVelocity NewVelocity timeTick = false ->
   r = (MakeFallingStep NewVelocity (Dot NewVelocity GravityDir * -1) timeTick
          RemainingTime Iterations, s)).
Proof.
  intros v0 g r; subst r; rewrite JumpApexSubstep_cases.
  destruct (ApexSubstepTaken E s GravityDir OldVelocity NewVelocity timeTick) eqn:Et.
  2: { split; [ discriminate | reflexivity ]. }
  split; [ intros _ | discriminate ].
  unfold ApexSubstepTaken in Et.
  repeat (apply andb_true_iff in Et; destruct Et as [Et ?]).
  match goal with H : Rltb 0 _ = true |- _ => apply Rltb_true in H end.
  match goal with H : Rleb (Dot _ _ * -1) 0 = true |- _ => apply Rleb_true in H end.
  match goal with
  | H : negb (FMath_IsNearlyZero _) = true |- _ =>
      apply negb_true_iff, IsNearlyZero_false_nonzero in H; rename H into Hnz
  end.
  simpl.
  assert (Ht : TimeToApex_of OldVelocity NewVelocity GravityDir timeTick = v0 / g).
  { unfold TimeToApex_of; subst v0 g; field; exact Hnz. }
  repeat split; auto.
  - rewrite Dot_VectorPlaneProject, Dot_vadd_l, Dot_vscale_l.
    replace (Dot OldVelocity GravityDir) with (- v0)
      by (subst v0; unfold OldSpeedZ_of; ring).
    replace (Dot (DerivedAccel_of OldVelocity NewVelocity timeTick) GravityDir) with g
      by (subst g; unfold DerivedAccelZ_of; ring).
    rewrite Ht.
    assert (Hg : g <> 0) by (subst g; lra).
    replace (- v0 + v0 / g * g) with 0 by (field; exact Hg).
    ring.
  - ring.
Qed.

Lemma JumpApexSubstep_spec_witness :
  let G := MakeVector 0 0 (-1) in
  let OldV := MakeVector 0 0 98 in
  let NewV := MakeVector 0 0 (-98) in
  ApexSubstepTaken SampleEngine SampleMovement G OldV NewV (1 / 5) = true /\
  Step_timeTick (fst (JumpApexSubstep SampleEngine G OldV NewV (1 / 5) 0 1%Z
                        SampleMovement)) = 1 / 10.
Proof.
  intros G OldV NewV.
  assert (Hd : DerivedAccelZ_of OldV NewV G (1 / 5) = -980).
  { unfold DerivedAccelZ_of, DerivedAccel_of, Dot; simpl; field. }
  assert (Ho : OldSpeedZ_of OldV G = 98).
  { unfold OldSpeedZ_of, Dot; simpl; ring. }
  assert (Ht : TimeToApex_of OldV NewV G (1 / 5) = 1 / 10).
  { unfold TimeToApex_of; rewrite Hd, Ho; field. }
  assert (Htaken : ApexSubstepTaken SampleEngine SampleMovement G OldV NewV (1 / 5)
                   = true).
  { unfold ApexSubstepTaken; rewrite Hd, Ho, Ht; simpl.
    repeat (apply andb_true_iff; split); try reflexivity.
    - apply Rltb_true; lra.
    - apply Rleb_true; unfold Dot; simpl; lra.
    - apply negb_true_iff, Rleb_false.
      unfold FMath_Abs.
      assert (E : Rleb 0 (-980) = false) by (apply Rleb_false; lra).
      rewrite E; unfold SMALL_NUMBER; lra.
    - apply Rleb_true; unfold ApexTimeMinimum; lra.
    - apply Rltb_true; lra. }
  split; [ exact Htaken | ].
  destruct (proj1 (JumpApexSubstep_spec SampleEngine G OldV NewV (1 / 5) 0 1%Z
                     SampleMovement) Htaken) as (_ & _ & Htick & _).
  rewrite Htick, Hd, Ho; field.
Defined.

(** C3, as stated, fails once the attempts of the simulation are used up:
    the speed against gravity changes sign within the substep (98 before,
    -98 after), yet no substep is inserted and the step keeps its duration
    and its downward velocity. *)
Lemma JumpApexSubstep_attempts_counterexample :
  let G := MakeVector 0 0 (-1) in
  let OldV := MakeVector 0 0 98 in
  let NewV := MakeVector 0 0 (-98) in
  let s := set_NumJumpApexAttempts SampleMovement 2%Z in
  let r := JumpApexSubstep SampleEngine G OldV NewV (1 / 5) 0 1%Z s in
  0 < OldSpeedZ_of OldV G /\ Dot NewV G * -1 <= 0 /\
  Step_timeTick (fst r) = 1 / 5 /\
  Step_VelocityZ (fst r) = -98 /\
  Step_RemainingTime (fst r) = 0.
Proof.
  intros G OldV NewV s r.
  assert (Hr : r = (MakeFallingStep NewV (Dot NewV G * -1) (1 / 5) 0 1%Z, s)).
  { subst r; rewrite JumpApexSubstep_cases.
    assert (Hn : ApexSubstepTaken SampleEngine s G OldV NewV (1 / 5) = false).
    { unfold ApexSubstepTaken.
      replace (Z.ltb (NumJumpApexAttempts s) (MaxJumpApexAttemptsPerSimulation s))
        with false by reflexivity.
      now rewrite andb_false_r. }
    now rewrite Hn. }
  rewrite Hr; simpl.
  unfold OldSpeedZ_of, Dot; simpl.
  repeat split; lra.
Qed.

(** ** [AdjustFloorHeight] *)

(** C6 (amended).  With [MIN_FLOOR_DIST <= MAX_FLOOR_DIST] and a move that
    leaves the floor result alone, for a walkable current floor that comes
    from a sweep (not a line trace): if the floor distance already lies in
    [[MIN_FLOOR_DIST, MAX_FLOOR_DIST]], [AdjustFloorHeight] changes nothing;
    if it does not and the adjusting move is not blocked, the recorded floor
    distance becomes the midpoint of the two bounds.  In both cases the
    recorded floor distance lies within the bounds afterwards. *)
Theorem AdjustFloorHeight_in_range (E : Engine) (s : Movement) :
  MIN_FLOOR_DIST E <= MAX_FLOOR_DIST E ->
  (forall d q b,
     CurrentFloor (fst (SafeMoveUpdatedComponent E s d q b)) = CurrentFloor s) ->
  IsWalkableFloor (CurrentFloor s) = true ->
  bLineTrace (CurrentFloor s) = false ->
  let MoveDist :=
    (MIN_FLOOR_DIST E + MAX_FLOOR_DIST E) * (1 / 2) - FloorDist (CurrentFloor s) in
  let AdjustHit :=
    snd (SafeMoveUpdatedComponent E s (GetComponentAxisZ s *v MoveDist)
           (ComponentQuat s) true) in
  let s' := AdjustFloorHeight E s in
  (MIN_FLOOR_DIST E <= FloorDist (CurrentFloor s) <= MAX_FLOOR_DIST E -> s' = s) /\
  (~ MIN_FLOOR_DIST E <= FloorDist (CurrentFloor s) <= MAX_FLOOR_DIST E ->
   IsValidBlockingHit AdjustHit = false ->
   FloorDist (CurrentFloor s') = (MIN_FLOOR_DIST E + MAX_FLOOR_DIST E) * (1 / 2)) /\
  (MIN_FLOOR_DIST E <= FloorDist (CurrentFloor s) <= MAX_FLOOR_DIST E
   \/ IsValidBlockingHit AdjustHit = false ->
   MIN_FLOOR_DIST E <= FloorDist (CurrentFloor s') <= MAX_FLOOR_DIST E).
Proof.
  intros Hmm Hframe Hwalk Hline MoveDist AdjustHit s'.
  assert (Hin : MIN_FLOOR_DIST E <= FloorDist (CurrentFloor s) <= MAX_FLOOR_DIST E ->
                s' = s).
  { intros [Hlo Hhi]; subst s'; unfold AdjustFloorHeight.
    rewrite Hwalk, Hline; simpl.
    apply Rltb_false in Hlo; apply Rltb_false in Hhi.
    now rewrite Hlo, Hhi. }
  assert (Hout : ~ MIN_FLOOR_DIST E <= FloorDist (CurrentFloor s) <= MAX_FLOOR_DIST E ->
                 IsValidBlockingHit AdjustHit = false ->
                 FloorDist (CurrentFloor s')
                 = (MIN_FLOOR_DIST E + MAX_FLOOR_DIST E) * (1 / 2)).
  { intros Hnot Hfree; subst s'; unfold AdjustFloorHeight.
    rewrite Hwalk, Hline; simpl.
    assert (Hc : Rltb (FloorDist (CurrentFloor s)) (MIN_FLOOR_DIST E)
                 || Rltb (MAX_FLOOR_DIST E) (FloorDist (CurrentFloor s)) = true).
    { destruct (Rltb (FloorDist (CurrentFloor s)) (MIN_FLOOR_DIST E)) eqn:E1;
        [ reflexivity | ].
      destruct (Rltb (MAX_FLOOR_DIST E) (FloorDist (CurrentFloor s))) eqn:E2;
        [ reflexivity | ].
      apply Rltb_false in E1, E2; exfalso; apply Hnot; lra. }
    rewrite Hc.
    subst AdjustHit MoveDist.
    specialize (Hframe (GetComponentAxisZ s
                        *v ((MIN_FLOOR_DIST E + MAX_FLOOR_DIST E) * (1 / 2)
                            - FloorDist (CurrentFloor s)))
                       (ComponentQuat s) true).
    destruct (SafeMoveUpdatedComponent E s _ (ComponentQuat s) true) as [s1 Hit].
    simpl in Hfree, Hframe; rewrite Hfree; simpl.
    destruct (CharacterOwner s1) as [Owner | ]; simpl.
    - destruct (GetLocalRole Owner); simpl; rewrite Hframe; ring.
    - rewrite Hframe; ring. }
  split; [ exact Hin | split; [ exact Hout | ] ].
  intros [Hr | Hfree].
  - now rewrite (Hin Hr).
  - destruct (Rle_dec (MIN_FLOOR_DIST E) (FloorDist (CurrentFloor s))) as [Hlo | Hlo].
    + destruct (Rle_dec (FloorDist (CurrentFloor s)) (MAX_FLOOR_DIST E)) as [Hhi | Hhi].
      * now rewrite (Hin (conj Hlo Hhi)).
      * rewrite Hout; [ lra | lra | exact Hfree ].
    + rewrite Hout; [ lra | lra | exact Hfree ].
Qed.

Lemma AdjustFloorHeight_in_range_witness :
  let WalkableHit :=
    MakeHit true false (1 / 2) ZeroVector ZeroVector (MakeVector 0 0 1)
            (MakeVector 0 0 1) None NAME_None in
  let s := set_CurrentFloor SampleMovement
             (MakeFloor true true false 5 0 WalkableHit) in
  FloorDist (CurrentFloor (AdjustFloorHeight SampleEngine s)) = 43 / 20 /\
  MIN_FLOOR_DIST SampleEngine
    <= FloorDist (CurrentFloor (AdjustFloorHeight SampleEngine s))
    <= MAX_FLOOR_DIST SampleEngine.
Proof.
  intros WalkableHit s.
  assert (H1 : MIN_FLOOR_DIST SampleEngine <= MAX_FLOOR_DIST SampleEngine)
    by (simpl; lra).
  assert (H2 : forall d q b,
             CurrentFloor (fst (SafeMoveUpdatedComponent SampleEngine s d q b))
             = CurrentFloor s) by reflexivity.
  assert (H3 : IsWalkableFloor (CurrentFloor s) = true) by reflexivity.
  assert (H4 : bLineTrace (CurrentFloor s) = false) by reflexivity.
  destruct (AdjustFloorHeight_in_range SampleEngine s H1 H2 H3 H4) as (_ & Hmid & Hin).
  split.
  - rewrite Hmid; [ simpl; lra | simpl; lra | reflexivity ].
  - apply Hin; right; reflexivity.
Defined.

(** C6, as stated, fails for a walkable floor that fell back to a line
    trace: with a sweep distance of 0 and a line distance of 5,
    [AdjustFloorHeight] gives up (moving would scale an unwalkable wall) and
    nothing changes: the recorded floor distance stays 0, below
    [MIN_FLOOR_DIST], and the line distance stays 5, above
    [MAX_FLOOR_DIST]. *)
Lemma AdjustFloorHeight_line_trace_counterexample :
  let WalkableHit :=
    MakeHit true false (1 / 2) ZeroVector ZeroVector (MakeVector 0 0 1)
            (MakeVector 0 0 1) None NAME_None in
  let s := set_CurrentFloor SampleMovement
             (MakeFloor true true true 0 5 WalkableHit) in
  let s' := AdjustFloorHeight SampleEngine s in
  MovementMode s = MOVE_Walking /\
  IsWalkableFloor (CurrentFloor s) = true /\
  s' = s /\
  FloorDist (CurrentFloor s') < MIN_FLOOR_DIST SampleEngine /\
  MAX_FLOOR_DIST SampleEngine < GetDistanceToFloor (CurrentFloor s').
Proof.
  intros WalkableHit s s'.
  assert (E1 : Rltb 0 (19 / 10) = true) by (apply Rltb_true; lra).
  assert (E2 : Rleb (19 / 10) 5 = true) by (apply Rleb_true; lra).
  assert (Hs : s' = s).
  { subst s'; unfold AdjustFloorHeight; simpl; now rewrite E1, E2. }
  rewrite Hs; subst s; unfold GetDistanceToFloor; simpl.
  repeat split; lra.
Qed.

(** ** [StepUp] *)

Lemma StepUp_reject_transform (s0 s : Movement) :
  SameTransform s0 (snd (StepUp_reject s0 s)).
Proof. split; reflexivity. Qed.

Lemma StepUp_down_atomic (E : Engine) (s0 : Movement) (P : StepUpPlan)
    (GravDir Delta : FVector) (bOut : bool) (s : Movement) :
  fst (fst (StepUp_down E s0 P GravDir Delta bOut s)) = false ->
  SameTransform s0 (snd (StepUp_down E s0 P GravDir Delta bOut s)).
Proof.
  unfold StepUp_down; split_paths; simpl; intros H;
    try discriminate; apply StepUp_reject_transform.
Qed.

Lemma StepUp_forward_atomic (E : Engine) (s0 : Movement) (Delta : FVector)
    (PawnRotation : FQuat) (SweepUpHit : FHitResult) (s : Movement) (r : StepUpResult) :
  StepUp_forward E s0 Delta PawnRotation SweepUpHit s = ForwardReturn r ->
  fst (fst r) = false -> SameTransform s0 (snd r).
Proof.
  unfold StepUp_forward; split_paths; intros H; inversion H; subst; simpl;
    intros Hf; try discriminate; apply StepUp_reject_transform.
Qed.

Lemma StepUp_false_transform (E : Engine) (GravDir Delta : FVector) (InHit : FHitResult)
    (bOut : bool) (s : Movement) :
  fst (fst (StepUp E GravDir Delta InHit bOut s)) = false ->
  SameTransform s (snd (StepUp E GravDir Delta InHit bOut s)).
Proof.
  unfold StepUp.
  destruct (StepUp_plan E GravDir Delta InHit s) as [P | ]; [ | split; reflexivity ].
  destruct (MoveUpdatedComponent E s _ (ComponentQuat s) true) as [s1 SweepUpHit].
  destruct (bStartPenetrating SweepUpHit); [ intros _; apply StepUp_reject_transform | ].
  destruct (StepUp_forward E s Delta (ComponentQuat s) SweepUpHit s1) as [r | s2] eqn:Ef.
  - now apply (StepUp_forward_atomic E s Delta (ComponentQuat s) SweepUpHit s1).
  - apply StepUp_down_atomic.
Qed.

(** The four rejections of the downward leg. *)
Lemma StepUp_down_rejects (E : Engine) (s0 : Movement) (P : StepUpPlan)
    (GravDir Delta : FVector) (bOut : bool) (s : Movement) :
  let down := MoveUpdatedComponent E s (GravDir *v Plan_StepTravelDownHeight P)
                (ComponentQuat s) true in
  let Hit := snd down in
  let DeltaZ := Dot (Plan_PawnFloorPoint P - ImpactPoint Hit) (Plan_CapsuleDown P) in
  let rejected := fst (fst (StepUp_down E s0 P GravDir Delta bOut s)) = false in
  (bStartPenetrating Hit = true -> rejected) /\
  (IsValidBlockingHit Hit = true ->
   (MaxStepHeight (fst down) < DeltaZ -> rejected) /\
   (fst (IsWalkable (fst down) Hit) = false ->
    Dot Delta (ImpactNormal Hit) < 0
    \/ 0 < Dot (Plan_OldLocation P - Location Hit) (Plan_CapsuleDown P) ->
    rejected) /\
   (IsWithinEdgeToleranceEx E (Location Hit) (Plan_CapsuleDown P) (Plan_PawnRadius P)
      (ImpactPoint Hit) = false -> rejected)).
Proof.
  intros down Hit DeltaZ rejected; subst rejected DeltaZ Hit down.
  unfold StepUp_down.
  destruct (MoveUpdatedComponent E s _ (ComponentQuat s) true) as [s1 Hit]; simpl.
  split.
  { intros Hp; now rewrite Hp. }
  intros Hv; rewrite Hv.
  assert (Hnp : bStartPenetrating Hit = false).
  { unfold IsValidBlockingHit in Hv; apply andb_true_iff in Hv.
    now apply negb_true_iff. }
  rewrite Hnp.
  repeat split.
  - intros Hz; apply Rltb_true in Hz; now rewrite Hz.
  - intros Hw Hor.
    destruct (Rltb (MaxStepHeight s1) _); [ reflexivity | ].
    destruct (IsWalkable s1 Hit) as [w s2]; simpl in Hw; subst w; simpl.
    destruct Hor as [Hn | Hh].
    + apply Rltb_true in Hn; now rewrite Hn.
    + apply Rltb_true in Hh; rewrite Hh; now destruct (Rltb (Dot Delta _) 0).
  - intros He.
    destruct (Rltb (MaxStepHeight s1) _); [ reflexivity | ].
    destruct (IsWalkable s1 Hit) as [w s2]; simpl.
    rewrite He; simpl.
    destruct (negb w && Rltb (Dot Delta (ImpactNormal Hit)) 0); [ reflexivity | ].
    now destruct (negb w && Rltb 0 _).
Qed.

(** C7.  [StepUp] is an atomic attempt.  Whenever it returns [false], the
    updated component has the location (and rotation) it had before the
    call.  And it does return [false] when the upward sweep starts in
    penetration; when the forward sweep is blocked by a hit that starts in
    penetration; and, once the forward leg has gone through, when the
    downward sweep starts in penetration, or its hit is a valid blocking hit
    and the height gained from the floor point exceeds [MaxStepHeight], or
    the surface hit is not walkable and either its normal opposes [Delta] or
    the hit location is above the start, or the impact point is outside the
    edge tolerance. *)
Theorem StepUp_atomic (E : Engine) (GravDir Delta : FVector) (InHit : FHitResult)
    (bOut : bool) (s : Movement) :
  let r := StepUp E GravDir Delta InHit bOut s in
  let rejected := fst (fst r) = false in
  (rejected ->
   ComponentLocation (snd r) = ComponentLocation s /\
   ComponentQuat (snd r) = ComponentQuat s) /\
  (forall P, StepUp_plan E GravDir Delta InHit s = Some P ->
   let up := MoveUpdatedComponent E s (GravDir *v (- Plan_StepTravelUpHeight P))
               (ComponentQuat s) true in
   (bStartPenetrating (snd up) = true -> rejected) /\
   (bStartPenetrating (snd up) = false ->
    let forward := MoveUpdatedComponent E (fst up) Delta (ComponentQuat s) true in
    (bBlockingHit (snd forward) = true -> bStartPenetrating (snd forward) = true ->
     rejected) /\
    (forall s2,
       StepUp_forward E s Delta (ComponentQuat s) (snd up) (fst up)
       = ForwardContinue s2 ->
       let down := MoveUpdatedComponent E s2 (GravDir *v Plan_StepTravelDownHeight P)
                     (ComponentQuat s2) true in
       let Hit := snd down in
       let DeltaZ :=
         Dot (Plan_PawnFloorPoint P - ImpactPoint Hit) (Plan_CapsuleDown P) in
       (bStartPenetrating Hit = true -> rejected) /\
       (IsValidBlockingHit Hit = true ->
        (MaxStepHeight (fst down) < DeltaZ -> rejected) /\
        (fst (IsWalkable (fst down) Hit) = false ->
         Dot Delta (ImpactNormal Hit) < 0
         \/ 0 < Dot (Plan_OldLocation P - Location Hit) (Plan_CapsuleDown P) ->
         rejected) /\
        (IsWithinEdgeToleranceEx E (Location Hit) (Plan_CapsuleDown P)
           (Plan_PawnRadius P) (ImpactPoint Hit) = false -> rejected))))).
Proof.
  intros r rejected; subst rejected r.
  split; [ apply StepUp_false_transform | ].
  intros P HP up.
  unfold StepUp; rewrite HP; subst up.
  destruct (MoveUpdatedComponent E s _ (ComponentQuat s) true) as [s1 SweepUpHit];
    simpl.
  split; [ intros Hp; now rewrite Hp | ].
  intros Hnp; rewrite Hnp.
  split.
  - intros Hb Hpen.
    unfold StepUp_forward.
    destruct (MoveUpdatedComponent E s1 Delta (ComponentQuat s) true) as [s2 Hit];
      simpl in *.
    now rewrite Hb, Hpen.
  - intros s2 Hf; rewrite Hf.
    apply StepUp_down_rejects.
Qed.

(** [StepUp] in a world where every sweep starts in penetration: the attempt
    is rejected and the component stays where it was. *)
Lemma StepUp_atomic_witness :
  let Stuck : Engine :=
    MakeEngine (1 / 1000000) (19 / 10) (24 / 10) (15 / 100) 1%Z
      (fun _ _ => true)
      (fun s d q _ =>
         (set_ComponentLocation s (ComponentLocation s + d),
          MakeHit true true 0 ZeroVector ZeroVector ZeroVector ZeroVector None
                  NAME_None))
      FreeMove
      (fun s _ _ _ => s)
      (fun s _ _ _ Hit _ => (0, Hit, s))
      (fun s _ _ _ => (SampleFloor, s)) in
  let InHit := MakeHit true false (1 / 2) ZeroVector (MakeVector 34 0 (-60))
                 (MakeVector (-1) 0 0) (MakeVector (-1) 0 0) None NAME_None in
  let r := StepUp Stuck DownVector (MakeVector 10 0 0) InHit false SampleMovement in
  fst (fst r) = false /\ ComponentLocation (snd r) = ComponentLocation SampleMovement.
Proof.
  intros Stuck InHit r.
  pose proof (StepUp_atomic Stuck DownVector (MakeVector 10 0 0) InHit false
                SampleMovement) as [Hatomic Hreject].
  assert (Hr : fst (fst r) = false).
  { destruct (StepUp_plan Stuck DownVector (MakeVector 10 0 0) InHit SampleMovement)
      as [P | ] eqn:HP.
    - exact (proj1 (Hreject P eq_refl) eq_refl).
    - subst r; unfold StepUp; now rewrite HP. }
  split; [ exact Hr | exact (proj1 (Hatomic Hr)) ].
Defined.

(** ** [ServerMoveHandleClientError] *)

(** C2 (amended).  For a client move that is not skipped (it is not the first
    half of a double server move, and it does not fall inside the
    update-delay bound), a correction is queued exactly when the force-update
    flag is set or [ServerCheckClientError] reports an error: the pending
    adjustment then has [bAckGoodMove = false] and carries the server's
    velocity, location (rebased, or relative to the base), rotation, base and
    packed movement mode.  Otherwise only the time stamp and
    [bAckGoodMove = true] are written to the pending adjustment.  In both
    cases the force-update flag is cleared. *)
Theorem ServerMoveHandleClientError_spec (N : NetEngine) (ClientTimeStamp DeltaTime : R)
    (Accel RelativeClientLoc : FVector) (ClientMovementBase : option UPrimitiveComponent)
    (ClientBaseBoneName : FName) (ClientMovementMode : uint8) (s : Movement)
    (ServerData : FNetworkPredictionData_Server_Character) :
  ServerMoveSkipped N RelativeClientLoc ServerData = false ->
  let ClientLoc :=
    ServerClientLoc N RelativeClientLoc ClientMovementBase ClientBaseBoneName in
  let Base :=
    ServerClientBase s ClientMovementBase ClientBaseBoneName ClientMovementMode in
  let Checked :=
    ServerCheckClientError N
      (set_bNetworkLargeClientCorrection s (bForceClientUpdate ServerData))
      ClientTimeStamp DeltaTime Accel ClientLoc RelativeClientLoc (fst Base) (snd Base)
      ClientMovementMode in
  let r := ServerMoveHandleClientError N ClientTimeStamp DeltaTime Accel
             RelativeClientLoc ClientMovementBase ClientBaseBoneName ClientMovementMode
             s ServerData in
  let Adj := PendingAdjustment (snd r) in
  (bAckGoodMove Adj = false <->
   bForceClientUpdate ServerData = true \/ fst Checked = true) /\
  (bAckGoodMove Adj = false ->
   Adj = ServerCorrection N ClientTimeStamp DeltaTime (fst r) /\
   Adj_TimeStamp Adj = ClientTimeStamp /\
   NewVel Adj = Velocity (fst r) /\
   NewLoc Adj = (if UseRelativeLocation (GetMovementBase (fst r))
                 then BasedLocation (OwnerBasedMovement (fst r))
                 else RebaseOntoZeroOrigin N (ComponentLocation (fst r))) /\
   NewRot Adj = GetComponentRotation N (fst r) /\
   NewBase Adj = GetMovementBase (fst r) /\
   Adj_MovementMode Adj = PackNetworkMovementMode N (fst r)) /\
  (bAckGoodMove Adj = true ->
   Adj = ServerAck ClientTimeStamp (PendingAdjustment ServerData) /\
   LastUpdateTime (snd r) = LastUpdateTime ServerData) /\
  bForceClientUpdate (snd r) = false.
Proof.
  intros Hskip ClientLoc Base Checked r Adj.
  unfold ServerMoveSkipped in Hskip; apply orb_false_iff in Hskip.
  destruct Hskip as [Hfirst Hdelay].
  subst Adj r; unfold ServerMoveHandleClientError.
  rewrite Hfirst, Hdelay.
  unfold ServerClientError.
  fold ClientLoc; fold Base.
  destruct Base as [B Bone] eqn:EB; simpl in Checked.
  destruct (bForceClientUpdate ServerData) eqn:Ef.
  - simpl; repeat split; auto; discriminate.
  - fold Checked.
    destruct Checked as [bError s1] eqn:Ec; simpl.
    destruct bError; simpl.
    + repeat split; auto; discriminate.
    + repeat split; auto; try discriminate.
      intros [H | H]; discriminate.
Qed.

Lemma ServerMoveHandleClientError_spec_witness :
  let sd := MakeServerData 10 true SampleAdjustment in
  let r := ServerMoveHandleClientError SampleNet 12 (1 / 60) ZeroVector
             (MakeVector 5 0 0) None NAME_None 3%nat SampleMovement sd in
  ServerMoveSkipped SampleNet (MakeVector 5 0 0) sd = false /\
  bAckGoodMove (PendingAdjustment (snd r)) = false /\
  bForceClientUpdate (snd r) = false.
Proof.
  intros sd r.
  assert (Hs : ServerMoveSkipped SampleNet (MakeVector 5 0 0) sd = false).
  { unfold ServerMoveSkipped; simpl; now rewrite andb_false_r. }
  destruct (ServerMoveHandleClientError_spec SampleNet 12 (1 / 60) ZeroVector
              (MakeVector 5 0 0) None NAME_None 3%nat SampleMovement sd Hs)
    as (Hiff & _ & _ & Hforce).
  repeat split; [ exact Hs | | exact Hforce ].
  apply Hiff; left; reflexivity.
Defined.

(** C2, as stated, fails for a move inside the update-delay bound: the
    force-update flag is set, yet the function returns before anything is
    queued; the pending adjustment still says [bAckGoodMove = true] and the
    flag stays set. *)
Lemma ServerMoveHandleClientError_throttled_counterexample :
  let Throttled : NetEngine :=
    MakeNet true 10 (fun _ => true)
      (fun _ _ => (ZeroVector, Quat_Identity)) (fun v => v) (fun v => v)
      (fun _ => MakeRotator 0 0 0)
      (fun s _ _ _ _ _ _ _ _ => (true, s))
      (fun _ _ _ _ _ _ _ _ _ => false)
      (fun s => EMovementMode_to_uint8 (MovementMode s))
      (fun s _ => s) (fun s _ _ => s) (fun s => s) (fun s => s) (fun s => s)
      (fun _ _ => None) (fun cd _ _ => cd)
      (fun s => GetAxisZ (ComponentQuat s)) (fun _ q _ => q) in
  let sd := MakeServerData 9 true SampleAdjustment in
  let r := ServerMoveHandleClientError Throttled 12 (1 / 60) ZeroVector
             (MakeVector 5 0 0) None NAME_None 3%nat SampleMovement sd in
  bForceClientUpdate sd = true /\
  r = (SampleMovement, sd) /\
  bAckGoodMove (PendingAdjustment (snd r)) = true.
Proof.
  intros Throttled sd r.
  assert (Hr : r = (SampleMovement, sd)).
  { subst r; unfold ServerMoveHandleClientError; simpl.
    assert (E : Reqb 9 10 = false) by (apply Reqb_false; lra).
    now rewrite E. }
  repeat split; [ exact Hr | now rewrite Hr ].
Qed.

(** ** [ClientAdjustPosition_Implementation] *)

(** C4 (amended).  On a valid, active component, for a correction whose base
    is unresolved ([bHasBase] with a null [NewBase]): a base-relative
    correction is rejected at once, with a warning, before any saved move is
    looked up or acknowledged, and component and client data are untouched;
    an absolute correction logs the fallback and goes on as any correction
    does: when its time stamp matches a saved move, the move is acknowledged,
    the component is snapped to the (rebased) corrected location with the
    corrected velocity, and mode, base and floor are settled from there; when
    no saved move matches, the correction is dropped and nothing changes. *)
Theorem ClientAdjustPosition_unresolved_base (N : NetEngine) (E : Engine)
    (C : FClientCorrection) (s : Movement)
    (ClientData : FNetworkPredictionData_Client_Character) :
  HasValidData s = true -> bIsActive s = true -> bUnresolvedBase C = true ->
  let r := ClientAdjustPosition_Implementation N E C s ClientData in
  (Corr_bBaseRelativePosition C = true ->
   r = (s, ClientData, [Warning_UnresolvedRelativeBase])) /\
  (Corr_bBaseRelativePosition C = false ->
   In Verbose_UnresolvedAbsoluteBase (snd r) /\
   (forall MoveIndex,
      GetSavedMoveIndex N ClientData (Corr_TimeStamp C) = Some MoveIndex ->
      let snapped := ClientAdjust_snap N C s in
      ComponentLocation snapped = RebaseOntoLocalOrigin N (Corr_NewLocation C) /\
      Velocity snapped = Corr_NewVelocity C /\
      fst (fst r) = ClientAdjust_finish N E C snapped /\
      LastAckedMove (snd (fst r)) = LastAckedMove (AckMove N ClientData MoveIndex s) /\
      bUpdatePosition (snd (fst r)) = true) /\
   (GetSavedMoveIndex N ClientData (Corr_TimeStamp C) = None ->
    fst r = (s, ClientData))).
Proof.
  intros Hvalid Hactive Hun r; subst r.
  unfold ClientAdjustPosition_Implementation.
  rewrite Hvalid, Hactive, Hun; simpl.
  split; intros Hrel; rewrite Hrel; [ reflexivity | ].
  assert (Hcomp : bUpdatedComponent s = true).
  { unfold HasValidData in Hvalid; now apply andb_true_iff in Hvalid. }
  destruct (GetSavedMoveIndex N ClientData (Corr_TimeStamp C)) as [i | ] eqn:Ei.
  - split; [ simpl; auto | ].
    split; [ | discriminate ].
    intros MoveIndex HM; injection HM as <-; simpl.
    unfold ClientAdjust_snap, WorldShiftedNewLocation; rewrite Hcomp, Hrel.
    repeat split.
    destruct (negb (Coincident _ _ _)); reflexivity.
  - split; [ simpl; auto | ].
    split; [ discriminate | reflexivity ].
Qed.

Lemma ClientAdjustPosition_unresolved_base_witness :
  let C := MakeCorrection 7 (MakeVector 100 0 0) (MakeVector 0 3 0) None NAME_None
             true false 3%nat in
  let cd := MakeClientData [MakeSavedMove 6 ZeroVector; MakeSavedMove 7 ZeroVector]
              None false in
  let r := ClientAdjustPosition_Implementation SampleNet SampleEngine C SampleMovement
             cd in
  ComponentLocation (fst (fst r)) = MakeVector 100 0 0 /\
  Velocity (fst (fst r)) = MakeVector 0 3 0 /\
  snd r = [Verbose_UnresolvedAbsoluteBase].
Proof.
  intros C cd r.
  destruct (ClientAdjustPosition_unresolved_base SampleNet SampleEngine C
              SampleMovement cd eq_refl eq_refl eq_refl) as [_ Habs].
  destruct (Habs eq_refl) as (_ & Hfound & _).
  assert (Hidx : GetSavedMoveIndex SampleNet cd (Corr_TimeStamp C) = Some 1%nat).
  { simpl.
    assert (E1 : Reqb 6 7 = false) by (apply Reqb_false; lra).
    now rewrite E1, Reqb_refl. }
  destruct (Hfound 1%nat Hidx) as (Hloc & Hvel & Hfin & _).
  fold r in Hfin.
  assert (Hlog : snd r = [Verbose_UnresolvedAbsoluteBase]).
  { subst r; unfold ClientAdjustPosition_Implementation.
    replace (negb (HasValidData SampleMovement) || negb (bIsActive SampleMovement))
      with false by reflexivity.
    replace (bUnresolvedBase C && Corr_bBaseRelativePosition C) with false
      by reflexivity.
    now rewrite Hidx. }
  rewrite Hfin, Hlog.
  unfold ClientAdjust_finish, ClientAdjust_snap; simpl.
  destruct (negb (Coincident _ _ _)); simpl; repeat split.
Defined.

(** C4, as stated, fails for an absolute correction whose time stamp matches
    no saved move: the fallback is logged, but the correction is then dropped
    and the component stays at the origin instead of the corrected
    location. *)
Lemma ClientAdjustPosition_expired_move_counterexample :
  let C := MakeCorrection 7 (MakeVector 100 0 0) (MakeVector 0 3 0) None NAME_None
             true false 3%nat in
  let cd := MakeClientData [] None false in
  let r := ClientAdjustPosition_Implementation SampleNet SampleEngine C SampleMovement
             cd in
  bUnresolvedBase C = true /\ Corr_bBaseRelativePosition C = false /\
  r = (SampleMovement, cd, [Verbose_UnresolvedAbsoluteBase]) /\
  ComponentLocation (fst (fst r)) = ZeroVector /\
  ZeroVector <> Corr_NewLocation C.
Proof.
  intros C cd r.
  assert (Hr : r = (SampleMovement, cd, [Verbose_UnresolvedAbsoluteBase]))
    by reflexivity.
  repeat split; try (rewrite Hr; reflexivity).
  intros H; apply (f_equal X) in H; simpl in H; lra.
Qed.

(** * Properties of the further functions *)

(** ** [FNinjaMath] *)

(** X1.  For a normalised quaternion the three axes [GetAxisX], [GetAxisY]
    and [GetAxisZ] are unit vectors, pairwise orthogonal, and right-handed
    (the cross product of X and Y is Z). *)
Theorem NinjaMath_axes_orthonormal (q : FQuat) :
  Quat_IsNormalized q ->
  SizeSquared (GetAxisX q) = 1 /\ SizeSquared (GetAxisY q) = 1 /\
  SizeSquared (GetAxisZ q) = 1 /\
  Dot (GetAxisX q) (GetAxisY q) = 0 /\ Dot (GetAxisY q) (GetAxisZ q) = 0 /\
  Dot (GetAxisZ q) (GetAxisX q) = 0 /\
  Cross (GetAxisX q) (GetAxisY q) = GetAxisZ q.
Proof.
  unfold Quat_IsNormalized; destruct q as [x y z w]; simpl; intros H.
  unfold SizeSquared, Dot, Cross, GetAxisX, GetAxisY, GetAxisZ; simpl.
  assert (Hn : forall a b : R, a = (x * x + y * y + z * z + w * w) * b -> a = b)
    by (intros a b ->; rewrite H; ring).
  assert (Hsq : forall a : R, a = (x * x + y * y + z * z + w * w)
                                  * (x * x + y * y + z * z + w * w) -> a = 1)
    by (intros a ->; rewrite H; ring).
  repeat split.
  - apply Hsq; rewrite <- H; ring.
  - apply Hsq; rewrite <- H; ring.
  - apply Hsq; rewrite <- H; ring.
  - rewrite <- H; ring.
  - rewrite <- H; ring.
  - rewrite <- H; ring.
  - apply vec_eq; simpl; apply Hn; rewrite <- H; ring.
Qed.

Lemma NinjaMath_axes_orthonormal_witness :
  let q := MakeQuat 0 0 (3 / 5) (4 / 5) in
  Quat_IsNormalized q /\ Cross (GetAxisX q) (GetAxisY q) = GetAxisZ q.
Proof.
  intros q.
  assert (Hq : Quat_IsNormalized q) by (unfold Quat_IsNormalized; simpl; lra).
  split; [ exact Hq | ].
  apply (NinjaMath_axes_orthonormal q Hq).
Defined.

Lemma FMath_Abs_Rabs (a : R) : FMath_Abs a = Rabs a.
Proof.
  unfold FMath_Abs, Rleb; destruct (Rle_dec 0 a).
  - now rewrite Rabs_right by lra.
  - now rewrite Rabs_left by lra.
Qed.

Lemma FMath_Abs_nonneg (a : R) : 0 <= FMath_Abs a.
Proof. rewrite FMath_Abs_Rabs; apply Rabs_pos. Qed.

(** X2.  [Parallel] is [Coincident] or [Opposite] for the same threshold, and
    two vectors that are [Orthogonal] for one threshold are not [Parallel]
    for any larger one; the default thresholds are ordered that way. *)
Theorem NinjaMath_angle_tests (Vector1 Vector2 : FVector) (c co cp : R) :
  Parallel Vector1 Vector2 c
    = Coincident Vector1 Vector2 c || Opposite Vector1 Vector2 c /\
  (co < cp -> Orthogonal Vector1 Vector2 co = true ->
   Parallel Vector1 Vector2 cp = false) /\
  NINJA_NORMALS_ORTHOGONAL < NINJA_NORMALS_PARALLEL.
Proof.
  unfold Parallel, Coincident, Opposite, Orthogonal.
  rewrite FMath_Abs_Rabs.
  set (d := Dot Vector1 Vector2).
  repeat split.
  - destruct (Rleb c d) eqn:E1; simpl.
    + apply Rleb_true in E1; apply Rleb_true.
      pose proof (Rle_abs d); lra.
    + apply Rleb_false in E1.
      destruct (Rleb d (- c)) eqn:E2.
      * apply Rleb_true in E2; apply Rleb_true.
        pose proof (Rle_abs (- d)); rewrite Rabs_Ropp in *; lra.
      * apply Rleb_false in E2; apply Rleb_false.
        unfold Rabs; destruct (Rcase_abs d); lra.
  - intros Hlt Ho; apply Rleb_true in Ho; apply Rleb_false; lra.
  - unfold NINJA_NORMALS_ORTHOGONAL, NINJA_NORMALS_PARALLEL; lra.
Qed.

(** ** [GetGravity] *)

Lemma GravityScale_sign_abs (s : Movement) :
  GravityScaleSign s * FMath_Abs (GravityScale s) = GravityScale s.
Proof.
  unfold GravityScaleSign, FMath_Abs, Rltb, Rleb.
  destruct (Rlt_dec 0 (GravityScale s)), (Rle_dec 0 (GravityScale s)); lra.
Qed.

Lemma vscale_sign_strength (v : FVector) (s : Movement) (A : R) :
  (v *v GravityScaleSign s) *v (A * FMath_Abs (GravityScale s))
  = v *v (A * GravityScale s).
Proof.
  pose proof (GravityScale_sign_abs s) as H.
  apply vec_eq; simpl.
  - transitivity (X v * (A * (GravityScaleSign s * FMath_Abs (GravityScale s))));
      [ ring | now rewrite H ].
  - transitivity (Y v * (A * (GravityScaleSign s * FMath_Abs (GravityScale s))));
      [ ring | now rewrite H ].
  - transitivity (Z v * (A * (GravityScaleSign s * FMath_Abs (GravityScale s))));
      [ ring | now rewrite H ].
Qed.

(** X3.  On a component with valid data, the gravity vector is the raw
    gravity direction ([GetGravityDirection(false)]) times
    [|GetGravityZ| * |GravityScale|], and both functions refresh the cached
    gravity vectors in the same way.  In particular gravity is exactly zero
    when [GravityScale] is zero. *)
Theorem GetGravity_is_scaled_direction (s : Movement) :
  HasValidData s = true ->
  fst (GetGravity s)
  = fst (GetGravityDirection false s)
    *v (FMath_Abs (GetGravityZ (PhysicsVolume s)) * FMath_Abs (GravityScale s)) /\
  snd (GetGravity s) = snd (GetGravityDirection false s) /\
  (GravityScale s = 0 -> fst (GetGravity s) = ZeroVector).
Proof.
  intros Hvalid.
  unfold GetGravity, GetGravityDirection; rewrite Hvalid; simpl.
  destruct (Reqb (GravityScale s) 0) eqn:Escale; simpl.
  { repeat split; now rewrite vscale_ZeroVector. }
  assert (Hscale : GravityScale s <> 0) by now apply Reqb_false.
  set (A := FMath_Abs (GetGravityZ (PhysicsVolume s))).
  assert (Htowards : forall d : FVector,
    (if negb (IsZero d) then GetSafeNormal d *v (A * GravityScale s) else ZeroVector)
    = (if negb (IsZero d) then GetSafeNormal d *v GravityScaleSign s else d)
      *v (A * FMath_Abs (GravityScale s))).
  { intros d; destruct (IsZero d) eqn:Ed; simpl.
    - apply IsZero_true in Ed; subst d; now rewrite vscale_ZeroVector.
    - now rewrite vscale_sign_strength. }
  split; [ | split; [ | intros H0; contradiction ] ].
  - unfold GravityDirectionSwitch.
    destruct (GravityDirectionMode s); simpl;
      try (now rewrite vscale_sign_strength);
      try apply Htowards;
      now rewrite vscale_ZeroVector.
  - unfold GravityDirectionSwitch.
    destruct (GravityDirectionMode s); reflexivity.
Qed.

Lemma GetGravity_is_scaled_direction_witness :
  let s := set_GravityScale SampleMovement 2 in
  fst (GetGravity s) = MakeVector 0 0 (-1960).
Proof.
  intros s.
  destruct (GetGravity_is_scaled_direction s eq_refl) as (Hg & _ & _).
  rewrite Hg.
  assert (Hd : fst (GetGravityDirection false s) = MakeVector 0 0 (-1)).
  { unfold GetGravityDirection; simpl.
    assert (E : Reqb 2 0 = false) by (apply Reqb_false; lra).
    rewrite E; simpl.
    unfold GravityScaleSign; simpl.
    assert (E2 : Rltb 0 2 = true) by (apply Rltb_true; lra).
    rewrite E2; apply vec_eq; simpl; ring. }
  rewrite Hd, !FMath_Abs_Rabs; simpl.
  rewrite (Rabs_left (-980)) by lra.
  rewrite (Rabs_right 2) by lra.
  apply vec_eq; simpl; ring.
Defined.

Lemma Size_vscale (a : FVector) (k : R) : Size (a *v k) = Rabs k * Size a.
Proof.
  unfold Size; rewrite SizeSquared_vscale.
  rewrite sqrt_mult; [ | nra | apply SizeSquared_nonneg ].
  now rewrite <- Rsqr_def, sqrt_Rsqr_abs.
Qed.

(** X4.  In point mode without a gravity actor, at a location whose squared
    distance to the gravity point is at least [SMALL_NUMBER], the gravity
    vector has magnitude [|GetGravityZ| * |GravityScale|] and is the vector
    from the location to the point times a factor that has the sign of
    [GravityScale] (zero when the volume has no gravity): a positive scale
    attracts, a negative one repels. *)
Theorem GetGravity_point_mode (s : Movement) :
  HasValidData s = true ->
  GravityDirectionMode s = Point -> GravityActor s = None ->
  GravityScale s <> 0 ->
  SMALL_NUMBER <= SizeSquared (GravityVectorA s - ComponentLocation s) ->
  Size (fst (GetGravity s))
  = FMath_Abs (GetGravityZ (PhysicsVolume s)) * FMath_Abs (GravityScale s) /\
  exists k, 0 < k /\
    fst (GetGravity s)
    = (GravityVectorA s - ComponentLocation s)%vec
      *v (k * FMath_Abs (GetGravityZ (PhysicsVolume s)) * GravityScale s).
Proof.
  intros Hvalid Hmode Hactor Hscale Hfar.
  set (d := (GravityVectorA s - ComponentLocation s)%vec) in *.
  assert (Hnz : IsZero d = false).
  { destruct (IsZero d) eqn:E; [ | reflexivity ].
    apply IsZero_true in E; rewrite E in Hfar.
    unfold SizeSquared, SMALL_NUMBER in Hfar; simpl in Hfar; lra. }
  assert (Hg : fst (GetGravity s)
               = GetSafeNormal d
                 *v (FMath_Abs (GetGravityZ (PhysicsVolume s)) * GravityScale s)).
  { unfold GetGravity; rewrite Hvalid; simpl.
    apply Reqb_false in Hscale; rewrite Hscale, Hmode; simpl.
    unfold LiveGravityActor; rewrite Hactor; simpl.
    fold d; now rewrite Hnz. }
  split.
  - rewrite Hg, Size_vscale, Size_GetSafeNormal by exact Hfar.
    rewrite Rabs_mult, !FMath_Abs_Rabs, Rabs_Rabsolu; ring.
  - rewrite Hg; unfold GetSafeNormal.
    destruct (Reqb (SizeSquared d) 1) eqn:E1.
    + exists 1; split; [ lra | ].
      apply vec_eq; simpl; ring.
    + apply Rltb_false in Hfar; rewrite Hfar.
      assert (Hpos : 0 < SizeSquared d).
      { apply Rltb_false in Hfar; unfold SMALL_NUMBER in Hfar; lra. }
      exists (FMath_InvSqrt (SizeSquared d)); split.
      * unfold FMath_InvSqrt; apply Rinv_0_lt_compat; now apply sqrt_lt_R0.
      * apply vec_eq; simpl; ring.
Qed.

Lemma GetGravity_point_mode_witness :
  let s := set_ComponentLocation
             (set_GravityDirection SampleMovement Point (MakeVector 0 0 10)
                ZeroVector None)
             (MakeVector 0 0 4) in
  Size (fst (GetGravity s)) = 980.
Proof.
  intros s.
  assert (Hs : GravityScale s <> 0) by (simpl; lra).
  assert (Hfar : SMALL_NUMBER
                 <= SizeSquared (GravityVectorA s - ComponentLocation s)).
  { unfold SizeSquared, SMALL_NUMBER; simpl; lra. }
  destruct (GetGravity_point_mode s eq_refl eq_refl eq_refl Hs Hfar) as [Hsize _].
  rewrite Hsize, !FMath_Abs_Rabs; simpl.
  rewrite (Rabs_left (-980)) by lra.
  rewrite (Rabs_right 1) by lra; ring.
Defined.

(** ** Jumping *)

(** X5.  When gravity is stronger than [KINDA_SMALL_NUMBER],
    [GetMaxJumpHeight] is the apex of the ballistic jump: a body leaving the
    ground at [JumpZVelocity] against the gravity magnitude never rises
    above it, reaches it at time [JumpZVelocity / gravity], and the height
    is not negative. *)
Theorem GetMaxJumpHeight_apex (c : NinjaComponent) :
  KINDA_SMALL_NUMBER < GetGravityMagnitude (Core c) ->
  let g := GetGravityMagnitude (Core c) in
  let v := JumpZVelocity c in
  0 <= GetMaxJumpHeight c /\
  (forall t : R, v * t - g * t * t / 2 <= GetMaxJumpHeight c) /\
  v * (v / g) - g * (v / g) * (v / g) / 2 = GetMaxJumpHeight c.
Proof.
  intros Hg g v; unfold GetMaxJumpHeight; fold g v.
  assert (Hpos : 0 < g) by (unfold KINDA_SMALL_NUMBER in Hg; fold g in Hg; lra).
  apply Rltb_true in Hg; fold g in Hg; rewrite Hg.
  unfold FMath_Square.
  assert (Hh : forall t, v * v / (2 * g) - (v * t - g * t * t / 2)
                         = (g * t - v) * (g * t - v) / (2 * g))
    by (intros t; field; lra).
  assert (Hsq : forall a, 0 <= a * a / (2 * g)).
  { intros a; apply Rmult_le_pos; [ nra | ].
    apply Rlt_le, Rinv_0_lt_compat; lra. }
  repeat split.
  - apply Hsq.
  - intros t; specialize (Hh t); specialize (Hsq (g * t - v)); lra.
  - field; lra.
Qed.

Lemma GetMaxJumpHeight_apex_witness : 0 <= GetMaxJumpHeight SampleComponent.
Proof.
  assert (H : KINDA_SMALL_NUMBER < GetGravityMagnitude (Core SampleComponent)).
  { unfold GetGravityMagnitude, Character_GetGravityZ; simpl.
    rewrite FMath_Abs_Rabs, Rabs_left by lra.
    unfold KINDA_SMALL_NUMBER; lra. }
  exact (proj1 (GetMaxJumpHeight_apex SampleComponent H)).
Defined.

Lemma FMath_Max_cases (a b : R) :
  (a <= b /\ FMath_Max a b = b) \/ (b < a /\ FMath_Max a b = a).
Proof.
  unfold FMath_Max; destruct (Rleb a b) eqn:E.
  - left; apply Rleb_true in E; auto.
  - right; apply Rleb_false in E; auto.
Qed.

Lemma FMath_Min_cases (a b : R) :
  (a <= b /\ FMath_Min a b = a) \/ (b < a /\ FMath_Min a b = b).
Proof.
  unfold FMath_Min; destruct (Rleb a b) eqn:E.
  - left; apply Rleb_true in E; auto.
  - right; apply Rleb_false in E; auto.
Qed.

Lemma VectorPlaneProject_idem (V N : FVector) :
  SizeSquared N = 1 ->
  VectorPlaneProject (VectorPlaneProject V N) N = VectorPlaneProject V N.
Proof.
  intros HN.
  unfold VectorPlaneProject at 1.
  rewrite Dot_VectorPlaneProject, HN.
  apply vec_eq; simpl; ring.
Qed.

Lemma VectorPlaneProject_vadd_axis (V N : FVector) (k : R) :
  SizeSquared N = 1 ->
  VectorPlaneProject (VectorPlaneProject V N + N *v k) N = VectorPlaneProject V N.
Proof.
  intros HN.
  unfold VectorPlaneProject at 1.
  rewrite Dot_vadd_l, Dot_VectorPlaneProject, Dot_vscale_l, HN.
  unfold SizeSquared, Dot in HN.
  assert (Hd : Dot N N = 1) by (unfold Dot; exact HN).
  rewrite Hd.
  apply vec_eq; simpl; ring.
Qed.

(** X6.  [DoJump] either refuses and leaves the component alone, or hands
    the component to [SetMovementMode(MOVE_Falling)] with a velocity whose
    part orthogonal to the capsule axis is the old one and whose part along
    the axis is the larger of the old vertical speed and [JumpZVelocity]:
    a jump keeps the horizontal velocity and never lowers the upward
    speed. *)
Theorem DoJump_spec (S : Super) (c : NinjaComponent) (bReplayingMoves : bool) :
  Quat_IsNormalized (ComponentQuat (Core c)) ->
  let Up := GetComponentAxisZ (Core c) in
  let V := Velocity (Core c) in
  (DoJump S c bReplayingMoves = (false, c)) \/
  (exists V',
     DoJump S c bReplayingMoves
     = (true, set_Core c (SetMovementMode S (set_Velocity (Core c) V') MOVE_Falling)) /\
     VectorPlaneProject V' Up = VectorPlaneProject V Up /\
     Dot V' Up = FMath_Max (Dot V Up) (JumpZVelocity c) /\
     Dot V Up <= Dot V' Up /\ JumpZVelocity c <= Dot V' Up).
Proof.
  intros Hq Up V.
  pose proof (GetAxisZ_unit _ Hq) as Hunit; fold (GetComponentAxisZ (Core c)) in Hunit.
  fold Up in Hunit.
  unfold DoJump.
  destruct (CharacterOwner (Core c)); [ | now left ].
  destruct (CanJump S (Core c)); [ | now left ].
  destruct (negb (bConstrainToPlane c) || _); [ | now left ].
  right; exists (DoJump_Velocity c); split; [ reflexivity | ].
  unfold DoJump_Velocity; fold Up V.
  assert (Hdot : Dot (VectorPlaneProject V Up + Up *v FMath_Max (Dot V Up) (JumpZVelocity c)) Up
                 = FMath_Max (Dot V Up) (JumpZVelocity c)).
  { rewrite Dot_vadd_l, Dot_VectorPlaneProject, Dot_vscale_l, Hunit.
    assert (Hd : Dot Up Up = 1) by exact Hunit.
    rewrite Hd; ring. }
  split; [ now apply VectorPlaneProject_vadd_axis | ].
  rewrite Hdot; split; [ reflexivity | ].
  destruct (FMath_Max_cases (Dot V Up) (JumpZVelocity c)) as [[H ->] | [H ->]]; lra.
Qed.

Lemma DoJump_spec_witness :
  fst (DoJump SampleSuper SampleComponent false) = true.
Proof.
  assert (Hq : Quat_IsNormalized (ComponentQuat (Core SampleComponent)))
    by (unfold Quat_IsNormalized; simpl; lra).
  destruct (DoJump_spec SampleSuper SampleComponent false Hq) as [H | [V' [H _]]].
  - exfalso; revert H; unfold DoJump; simpl; discriminate.
  - now rewrite H.
Defined.

(** ** Input *)

(** X7.  For a walking or falling component, [ConstrainInputAcceleration]
    returns an acceleration with no component along the capsule axis, never
    longer than the input, and constraining twice is constraining once. *)
Theorem ConstrainInputAcceleration_spec (s : Movement) (InputAcceleration : FVector) :
  Quat_IsNormalized (ComponentQuat s) ->
  IsMovingOnGround s || IsFalling s = true ->
  let A := ConstrainInputAcceleration s InputAcceleration in
  Dot A (GetComponentAxisZ s) = 0 /\
  SizeSquared A <= SizeSquared InputAcceleration /\
  ConstrainInputAcceleration s A = A.
Proof.
  intros Hq Hmode A; subst A; unfold ConstrainInputAcceleration; rewrite Hmode.
  pose proof (GetAxisZ_unit _ Hq) as Hunit; fold (GetComponentAxisZ s) in Hunit.
  repeat split.
  - rewrite Dot_VectorPlaneProject, Hunit; ring.
  - apply SizeSquared_VectorPlaneProject_le; lra.
  - now apply VectorPlaneProject_idem.
Qed.

Lemma ConstrainInputAcceleration_spec_witness :
  Dot (ConstrainInputAcceleration SampleMovement (MakeVector 3 4 5))
      (GetComponentAxisZ SampleMovement) = 0.
Proof.
  assert (Hq : Quat_IsNormalized (ComponentQuat SampleMovement))
    by (unfold Quat_IsNormalized; simpl; lra).
  exact (proj1 (ConstrainInputAcceleration_spec SampleMovement (MakeVector 3 4 5)
                  Hq eq_refl)).
Defined.

(** ** Air control *)

Lemma sqrt_square_nonneg (a : R) : 0 <= a -> sqrt (a * a) = a.
Proof. intros Ha; now apply sqrt_square. Qed.

Lemma GetClampedToMaxSize_scale (a : FVector) (MaxSize : R) :
  exists k, 0 <= k <= 1 /\ GetClampedToMaxSize a MaxSize = a *v k.
Proof.
  unfold GetClampedToMaxSize.
  destruct (Rltb MaxSize KINDA_SMALL_NUMBER) eqn:E0.
  { exists 0; split; [ lra | apply vec_eq; simpl; ring ]. }
  apply Rltb_false in E0; unfold KINDA_SMALL_NUMBER in E0.
  destruct (Rltb (FMath_Square MaxSize) (SizeSquared a)) eqn:E1.
  - apply Rltb_true in E1; unfold FMath_Square in E1.
    exists (MaxSize * FMath_InvSqrt (SizeSquared a)); split; [ | reflexivity ].
    unfold FMath_InvSqrt.
    assert (Hlt : MaxSize < sqrt (SizeSquared a)).
    { rewrite <- (sqrt_square_nonneg MaxSize) at 1 by lra.
      apply sqrt_lt_1_alt; nra. }
    assert (Hs : 0 < sqrt (SizeSquared a)) by lra.
    split.
    + apply Rmult_le_pos; [ lra | apply Rlt_le, Rinv_0_lt_compat, Hs ].
    + apply Rmult_le_reg_r with (r := sqrt (SizeSquared a)); [ exact Hs | ].
      rewrite Rmult_assoc, Rinv_l by lra; lra.
  - exists 1; split; [ lra | apply vec_eq; simpl; ring ].
Qed.

Lemma Size_GetClampedToMaxSize (a : FVector) (MaxSize : R) :
  0 <= MaxSize -> Size (GetClampedToMaxSize a MaxSize) <= MaxSize.
Proof.
  intros HM; unfold GetClampedToMaxSize.
  destruct (Rltb MaxSize KINDA_SMALL_NUMBER) eqn:E0.
  { rewrite Size_ZeroVector; exact HM. }
  destruct (Rltb (FMath_Square MaxSize) (SizeSquared a)) eqn:E1.
  - apply Rltb_true in E1; unfold FMath_Square in E1.
    assert (Hlt : MaxSize < sqrt (SizeSquared a)).
    { rewrite <- (sqrt_square_nonneg MaxSize) at 1 by lra.
      apply sqrt_lt_1_alt; nra. }
    assert (Hs : 0 < sqrt (SizeSquared a)) by lra.
    rewrite Size_vscale_nonneg.
    + unfold Size, FMath_InvSqrt; rewrite Rmult_assoc, Rinv_l by lra; lra.
    + unfold FMath_InvSqrt.
      apply Rmult_le_pos; [ lra | apply Rlt_le, Rinv_0_lt_compat, Hs ].
  - apply Rltb_false in E1; unfold FMath_Square in E1.
    unfold Size.
    rewrite <- (sqrt_square_nonneg MaxSize) by lra.
    apply sqrt_le_1_alt; exact E1.
Qed.

Lemma Dot_vscale_zero (a N : FVector) (k : R) : Dot a N = 0 -> Dot (a *v k) N = 0.
Proof. intros H; rewrite Dot_vscale_l, H; ring. Qed.

(** X8.  For an air control between 0 and 1, [GetAirControlEx] scales the
    lateral acceleration by the boosted control [BoostAirControlEx] (the test
    for a zero control changes nothing), the boosted control stays between 0
    and 1 and is at least the smaller of the control and its boosted value,
    so air control never lengthens the acceleration. *)
Theorem GetAirControlEx_bounds (c : NinjaComponent) (DeltaTime TickAirControl : R)
    (FallAcceleration GravDir : FVector) :
  0 <= TickAirControl <= 1 ->
  let B := BoostAirControlEx c DeltaTime TickAirControl FallAcceleration GravDir in
  GetAirControlEx c DeltaTime TickAirControl FallAcceleration GravDir
  = FallAcceleration *v B /\
  0 <= B <= 1 /\
  FMath_Min TickAirControl (AirControlBoostMultiplier c * TickAirControl) <= B /\
  SizeSquared (GetAirControlEx c DeltaTime TickAirControl FallAcceleration GravDir)
  <= SizeSquared FallAcceleration.
Proof.
  intros Htick B.
  assert (HB : 0 <= B <= 1 /\
               FMath_Min TickAirControl (AirControlBoostMultiplier c * TickAirControl) <= B).
  { subst B; unfold BoostAirControlEx.
    destruct (Rltb 0 (AirControlBoostMultiplier c)) eqn:Em; simpl.
    - apply Rltb_true in Em.
      destruct (Rltb _ _); simpl.
      + assert (0 <= AirControlBoostMultiplier c * TickAirControl) by nra.
        destruct (FMath_Min_cases 1 (AirControlBoostMultiplier c * TickAirControl))
          as [[H1 ->] | [H1 ->]];
        destruct (FMath_Min_cases TickAirControl
                    (AirControlBoostMultiplier c * TickAirControl))
          as [[H2 ->] | [H2 ->]]; lra.
      + destruct (FMath_Min_cases TickAirControl
                    (AirControlBoostMultiplier c * TickAirControl))
          as [[H2 ->] | [H2 ->]]; lra.
    - destruct (FMath_Min_cases TickAirControl
                  (AirControlBoostMultiplier c * TickAirControl))
        as [[H2 ->] | [H2 ->]]; lra. }
  assert (Heq : GetAirControlEx c DeltaTime TickAirControl FallAcceleration GravDir
                = FallAcceleration *v B).
  { unfold GetAirControlEx.
    destruct (Reqb TickAirControl 0) eqn:E0; simpl; [ | reflexivity ].
    apply Reqb_true in E0; subst B; unfold BoostAirControlEx; rewrite E0.
    destruct (_ && _); [ | reflexivity ].
    destruct (FMath_Min_cases 1 (AirControlBoostMultiplier c * 0)) as [[H1 ->] | [H1 ->]].
    + exfalso; lra.
    + apply vec_eq; simpl; ring. }
  split; [ exact Heq | ].
  split; [ apply HB | ].
  split; [ apply HB | ].
  rewrite Heq, SizeSquared_vscale.
  pose proof (SizeSquared_nonneg FallAcceleration).
  destruct HB as [[HB0 HB1] _].
  assert (B * B <= 1) by nra.
  nra.
Qed.

Lemma GetAirControlEx_bounds_witness :
  SizeSquared (GetAirControlEx SampleComponent 1 (1 / 2) (MakeVector 3 4 0) DownVector)
  <= SizeSquared (MakeVector 3 4 0).
Proof.
  assert (H : 0 <= 1 / 2 <= 1) by lra.
  exact (proj2 (proj2 (proj2
    (GetAirControlEx_bounds SampleComponent 1 (1 / 2) (MakeVector 3 4 0) DownVector H)))).
Defined.

(** X9.  Along a unit gravity direction, and without root motion, the
    lateral falling acceleration has no component along gravity and is not
    longer than [GetMaxAcceleration]. *)
Theorem GetFallingLateralAccelerationEx_spec (S : Super) (c : NinjaComponent)
    (DeltaTime : R) (GravDir : FVector) :
  SizeSquared GravDir = 1 ->
  HasAnimRootMotion S (Core c) = false ->
  0 <= GetMaxAcceleration S (Core c) ->
  Dot (GetFallingLateralAccelerationEx S c DeltaTime GravDir) GravDir = 0 /\
  Size (GetFallingLateralAccelerationEx S c DeltaTime GravDir)
  <= GetMaxAcceleration S (Core c).
Proof.
  intros Hunit Hroot Hmax.
  unfold GetFallingLateralAccelerationEx; rewrite Hroot; simpl.
  set (FA := VectorPlaneProject (Acceleration (Core c)) GravDir).
  assert (Hperp : Dot FA GravDir = 0).
  { subst FA; rewrite Dot_VectorPlaneProject, Hunit; ring. }
  destruct (Rltb 0 (SizeSquared FA)) eqn:Enz.
  - split.
    + destruct (GetClampedToMaxSize_scale
                  (GetAirControlEx c DeltaTime (AirControl c) FA GravDir)
                  (GetMaxAcceleration S (Core c))) as [k [_ ->]].
      apply Dot_vscale_zero; unfold GetAirControlEx.
      now apply Dot_vscale_zero.
    + now apply Size_GetClampedToMaxSize.
  - split; [ exact Hperp | ].
    apply Rltb_false in Enz.
    pose proof (SizeSquared_nonneg FA).
    unfold Size; replace (SizeSquared FA) with 0 by lra.
    rewrite sqrt_0; exact Hmax.
Qed.

Lemma GetFallingLateralAccelerationEx_spec_witness :
  let c := set_Core SampleComponent (set_Acceleration SampleMovement (MakeVector 3000 0 7)) in
  Size (GetFallingLateralAccelerationEx SampleSuper c 1 DownVector) <= 2048.
Proof.
  intros c.
  assert (Hunit : SizeSquared DownVector = 1) by (unfold SizeSquared; simpl; ring).
  assert (Hmax : 0 <= GetMaxAcceleration SampleSuper (Core c)) by (simpl; lra).
  exact (proj2 (GetFallingLateralAccelerationEx_spec SampleSuper c 1 DownVector
                  Hunit eq_refl Hmax)).
Defined.

Lemma Dot_VectorPlaneProject_gen (V N W : FVector) :
  Dot (VectorPlaneProject V N) W = Dot V W - Dot N W * Dot V N.
Proof. unfold VectorPlaneProject, Dot; simpl; ring. Qed.

Lemma Dot_vscale_r (a b : FVector) (k : R) : Dot a (b *v k) = k * Dot a b.
Proof. unfold Dot; simpl; ring. Qed.

Lemma GetSafeNormal_scale (a : FVector) :
  exists k, GetSafeNormal a = a *v k /\ 0 <= k /\
            (k = 0 \/ k * k * SizeSquared a = 1).
Proof.
  unfold GetSafeNormal.
  destruct (Reqb (SizeSquared a) 1) eqn:E1.
  { apply Reqb_true in E1; exists 1; split; [ | split ].
    - apply vec_eq; simpl; ring.
    - lra.
    - right; rewrite E1; ring. }
  destruct (Rltb (SizeSquared a) SMALL_NUMBER) eqn:E2.
  { exists 0; split; [ apply vec_eq; simpl; ring | split; [ lra | now left ] ]. }
  apply Rltb_false in E2; unfold SMALL_NUMBER in E2.
  assert (Hs : 0 < sqrt (SizeSquared a)) by (apply sqrt_lt_R0; lra).
  exists (FMath_InvSqrt (SizeSquared a)); split; [ reflexivity | split ].
  - unfold FMath_InvSqrt; apply Rlt_le, Rinv_0_lt_compat, Hs.
  - right; unfold FMath_InvSqrt.
    rewrite <- (sqrt_sqrt (SizeSquared a)) at 3 by lra.
    field; lra.
Qed.

Lemma SizeSquared_GetSafeNormal_le (a : FVector) : SizeSquared (GetSafeNormal a) <= 1.
Proof.
  destruct (GetSafeNormal_scale a) as [k [-> [_ [-> | Hk]]]]; rewrite SizeSquared_vscale.
  - lra.
  - lra.
Qed.

(** X10.  Whatever the hit, [LimitAirControlEx] never returns an
    acceleration longer than the one it was given. *)
Theorem LimitAirControlEx_never_longer (E : Engine) (s : Movement) (DeltaTime : R)
    (FallAcceleration : FVector) (Hit : FHitResult) (GravDir : FVector)
    (bCheckForValidLandingSpot : bool) :
  SizeSquared
    (fst (LimitAirControlEx E s DeltaTime FallAcceleration Hit GravDir
            bCheckForValidLandingSpot))
  <= SizeSquared FallAcceleration.
Proof.
  unfold LimitAirControlEx.
  destruct (IsValidBlockingHit Hit && _).
  - destruct (if bCheckForValidLandingSpot then _ else _) as [bLanding s'].
    destruct (negb bLanding && _); simpl; [ | lra ].
    apply SizeSquared_VectorPlaneProject_le.
    pose proof (SizeSquared_GetSafeNormal_le (VectorPlaneProject (Normal Hit) GravDir)).
    lra.
  - destruct (bStartPenetrating Hit); simpl; [ | lra ].
    destruct (Rltb 0 _); [ lra | ].
    pose proof (SizeSquared_nonneg FallAcceleration).
    unfold SizeSquared at 1; simpl; lra.
Qed.

(** X11.  Against a valid blocking hit whose normal opposes a unit gravity
    direction by more than [VERTICAL_SLOPE_NORMAL_Z], when the hit is not
    accepted as a landing spot and the acceleration points into the surface,
    the limited acceleration keeps its component along gravity.  When the
    hit normal projected on the plane of gravity has squared length at least
    [SMALL_NUMBER], the limited acceleration has no component along that
    projection; when the projection is shorter, it cannot be normalised and
    the acceleration is returned unchanged. *)
Theorem LimitAirControlEx_wall (E : Engine) (s : Movement) (DeltaTime : R)
    (FallAcceleration : FVector) (Hit : FHitResult) (GravDir : FVector)
    (bCheckForValidLandingSpot : bool) :
  SizeSquared GravDir = 1 ->
  IsValidBlockingHit Hit = true ->
  Dot (Normal Hit) GravDir < - VERTICAL_SLOPE_NORMAL_Z ->
  (bCheckForValidLandingSpot = false \/
   fst (IsValidLandingSpot E s (Location Hit) Hit) = false) ->
  Dot FallAcceleration (Normal Hit) < 0 ->
  let Result :=
    fst (LimitAirControlEx E s DeltaTime FallAcceleration Hit GravDir
           bCheckForValidLandingSpot) in
  let Projected := VectorPlaneProject (Normal Hit) GravDir in
  Dot Result GravDir = Dot FallAcceleration GravDir /\
  (SMALL_NUMBER <= SizeSquared Projected -> Dot Result Projected = 0) /\
  (SizeSquared Projected < SMALL_NUMBER -> Result = FallAcceleration).
Proof.
  intros Hunit Hvalid Hslope Hland Hinto Result Projected; subst Result.
  unfold LimitAirControlEx; rewrite Hvalid; simpl.
  apply Rltb_true in Hslope, Hinto; rewrite Hslope, Hinto.
  assert (Hb : exists s',
            (if bCheckForValidLandingSpot
             then IsValidLandingSpot E s (Location Hit) Hit
             else (false, s)) = (false, s')).
  { destruct Hland as [-> | Hl]; [ now exists s | ].
    destruct bCheckForValidLandingSpot; [ | now exists s ].
    destruct (IsValidLandingSpot E s (Location Hit) Hit) as [b s'];
      simpl in Hl; subst b; now exists s'. }
  destruct Hb as [s' ->]; simpl.
  fold Projected.
  assert (Hperp : Dot Projected GravDir = 0).
  { subst Projected; rewrite Dot_VectorPlaneProject, Hunit; ring. }
  split; [ | split ].
  - destruct (GetSafeNormal_scale Projected) as [k [Hk _]]; rewrite Hk.
    rewrite Dot_VectorPlaneProject_gen, Dot_vscale_l, Hperp; ring.
  - intros Hlong.
    destruct (GetSafeNormal_scale Projected) as [k [Hk [_ Hcase]]].
    rewrite Hk.
    assert (Hk1 : k * k * SizeSquared Projected = 1).
    { destruct Hcase as [-> | H]; [ | exact H ].
      exfalso.
      pose proof (Size_GetSafeNormal Projected Hlong) as Hsz.
      rewrite Hk in Hsz.
      replace (Projected *v 0) with ZeroVector in Hsz by (apply vec_eq; simpl; ring).
      rewrite Size_ZeroVector in Hsz; lra. }
    rewrite Dot_VectorPlaneProject_gen, Dot_vscale_l, Dot_vscale_r.
    assert (Hd : Dot Projected Projected = SizeSquared Projected) by reflexivity.
    rewrite Hd.
    replace (Dot FallAcceleration Projected
             - k * SizeSquared Projected * (k * Dot FallAcceleration Projected))
      with (Dot FallAcceleration Projected * (1 - k * k * SizeSquared Projected))
      by ring.
    rewrite Hk1; ring.
  - intros Hshort.
    unfold GetSafeNormal.
    assert (E1 : Reqb (SizeSquared Projected) 1 = false)
      by (apply Reqb_false; unfold SMALL_NUMBER in Hshort; lra).
    apply Rltb_true in Hshort; rewrite E1, Hshort.
    apply vec_eq; unfold VectorPlaneProject, Dot; simpl; ring.
Qed.

Lemma LimitAirControlEx_wall_witness :
  let Hit := MakeHit true false (1 / 2) ZeroVector ZeroVector
               (MakeVector (- (4 / 5)) 0 (3 / 5)) (MakeVector (- (4 / 5)) 0 (3 / 5))
               None NAME_None in
  let FA := MakeVector 2 0 1 in
  let Result :=
    fst (LimitAirControlEx SampleEngine SampleMovement 1 FA Hit DownVector false) in
  Dot Result DownVector = -1 /\
  Dot Result (VectorPlaneProject (Normal Hit) DownVector) = 0.
Proof.
  intros Hit FA Result.
  assert (Hunit : SizeSquared DownVector = 1) by (unfold SizeSquared; simpl; ring).
  assert (Hslope : Dot (Normal Hit) DownVector < - VERTICAL_SLOPE_NORMAL_Z)
    by (unfold Dot, VERTICAL_SLOPE_NORMAL_Z; simpl; lra).
  assert (Hinto : Dot FA (Normal Hit) < 0) by (unfold Dot; simpl; lra).
  assert (Hlong : SMALL_NUMBER <= SizeSquared (VectorPlaneProject (Normal Hit) DownVector))
    by (unfold SizeSquared, SMALL_NUMBER, Dot; simpl; nra).
  destruct (LimitAirControlEx_wall SampleEngine SampleMovement 1 FA Hit DownVector false
              Hunit eq_refl Hslope (or_introl eq_refl) Hinto) as [Hg [Hn _]].
  split; [ | exact (Hn Hlong) ].
  subst Result; rewrite Hg; unfold Dot; simpl; ring.
Defined.

(** ** Sliding *)

Lemma Dot_axis_self (q : FQuat) :
  Quat_IsNormalized q -> Dot (GetAxisZ q) (GetAxisZ q) = 1.
Proof. intros Hq; exact (GetAxisZ_unit q Hq). Qed.

Lemma Dot_VectorPlaneProject_axis (V : FVector) (q : FQuat) :
  Quat_IsNormalized q -> Dot (VectorPlaneProject V (GetAxisZ q)) (GetAxisZ q) = 0.
Proof. intros Hq; rewrite Dot_VectorPlaneProject, (GetAxisZ_unit q Hq); ring. Qed.

(** X12.  On the ground, with a step height that is not negative, the
    delta that [TwoWallAdjust] returns never rises more than [MaxStepHeight]
    along the capsule axis, whatever the inherited adjustment produced; and
    next to a blocking floor (closer than [MIN_FLOOR_DIST]), for a hit time
    of at most 1, it never points into the floor. *)
Theorem TwoWallAdjust_step_height (E : Engine) (S : Super) (s : Movement)
    (Delta : FVector) (Hit : FHitResult) (OldHitNormal : FVector) :
  Quat_IsNormalized (ComponentQuat s) ->
  IsMovingOnGround s = true ->
  0 <= MaxStepHeight s ->
  let Up := GetComponentAxisZ s in
  let Adjusted := fst (TwoWallAdjust E S s Delta Hit OldHitNormal) in
  Dot Adjusted Up <= MaxStepHeight s /\
  (Rltb (FloorDist (CurrentFloor s)) (MIN_FLOOR_DIST E)
   && Floor_bBlockingHit (CurrentFloor s) = true ->
   Time Hit <= 1 -> 0 <= Dot Adjusted Up).
Proof.
  intros Hq Hground Hstep Up Adjusted; subst Adjusted.
  unfold TwoWallAdjust; rewrite Hground.
  fold Up.
  pose proof (Dot_axis_self _ Hq) as Huu; fold (GetComponentAxisZ s) in Huu; fold Up in Huu.
  assert (Hproj : forall V, Dot (VectorPlaneProject V Up) Up = 0)
    by (intros V; apply Dot_VectorPlaneProject_axis, Hq).
  set (D := Pawn_TwoWallAdjust S s Delta Hit OldHitNormal).
  destruct (Rltb 0 (Dot D Up)) eqn:Eup.
  - apply Rltb_true in Eup.
    set (W := if Rltb KINDA_SMALL_NUMBER (Dot (Normal Hit) Up)
              then if Rleb (GetWalkableFloorZ s) (Dot (Normal Hit) Up)
                   then (true, s) else IsWalkable s Hit
              else (false, s)).
    assert (HW : fst W = true -> KINDA_SMALL_NUMBER < Dot (Normal Hit) Up).
    { subst W; destruct (Rltb KINDA_SMALL_NUMBER _) eqn:Ek; simpl.
      - intros _; now apply Rltb_true in Ek.
      - discriminate. }
    destruct W as [bSlideUp s']; simpl in HW.
    destruct bSlideUp; simpl.
    + specialize (HW eq_refl); unfold KINDA_SMALL_NUMBER in HW.
      set (q := Dot (GetSafeNormal D *v Size Delta) Up / Dot (Normal Hit) Up).
      set (T := 1 - Time Hit).
      assert (HDz : Dot ((VectorPlaneProject Delta Up + Up *v q)%vec *v T) Up = T * q).
      { rewrite Dot_vscale_l, Dot_vadd_l, Hproj, Dot_vscale_l, Huu; ring. }
      rewrite HDz.
      assert (Hq0 : 0 <= q).
      { subst q; rewrite Dot_vscale_l.
        destruct (GetSafeNormal_scale D) as [k [-> [Hk _]]].
        rewrite Dot_vscale_l.
        pose proof (Size_nonneg Delta).
        apply Rmult_le_pos; [ | apply Rlt_le, Rinv_0_lt_compat; lra ].
        apply Rmult_le_pos; [ lra | ].
        apply Rmult_le_pos; lra. }
      assert (Hp0 : Time Hit <= 1 -> 0 <= T * q)
        by (intros HT; subst T; apply Rmult_le_pos; lra).
      set (p := T * q) in *.
      destruct (Rltb (MaxStepHeight s) p) eqn:Ehigh; simpl.
      * apply Rltb_true in Ehigh.
        rewrite Dot_vscale_l, HDz.
        replace (MaxStepHeight s / p * p) with (MaxStepHeight s) by (field; lra).
        split; [ lra | intros _ _; lra ].
      * apply Rltb_false in Ehigh; rewrite HDz.
        split; [ lra | ].
        intros _ HT; now apply Hp0.
    + rewrite Hproj; split; [ lra | intros _ _; lra ].
  - apply Rltb_false in Eup.
    destruct (Rltb (Dot D Up) 0) eqn:Edown.
    + destruct (Rltb (FloorDist (CurrentFloor s)) (MIN_FLOOR_DIST E)
                && Floor_bBlockingHit (CurrentFloor s)); simpl.
      * rewrite Hproj; split; [ lra | intros _ _; lra ].
      * split; [ lra | discriminate ].
    + apply Rltb_false in Edown; simpl.
      split; [ lra | intros _ _; lra ].
Qed.

Lemma TwoWallAdjust_step_height_witness :
  let Hit := MakeHit true false (1 / 2) ZeroVector ZeroVector
               (MakeVector 0 0 1) (MakeVector 0 0 1) None NAME_None in
  Dot (fst (TwoWallAdjust SampleEngine SampleSuper SampleMovement
              (MakeVector 10 0 1000) Hit ZeroVector))
      (GetComponentAxisZ SampleMovement) <= 45.
Proof.
  intros Hit.
  assert (Hq : Quat_IsNormalized (ComponentQuat SampleMovement))
    by (unfold Quat_IsNormalized; simpl; lra).
  assert (Hstep : 0 <= MaxStepHeight SampleMovement) by (simpl; lra).
  exact (proj1 (TwoWallAdjust_step_height SampleEngine SampleSuper SampleMovement
                  (MakeVector 10 0 1000) Hit ZeroVector Hq eq_refl Hstep)).
Defined.

(** X13.  For a blocking hit on the ground, [SlideAlongSurface] calls the
    inherited implementation with a normal that is the given one or a
    vector with no component along the capsule axis.  It is the latter when
    the given normal points up and the hit is not walkable, so that the
    slide cannot push the character up an unwalkable surface, and when the
    given normal points down by more than [KINDA_SMALL_NUMBER] next to a
    blocking floor. *)
Theorem SlideAlongSurface_normal (E : Engine) (S : Super) (s : Movement)
    (Delta : FVector) (Time' : R) (InNormal : FVector) (Hit : FHitResult)
    (bHandleImpact : bool) :
  Quat_IsNormalized (ComponentQuat s) ->
  IsMovingOnGround s = true ->
  bBlockingHit Hit = true ->
  let Up := GetComponentAxisZ s in
  let NewNormal := fst (SlideAlongSurface_Normal E s Delta InNormal Hit) in
  let s' := snd (SlideAlongSurface_Normal E s Delta InNormal Hit) in
  Ninja_SlideAlongSurface E S s Delta Time' InNormal Hit bHandleImpact
  = Pawn_SlideAlongSurface S s' Delta Time' NewNormal Hit bHandleImpact /\
  (NewNormal = InNormal \/ Dot NewNormal Up = 0) /\
  (0 < Dot InNormal Up -> fst (IsWalkable s Hit) = false -> Dot NewNormal Up = 0) /\
  (Dot InNormal Up < - KINDA_SMALL_NUMBER ->
   Rltb (FloorDist (CurrentFloor s)) (MIN_FLOOR_DIST E)
   && Floor_bBlockingHit (CurrentFloor s) = true ->
   Dot NewNormal Up = 0).
Proof.
  intros Hq Hground Hblock Up NewNormal s'.
  assert (Hflat : forall V, Dot (GetSafeNormal (VectorPlaneProject V Up)) Up = 0).
  { intros V; apply Dot_GetSafeNormal, Dot_VectorPlaneProject_axis, Hq. }
  split.
  { unfold Ninja_SlideAlongSurface; rewrite Hblock; simpl.
    subst NewNormal s'.
    now destruct (SlideAlongSurface_Normal E s Delta InNormal Hit). }
  subst NewNormal s'; unfold SlideAlongSurface_Normal; rewrite Hground; fold Up.
  destruct (Rltb 0 (Dot InNormal Up)) eqn:Eup.
  - apply Rltb_true in Eup.
    destruct (IsWalkable s Hit) as [bWalkable s1]; simpl.
    destruct bWalkable; simpl.
    + split; [ now left | ].
      split; [ intros _; discriminate | intros Hd; unfold KINDA_SMALL_NUMBER in Hd; lra ].
    + split; [ right; apply Hflat | ].
      split; [ intros _ _; apply Hflat | intros _ _; apply Hflat ].
  - apply Rltb_false in Eup.
    destruct (Rltb (Dot InNormal Up) (- KINDA_SMALL_NUMBER)) eqn:Edown.
    + destruct (Rltb (FloorDist (CurrentFloor s)) (MIN_FLOOR_DIST E)
                && Floor_bBlockingHit (CurrentFloor s)); simpl.
      * split; [ right; apply Hflat | ].
        split; [ intros _ _; apply Hflat | intros _ _; apply Hflat ].
      * split; [ now left | ].
        split; [ intros Hd; lra | intros _; discriminate ].
    + apply Rltb_false in Edown; simpl.
      split; [ now left | ].
      split; [ intros Hd; lra | intros Hd; lra ].
Qed.

Lemma SlideAlongSurface_normal_witness :
  let Hit := MakeHit true false (1 / 2) ZeroVector ZeroVector
               (MakeVector (4 / 5) 0 (3 / 5)) (MakeVector (4 / 5) 0 (3 / 5))
               None NAME_None in
  Dot (fst (SlideAlongSurface_Normal SampleEngine SampleMovement (MakeVector 1 0 0)
              (MakeVector (4 / 5) 0 (3 / 5)) Hit))
      (GetComponentAxisZ SampleMovement) = 0.
Proof.
  intros Hit.
  assert (Hq : Quat_IsNormalized (ComponentQuat SampleMovement))
    by (unfold Quat_IsNormalized; simpl; lra).
  destruct (SlideAlongSurface_normal SampleEngine SampleSuper SampleMovement
              (MakeVector 1 0 0) 1 (MakeVector (4 / 5) 0 (3 / 5)) Hit true
              Hq eq_refl eq_refl) as (_ & _ & Hup & _).
  apply Hup.
  - unfold Dot, GetComponentAxisZ; simpl; lra.
  - assert (E1 : Rltb (Dot (ImpactNormal Hit) (GetComponentAxisZ SampleMovement))
                      KINDA_SMALL_NUMBER = false)
      by (apply Rltb_false; unfold Dot, KINDA_SMALL_NUMBER; simpl; lra).
    assert (E2 : Rltb (Dot (ImpactNormal Hit) (GetComponentAxisZ SampleMovement))
                      (TestWalkableZ SampleMovement Hit) = true)
      by (apply Rltb_true; unfold Dot, TestWalkableZ; simpl; lra).
    unfold IsWalkable.
    change (IsValidBlockingHit Hit) with true; cbn [negb].
    now rewrite E1, E2.
Defined.

(** X14.  If the inherited slide of a move without vertical part along a
    normal without vertical part has no vertical part either, the result of
    [HandleSlopeBoosting] never rises along the capsule axis more than the
    slide itself did, nor more than the original move would have in that
    time ([KINDA_SMALL_NUMBER] apart): a slope cannot boost the character
    upward. *)
Theorem HandleSlopeBoosting_limit (S : Super) (s : Movement)
    (SlideResult Delta : FVector) (Time' : R) (Normal' : FVector) (Hit : FHitResult) :
  Quat_IsNormalized (ComponentQuat s) ->
  let Up := GetComponentAxisZ s in
  (forall d n : FVector, Dot d Up = 0 -> Dot n Up = 0 ->
     Dot (Pawn_ComputeSlideVector S s d 1 n Hit) Up = 0) ->
  let Result := HandleSlopeBoosting S s SlideResult Delta Time' Normal' Hit in
  Dot Result Up <= FMath_Max 0 (Dot SlideResult Up) /\
  Dot Result Up <= FMath_Max 0 (Dot Delta Up * Time' + KINDA_SMALL_NUMBER).
Proof.
  intros Hq Up Hslide Result; subst Result.
  unfold HandleSlopeBoosting; fold Up.
  assert (Hmax : forall a b, a <= 0 \/ a <= b -> a <= FMath_Max 0 b).
  { intros a b H; destruct (FMath_Max_cases 0 b) as [[H1 ->] | [H1 ->]]; lra. }
  destruct (Rltb 0 (Dot SlideResult Up)) eqn:Eup.
  - apply Rltb_true in Eup.
    destruct (Rltb KINDA_SMALL_NUMBER (Dot SlideResult Up - Dot Delta Up * Time')) eqn:Ehigh.
    + apply Rltb_true in Ehigh; unfold KINDA_SMALL_NUMBER in *.
      rewrite Dot_vadd_l, Hslide.
      * destruct (Rltb 0 (Dot Delta Up * Time')) eqn:Elim.
        -- apply Rltb_true in Elim.
           rewrite Dot_vscale_l.
           replace (Dot Delta Up * Time' / Dot SlideResult Up * Dot SlideResult Up)
             with (Dot Delta Up * Time') by (field; lra).
           split; apply Hmax; right; lra.
        -- rewrite Dot_ZeroVector_l.
           split; apply Hmax; left; lra.
      * apply Dot_VectorPlaneProject_axis, Hq.
      * apply Dot_GetSafeNormal, Dot_VectorPlaneProject_axis, Hq.
    + apply Rltb_false in Ehigh.
      split; apply Hmax; right; lra.
  - apply Rltb_false in Eup.
    split; apply Hmax; left; lra.
Qed.

Lemma HandleSlopeBoosting_limit_witness :
  Dot (HandleSlopeBoosting SampleSuper SampleMovement (MakeVector 3 0 4)
         (MakeVector 5 0 1) 1 (MakeVector 1 0 0) (FHitResult_Init 1))
      (GetComponentAxisZ SampleMovement)
  <= FMath_Max 0 (Dot (MakeVector 3 0 4) (GetComponentAxisZ SampleMovement)).
Proof.
  assert (Hq : Quat_IsNormalized (ComponentQuat SampleMovement))
    by (unfold Quat_IsNormalized; simpl; lra).
  assert (Hslide : forall d n : FVector,
            Dot d (GetComponentAxisZ SampleMovement) = 0 ->
            Dot n (GetComponentAxisZ SampleMovement) = 0 ->
            Dot (Pawn_ComputeSlideVector SampleSuper SampleMovement d 1 n
                   (FHitResult_Init 1)) (GetComponentAxisZ SampleMovement) = 0).
  { intros d n Hd Hn; simpl.
    rewrite Dot_vscale_l, Dot_VectorPlaneProject_gen, Hd, Hn; ring. }
  exact (proj1 (HandleSlopeBoosting_limit SampleSuper SampleMovement (MakeVector 3 0 4)
                  (MakeVector 5 0 1) 1 (MakeVector 1 0 0) (FHitResult_Init 1)
                  Hq Hslide)).
Defined.

(** ** Gravity settings *)

Lemma vec_eqb_true (a b : FVector) : vec_eqb a b = true <-> a = b.
Proof.
  unfold vec_eqb; rewrite !andb_true_iff, !Reqb_true; split.
  - intros [[Hx Hy] Hz]; now apply vec_eq.
  - intros ->; auto.
Qed.

Lemma vec_eqb_refl (a : FVector) : vec_eqb a a = true.
Proof. now apply vec_eqb_true. Qed.

Lemma ENinjaGravityDirectionMode_eqb_true (a b : ENinjaGravityDirectionMode) :
  ENinjaGravityDirectionMode_eqb a b = true <-> a = b.
Proof. split; [ destruct a, b; simpl; congruence | intros ->; now destruct b ]. Qed.

Lemma ENinjaGravityDirectionMode_eqb_refl (a : ENinjaGravityDirectionMode) :
  ENinjaGravityDirectionMode_eqb a a = true.
Proof. now apply ENinjaGravityDirectionMode_eqb_true. Qed.

Lemma SameActor_refl (A : Actors) (a : option AActor) : SameActor A a a = true.
Proof. destruct a; simpl; [ apply Nat.eqb_refl | reflexivity ]. Qed.

Lemma InMode_true (c : NinjaComponent) (m : ENinjaGravityDirectionMode) :
  InMode c m = true <-> GravityDirectionMode (Core c) = m.
Proof. apply ENinjaGravityDirectionMode_eqb_true. Qed.

Lemma GravityScaleSign_cases (s : Movement) :
  GravityScaleSign s = 1 \/ GravityScaleSign s = -1.
Proof. unfold GravityScaleSign; destruct (Rltb 0 (GravityScale s)); auto. Qed.

(** X15.  After [K2_SetFixedGravityDirection] with a vector long enough to
    be normalised, on a component with valid data and a gravity scale that
    is not zero, the mode is fixed, the stored direction is the normalised
    vector, and [GetGravityDirection] answers that unit vector, reversed
    when the scale is negative. *)
Theorem K2_SetFixedGravityDirection_round_trip (c : NinjaComponent)
    (NewGravityDirection : FVector) :
  SMALL_NUMBER <= SizeSquared NewGravityDirection ->
  HasValidData (Core c) = true ->
  GravityScale (Core c) <> 0 ->
  let c' := fst (K2_SetFixedGravityDirection c NewGravityDirection) in
  GravityDirectionMode (Core c') = Fixed /\
  GravityVectorA (Core c') = GetSafeNormal NewGravityDirection /\
  fst (GetGravityDirection false (Core c'))
  = GetSafeNormal NewGravityDirection *v GravityScaleSign (Core c) /\
  Size (fst (GetGravityDirection false (Core c'))) = 1.
Proof.
  intros Hlong Hvalid Hscale c'.
  pose proof (Size_GetSafeNormal _ Hlong) as Hunit.
  set (n := GetSafeNormal NewGravityDirection) in *.
  assert (Hnz : IsZero n = false).
  { destruct (IsZero n) eqn:E; [ | reflexivity ].
    apply IsZero_true in E; rewrite E, Size_ZeroVector in Hunit; lra. }
  assert (Hstate : GravityDirectionMode (Core c') = Fixed /\
                   GravityVectorA (Core c') = n /\
                   HasValidData (Core c') = true /\
                   GravityScale (Core c') = GravityScale (Core c)).
  { subst c'; unfold K2_SetFixedGravityDirection, SetFixedGravityDirection.
    fold n; rewrite Hnz; simpl.
    destruct (InMode c Fixed && vec_eqb (GravityVectorA (Core c)) n) eqn:Esame; simpl.
    - apply andb_true_iff in Esame; destruct Esame as [Hm Hv].
      apply InMode_true in Hm; apply vec_eqb_true in Hv; auto.
    - repeat split; exact Hvalid. }
  destruct Hstate as (Hm & Ha & Hv & Hs).
  assert (Hdir : fst (GetGravityDirection false (Core c'))
                 = n *v GravityScaleSign (Core c)).
  { unfold GetGravityDirection; rewrite Hv, Hs; simpl.
    apply Reqb_false in Hscale; rewrite Hscale; simpl.
    unfold GravityDirectionSwitch; rewrite Hm, Ha; simpl.
    unfold GravityScaleSign; now rewrite Hs. }
  repeat split; try assumption.
  rewrite Hdir, Size_vscale, Hunit.
  destruct (GravityScaleSign_cases (Core c)) as [-> | ->].
  - rewrite Rabs_right by lra; ring.
  - rewrite Rabs_left by lra; ring.
Qed.

Lemma K2_SetFixedGravityDirection_round_trip_witness :
  fst (GetGravityDirection false
         (Core (fst (K2_SetFixedGravityDirection SampleComponent (MakeVector 3 0 4)))))
  = GetSafeNormal (MakeVector 3 0 4) *v GravityScaleSign (Core SampleComponent).
Proof.
  assert (Hlong : SMALL_NUMBER <= SizeSquared (MakeVector 3 0 4))
    by (unfold SMALL_NUMBER, SizeSquared; simpl; lra).
  assert (Hscale : GravityScale (Core SampleComponent) <> 0) by (simpl; lra).
  exact (proj1 (proj2 (proj2
    (K2_SetFixedGravityDirection_round_trip SampleComponent (MakeVector 3 0 4)
       Hlong eq_refl Hscale)))).
Defined.

Ltac setter_second_call :=
  simpl;
  repeat first
    [ rewrite vec_eqb_refl | rewrite SameActor_refl | rewrite Nat.eqb_refl
    | rewrite orb_true_r ];
  simpl; try reflexivity.

Ltac setter_contract :=
  match goal with
  | |- context [if ?g then (?c, []) else _] =>
      let G := fresh "G" in
      destruct g eqn:G;
      [ split; [ left; reflexivity | simpl; rewrite G; reflexivity ]
      | split; [ right; simpl; repeat split | setter_second_call ] ]
  end.

(** X16.  Every gravity setter of the server keeps the same contract: a
    call either changes nothing and notifies nothing, or it leaves the
    component in the setter's mode, marked dirty for replication, with one
    notification carrying the previous and the new mode; and the same call
    repeated changes nothing and notifies nothing. *)
Theorem GravitySetters_contract (A : Actors) (v a b : FVector) (g : option AActor) :
  GravitySetterContract Fixed (fun c => SetFixedGravityDirection c v) /\
  GravitySetterContract Fixed (fun c => K2_SetFixedGravityDirection c v) /\
  GravitySetterContract SplineTangent (fun c => SetSplineTangentGravityDirection A c g) /\
  GravitySetterContract Point (fun c => SetPointGravityDirection c v) /\
  GravitySetterContract Point (fun c => SetPointGravityDirectionFromActor A c g) /\
  GravitySetterContract Line (fun c => SetLineGravityDirection c a b) /\
  GravitySetterContract Segment (fun c => SetSegmentGravityDirection c a b) /\
  GravitySetterContract Spline (fun c => SetSplineGravityDirection A c g) /\
  GravitySetterContract Plane (fun c => SetPlaneGravityDirection c a b) /\
  GravitySetterContract Plane (fun c => K2_SetPlaneGravityDirection c a b) /\
  GravitySetterContract SplinePlane (fun c => SetSplinePlaneGravityDirection A c g) /\
  GravitySetterContract Box (fun c => SetBoxGravityDirection c a b) /\
  GravitySetterContract Box (fun c => SetBoxGravityDirectionFromActor A c g) /\
  GravitySetterContract Collision (fun c => SetCollisionGravityDirection A c g).
Proof.
  assert (Hfixed : forall w, GravitySetterContract Fixed
                               (fun c => SetFixedGravityDirection c w)).
  { intros w c; unfold SetFixedGravityDirection, AssignGravityDirection, InMode.
    setter_contract. }
  assert (Hplane : forall w, GravitySetterContract Plane
                               (fun c => SetPlaneGravityDirection c a w)).
  { intros w c; unfold SetPlaneGravityDirection, AssignGravityDirection, InMode.
    setter_contract. }
  assert (Hspline : forall m, GravitySetterContract m
                                (fun c => SetSplineActorGravityDirection A m c g)).
  { intros m c; unfold SetSplineActorGravityDirection, AssignGravityDirection, InMode.
    destruct g as [x | ]; [ | split; [ now left | reflexivity ] ].
    destruct (ENinjaGravityDirectionMode_eqb (GravityDirectionMode (Core c)) m
              && SameActor A (GravityActor (Core c)) (Some x)) eqn:G.
    { split; [ now left | simpl; now rewrite G ]. }
    destruct (GetSplineComponent x) eqn:Hs.
    - split; [ right; simpl; repeat split | ].
      simpl; rewrite ENinjaGravityDirectionMode_eqb_refl, Nat.eqb_refl; reflexivity.
    - split; [ now left | simpl; now rewrite G ]. }
  repeat match goal with |- _ /\ _ => split end.
  - apply Hfixed.
  - apply Hfixed.
  - apply Hspline.
  - intros c; unfold SetPointGravityDirection, AssignGravityDirection, InMode.
    setter_contract.
  - intros c; unfold SetPointGravityDirectionFromActor, AssignGravityDirection, InMode.
    setter_contract.
  - intros c; unfold SetLineGravityDirection, SetTwoPointGravityDirection,
      AssignGravityDirection, InMode.
    setter_contract.
  - intros c; unfold SetSegmentGravityDirection, SetTwoPointGravityDirection,
      AssignGravityDirection, InMode.
    setter_contract.
  - apply Hspline.
  - apply Hplane.
  - apply Hplane.
  - apply Hspline.
  - intros c; unfold SetBoxGravityDirection, AssignGravityDirection, InMode.
    setter_contract.
  - intros c; unfold SetBoxGravityDirectionFromActor, AssignGravityDirection, InMode.
    setter_contract.
  - intros c; unfold SetCollisionGravityDirection, AssignGravityDirection, InMode.
    destruct g as [x | ]; [ | split; [ now left | reflexivity ] ].
    destruct (ENinjaGravityDirectionMode_eqb (GravityDirectionMode (Core c)) Collision
              && SameActor A (GravityActor (Core c)) (Some x)) eqn:G.
    { split; [ now left | simpl; now rewrite G ]. }
    destruct (HasRootPrimitive A x) eqn:Hp.
    + split; [ right; simpl; repeat split | ].
      simpl; rewrite Nat.eqb_refl; reflexivity.
    + split; [ now left | simpl; now rewrite G ].
Qed.

Lemma set_GravityScale_same (s : Movement) : set_GravityScale s (GravityScale s) = s.
Proof. now destruct s. Qed.

Lemma set_Core_same (c : NinjaComponent) : set_Core c (Core c) = c.
Proof. now destruct c. Qed.

Lemma set_bDirtyGravityDirection_same (c : NinjaComponent) (b : bool) :
  bDirtyGravityDirection c = b -> set_bDirtyGravityDirection c b = c.
Proof. destruct c; simpl; now intros ->. Qed.

Lemma set_OldGravityScale_same (c : NinjaComponent) (r : R) :
  OldGravityScale c = r -> set_OldGravityScale c r = c.
Proof. destruct c; simpl; now intros ->. Qed.

Lemma MulticastSetActorGravityDirection_local (A : Actors)
    (m : ENinjaGravityDirectionMode) (c : NinjaComponent) :
  GravityDirectionMode (Core c) = m ->
  MulticastSetActorGravityDirection A m c (GravityActor (Core c)) = (c, []).
Proof.
  intros Hm; apply InMode_true in Hm.
  unfold MulticastSetActorGravityDirection; now rewrite Hm, SameActor_refl.
Qed.

Lemma MulticastSetTwoVectorGravityDirection_local (m : ENinjaGravityDirectionMode)
    (c : NinjaComponent) :
  GravityDirectionMode (Core c) = m ->
  MulticastSetTwoVectorGravityDirection m c (GravityVectorA (Core c))
    (GravityVectorB (Core c)) = (c, []).
Proof.
  intros Hm; apply InMode_true in Hm.
  unfold MulticastSetTwoVectorGravityDirection; now rewrite Hm, !vec_eqb_refl.
Qed.

(** The direction call that the server makes for its own settings changes
    nothing on the server. *)
Lemma ReplicateGravityDirection_local (A : Actors) (c : NinjaComponent) :
  exists Sent,
    (length Sent <= 1)%nat /\
    ReplicateGravityDirection A c = (set_bDirtyGravityDirection c false, Sent, []).
Proof.
  unfold ReplicateGravityDirection.
  destruct (bDirtyGravityDirection c) eqn:Hd.
  - cbv zeta.
    destruct (GravityDirectionMode (Core c)) eqn:Hm;
      unfold Multicast, Multicast_Implementation,
        MulticastSetSplineTangentGravityDirection_Implementation,
        MulticastSetLineGravityDirection_Implementation,
        MulticastSetSegmentGravityDirection_Implementation,
        MulticastSetSplineGravityDirection_Implementation,
        MulticastSetPlaneGravityDirection_Implementation,
        MulticastSetSplinePlaneGravityDirection_Implementation,
        MulticastSetCollisionGravityDirection_Implementation;
      rewrite ?(MulticastSetActorGravityDirection_local A _ c Hm),
              ?(MulticastSetTwoVectorGravityDirection_local _ c Hm);
      try (eexists; split; [ | reflexivity ]; simpl; lia).
    + unfold MulticastSetFixedGravityDirection_Implementation.
      apply InMode_true in Hm; rewrite Hm, vec_eqb_refl; simpl.
      eexists; split; [ | reflexivity ]; simpl; lia.
    + unfold MulticastSetPointGravityDirection_Implementation.
      apply InMode_true in Hm; rewrite Hm, vec_eqb_refl; simpl.
      eexists; split; [ | reflexivity ]; simpl; lia.
    + unfold MulticastSetBoxGravityDirection_Implementation.
      apply InMode_true in Hm; rewrite Hm, !vec_eqb_refl; simpl.
      eexists; split; [ | reflexivity ]; simpl; lia.
  - exists []; split; [ simpl; lia | ].
    now rewrite set_bDirtyGravityDirection_same.
Qed.

(** X17.  [ReplicateGravityToClients] is triggered by changes only.  On the
    server the calls it makes change none of the gravity settings and
    notify nothing; afterwards the direction is clean and the remembered
    scale is the current one, so a second call sends nothing at all.  One
    call sends at most two multicasts. *)
Theorem ReplicateGravityToClients_once (A : Actors) (c : NinjaComponent) :
  let r := ReplicateGravityToClients A c in
  let c1 := fst (fst r) in
  snd r = [] /\
  Core c1 = Core c /\
  bDirtyGravityDirection c1 = false /\
  OldGravityScale c1 = GravityScale (Core c) /\
  ReplicateGravityToClients A c1 = (c1, [], []) /\
  (length (snd (fst r)) <= 2)%nat.
Proof.
  assert (Hsecond : forall k : NinjaComponent,
            bDirtyGravityDirection k = false ->
            OldGravityScale k = GravityScale (Core k) ->
            ReplicateGravityToClients A k = (k, [], [])).
  { intros k Hd Ho; unfold ReplicateGravityToClients, ReplicateGravityDirection.
    rewrite Hd, Ho, Reqb_refl; reflexivity. }
  set (c1 := set_OldGravityScale (set_bDirtyGravityDirection c false)
               (GravityScale (Core c))).
  assert (Hres : exists Sent, (length Sent <= 2)%nat /\
                   ReplicateGravityToClients A c = (c1, Sent, [])).
  { unfold ReplicateGravityToClients.
    destruct (ReplicateGravityDirection_local A c) as [Sent [Hlen ->]].
    set (d := set_bDirtyGravityDirection c false) in *.
    assert (Hcore : Core d = Core c) by (subst d; now destruct c).
    destruct (Reqb (OldGravityScale d) (GravityScale (Core d))) eqn:Escale;
      cbn [negb].
    - apply Reqb_true in Escale.
      exists Sent; split; [ lia | ].
      subst c1; rewrite <- Hcore, set_OldGravityScale_same; auto.
    - exists (Sent ++ [MulticastSetGravityScale (GravityScale (Core d))]).
      split; [ rewrite length_app; simpl; lia | ].
      unfold Multicast, Multicast_Implementation,
        MulticastSetGravityScale_Implementation.
      rewrite set_GravityScale_same, set_Core_same.
      subst c1; now rewrite Hcore. }
  destruct Hres as [Sent [Hlen Hres]].
  intros r c1'; subst c1' r; rewrite Hres; simpl.
  assert (Hcore : Core c1 = Core c) by (subst c1; now destruct c).
  assert (Hdirty : bDirtyGravityDirection c1 = false) by (subst c1; now destruct c).
  assert (Hold : OldGravityScale c1 = GravityScale (Core c)) by (subst c1; now destruct c).
  repeat split; try assumption.
  apply Hsecond; [ assumption | now rewrite Hold, Hcore ].
Qed.

Lemma MulticastSetFixedGravityDirection_local (c : NinjaComponent) :
  GravityDirectionMode (Core c) = Fixed ->
  MulticastSetFixedGravityDirection_Implementation c (GravityVectorA (Core c)) = (c, []).
Proof.
  intros Hm; apply InMode_true in Hm.
  unfold MulticastSetFixedGravityDirection_Implementation; now rewrite Hm, vec_eqb_refl.
Qed.

Lemma MulticastSetPointGravityDirection_local (c : NinjaComponent) :
  GravityDirectionMode (Core c) = Point ->
  MulticastSetPointGravityDirection_Implementation c (GravityVectorA (Core c)) = (c, []).
Proof.
  intros Hm; apply InMode_true in Hm.
  unfold MulticastSetPointGravityDirection_Implementation; now rewrite Hm, vec_eqb_refl.
Qed.

Lemma MulticastSetBoxGravityDirection_local (c : NinjaComponent) :
  GravityDirectionMode (Core c) = Box ->
  MulticastSetBoxGravityDirection_Implementation c (GravityVectorA (Core c))
    (GravityVectorB (Core c)) = (c, []).
Proof.
  intros Hm; apply InMode_true in Hm.
  unfold MulticastSetBoxGravityDirection_Implementation; now rewrite Hm, !vec_eqb_refl.
Qed.

(** What one call sends when the direction is dirty. *)
Lemma ReplicateGravityToClients_sent (A : Actors) (c : NinjaComponent) :
  bDirtyGravityDirection c = true ->
  snd (fst (ReplicateGravityToClients A c))
  = (let s := Core c in
     match GravityDirectionMode s with
     | Fixed => [MulticastSetFixedGravityDirection (GravityVectorA s)]
     | SplineTangent => [MulticastSetSplineTangentGravityDirection (GravityActor s)]
     | Point => [MulticastSetPointGravityDirection (GravityVectorA s)]
     | Line => [MulticastSetLineGravityDirection (GravityVectorA s) (GravityVectorB s)]
     | Segment =>
         [MulticastSetSegmentGravityDirection (GravityVectorA s) (GravityVectorB s)]
     | Spline => [MulticastSetSplineGravityDirection (GravityActor s)]
     | Plane => [MulticastSetPlaneGravityDirection (GravityVectorA s) (GravityVectorB s)]
     | SplinePlane => [MulticastSetSplinePlaneGravityDirection (GravityActor s)]
     | Box => [MulticastSetBoxGravityDirection (GravityVectorA s) (GravityVectorB s)]
     | Collision => [MulticastSetCollisionGravityDirection (GravityActor s)]
     | _ => []
     end)
    ++ (if Reqb (OldGravityScale c) (GravityScale (Core c)) then []
        else [MulticastSetGravityScale (GravityScale (Core c))]).
Proof.
  intros Hd.
  set (d := set_bDirtyGravityDirection c false).
  assert (Hcore : Core d = Core c) by (subst d; now destruct c).
  assert (Hold : OldGravityScale d = OldGravityScale c) by (subst d; now destruct c).
  unfold ReplicateGravityToClients, ReplicateGravityDirection.
  rewrite Hd; cbv zeta.
  destruct (GravityDirectionMode (Core c)) eqn:Hm;
    unfold Multicast, Multicast_Implementation,
      MulticastSetSplineTangentGravityDirection_Implementation,
      MulticastSetLineGravityDirection_Implementation,
      MulticastSetSegmentGravityDirection_Implementation,
      MulticastSetSplineGravityDirection_Implementation,
      MulticastSetPlaneGravityDirection_Implementation,
      MulticastSetSplinePlaneGravityDirection_Implementation,
      MulticastSetCollisionGravityDirection_Implementation;
    rewrite ?(MulticastSetActorGravityDirection_local A _ c Hm),
            ?(MulticastSetTwoVectorGravityDirection_local _ c Hm),
            ?(MulticastSetFixedGravityDirection_local c Hm),
            ?(MulticastSetPointGravityDirection_local c Hm),
            ?(MulticastSetBoxGravityDirection_local c Hm);
    fold d; rewrite Hold, Hcore;
    destruct (Reqb (OldGravityScale c) (GravityScale (Core c))); reflexivity.
Qed.

Ltac client_receives :=
  unfold MulticastSetFixedGravityDirection_Implementation,
    MulticastSetSplineTangentGravityDirection_Implementation,
    MulticastSetPointGravityDirection_Implementation,
    MulticastSetLineGravityDirection_Implementation,
    MulticastSetSegmentGravityDirection_Implementation,
    MulticastSetSplineGravityDirection_Implementation,
    MulticastSetPlaneGravityDirection_Implementation,
    MulticastSetSplinePlaneGravityDirection_Implementation,
    MulticastSetBoxGravityDirection_Implementation,
    MulticastSetCollisionGravityDirection_Implementation,
    MulticastSetGravityScale_Implementation,
    MulticastSetActorGravityDirection, MulticastSetTwoVectorGravityDirection,
    AssignGravityDirection;
  match goal with
  | |- context [if ?g then (?k, []) else _] =>
      let G := fresh "G" in
      destruct g eqn:G;
      [ rewrite !andb_true_iff in G;
        repeat match goal with H : _ /\ _ |- _ => destruct H end;
        repeat match goal with
               | H : InMode _ _ = true |- _ => apply InMode_true in H
               | H : vec_eqb _ _ = true |- _ => apply vec_eqb_true in H
               end
      | ]
  | _ => idtac
  end;
  simpl; rewrite ?SameActor_refl; auto.

(** X18.  A client that receives the multicasts of one
    [ReplicateGravityToClients] call made with a dirty direction ends, from
    any state, in the server's gravity mode with the server's data for that
    mode: the vector for the fixed and point modes, both vectors for line,
    segment, plane and box, the same actor for the spline and collision
    modes.  When the scale had changed on the server the client also ends
    with the server's scale. *)
Theorem ReplicateGravityToClients_client (A : Actors) (c k : NinjaComponent) :
  bDirtyGravityDirection c = true ->
  let Sent := snd (fst (ReplicateGravityToClients A c)) in
  let s := Core c in
  let t := Core (fst (ReceiveMulticasts A k Sent)) in
  match GravityDirectionMode s with
  | Fixed | Point =>
      GravityDirectionMode t = GravityDirectionMode s /\
      GravityVectorA t = GravityVectorA s
  | Line | Segment | Plane | Box =>
      GravityDirectionMode t = GravityDirectionMode s /\
      GravityVectorA t = GravityVectorA s /\ GravityVectorB t = GravityVectorB s
  | SplineTangent | Spline | SplinePlane | Collision =>
      GravityDirectionMode t = GravityDirectionMode s /\
      SameActor A (GravityActor t) (GravityActor s) = true
  | _ => GravityDirectionMode t = GravityDirectionMode (Core k)
  end /\
  (OldGravityScale c <> GravityScale s -> GravityScale t = GravityScale s).
Proof.
  intros Hd Sent s t; subst t s Sent.
  rewrite (ReplicateGravityToClients_sent A c Hd); cbv zeta.
  destruct (GravityDirectionMode (Core c)) eqn:Hm;
    (destruct (Reqb (OldGravityScale c) (GravityScale (Core c))) eqn:Escale;
     [ apply Reqb_true in Escale | ];
     cbn [app ReceiveMulticasts]; unfold Multicast_Implementation;
     (split; [ | intros Hne; try contradiction ]);
     client_receives).
Qed.

Lemma ReplicateGravityToClients_client_witness :
  let Sent := snd (fst (ReplicateGravityToClients SampleActors DirtyServer)) in
  GravityVectorB (Core (fst (ReceiveMulticasts SampleActors SampleComponent Sent)))
  = MakeVector 1 0 0.
Proof.
  exact (proj2 (proj2 (proj1
    (ReplicateGravityToClients_client SampleActors DirtyServer SampleComponent eq_refl)))).
Defined.

(** X19.  [UpdateGravity] never changes the gravity mode and notifies at
    most once; it does nothing unless gravity is aligned to the base and
    the component is on the ground; and in the fixed mode, on a floor with
    a normal that is not zero, the gravity direction becomes the reversed
    floor normal. *)
Theorem UpdateGravity_spec (A : Actors) (c : NinjaComponent) :
  let c' := fst (UpdateGravity A c) in
  let FloorNormal := ImpactNormal (HitResult (CurrentFloor (Core c))) in
  GravityDirectionMode (Core c') = GravityDirectionMode (Core c) /\
  (length (snd (UpdateGravity A c)) <= 1)%nat /\
  (bAlignGravityToBase c && IsMovingOnGround (Core c) = false ->
   UpdateGravity A c = (c, [])) /\
  (bAlignGravityToBase c && IsMovingOnGround (Core c) = true ->
   GravityDirectionMode (Core c) = Fixed -> IsZero FloorNormal = false ->
   GravityVectorA (Core c') = FloorNormal *v (-1)).
Proof.
  intros c' FloorNormal; subst c' FloorNormal.
  unfold UpdateGravity.
  destruct (bAlignGravityToBase c); simpl;
    [ | repeat split; try lia; intros; discriminate ].
  destruct (IsMovingOnGround (Core c)); simpl;
    [ | repeat split; try lia; intros; discriminate ].
  assert (Hz : forall v : FVector, IsZero v = false -> IsZero (v *v (-1)) = false).
  { intros v Hv; destruct (IsZero (v *v (-1))) eqn:E; [ | reflexivity ].
    apply IsZero_true in E.
    assert (Hv0 : v = ZeroVector).
    { apply (f_equal X) in E as Ex; apply (f_equal Y) in E as Ey;
        apply (f_equal Z) in E as Ez; simpl in *.
      apply vec_eq; simpl; lra. }
    apply IsZero_true in Hv0; congruence. }
  destruct (GravityDirectionMode (Core c)) eqn:Hm;
    try (repeat split; first [ assumption | simpl; lia | intros; discriminate ]).
  - destruct (IsZero (ImpactNormal (HitResult (CurrentFloor (Core c))))) eqn:En; simpl.
    + repeat split; try assumption; try (simpl; lia); intros; discriminate.
    + unfold SetFixedGravityDirection, AssignGravityDirection.
      rewrite (Hz _ En); simpl.
      destruct (InMode c Fixed && _) eqn:G; simpl.
      * apply andb_true_iff in G; destruct G as [_ G]; apply vec_eqb_true in G.
        repeat split; try assumption; try lia; intros; assumption.
      * repeat split; try lia; intros; reflexivity.
  - destruct (Hit_GetActor A _);
      [ | repeat split; try assumption; try (simpl; lia); intros; discriminate ].
    unfold SetPointGravityDirectionFromActor, AssignGravityDirection.
    destruct (InMode c Point && _); simpl;
      repeat split; try assumption; try lia; intros; discriminate.
  - destruct (Hit_GetActor A _);
      [ | repeat split; try assumption; try (simpl; lia); intros; discriminate ].
    unfold SetBoxGravityDirectionFromActor, AssignGravityDirection.
    destruct (InMode c Box && _); simpl;
      repeat split; try assumption; try lia; intros; discriminate.
  - destruct (Hit_GetActor A _);
      [ | repeat split; try assumption; try (simpl; lia); intros; discriminate ].
    unfold SetCollisionGravityDirection, AssignGravityDirection.
    destruct (InMode c Collision && _); simpl;
      [ repeat split; try assumption; try lia; intros; discriminate | ].
    destruct (HasRootPrimitive A a); simpl;
      repeat split; try assumption; try lia; intros; discriminate.
Qed.

(** ** Edge tolerance *)

Lemma EdgeDistance_lateral (C d P : FVector) :
  SizeSquared (C + d *v Dot (P - C) d - P)%vec
  = SizeSquared (P - C) - Dot (P - C) d * Dot (P - C) d * (2 - SizeSquared d).
Proof. unfold SizeSquared, Dot; simpl; ring. Qed.

Lemma IsWithinEdgeToleranceEx_lateral (E : Engine) (C d : FVector) (r : R) (P : FVector) :
  SizeSquared d = 1 ->
  IsWithinEdgeToleranceEx E C d r P = true <->
  SizeSquared (P - C) - Dot (P - C) d * Dot (P - C) d
  < FMath_Square (FMath_Max (SWEEP_EDGE_REJECT_DISTANCE E + KINDA_SMALL_NUMBER)
                            (r - SWEEP_EDGE_REJECT_DISTANCE E)).
Proof.
  intros Hunit; unfold IsWithinEdgeToleranceEx.
  rewrite Rltb_true, EdgeDistance_lateral, Hunit.
  replace (Dot (P - C) d * Dot (P - C) d * (2 - 1))
    with (Dot (P - C) d * Dot (P - C) d) by ring.
  tauto.
Qed.

(** X20.  For a unit capsule axis and an edge reject distance that is not
    negative, [IsWithinEdgeToleranceEx] accepts a point exactly when its
    squared distance to the capsule axis is below the square of the
    reduced radius [max(reject + KINDA_SMALL_NUMBER, radius - reject)]: the
    answer does not change when the point moves along the axis, every
    point of the axis is accepted, and when the capsule is wide enough for
    the reduced radius to be [radius - reject], accepted points are closer
    to the axis than that. *)
Theorem IsWithinEdgeToleranceEx_geometry (E : Engine) (CapsuleLocation CapsuleDown : FVector)
    (Radius : R) (TestImpactPoint : FVector) :
  SizeSquared CapsuleDown = 1 ->
  0 <= SWEEP_EDGE_REJECT_DISTANCE E ->
  let Within := IsWithinEdgeToleranceEx E CapsuleLocation CapsuleDown Radius in
  let Lateral2 :=
    SizeSquared (TestImpactPoint - CapsuleLocation)
    - Dot (TestImpactPoint - CapsuleLocation) CapsuleDown
      * Dot (TestImpactPoint - CapsuleLocation) CapsuleDown in
  let Reduced :=
    FMath_Max (SWEEP_EDGE_REJECT_DISTANCE E + KINDA_SMALL_NUMBER)
              (Radius - SWEEP_EDGE_REJECT_DISTANCE E) in
  (Within TestImpactPoint = true <-> Lateral2 < Reduced * Reduced) /\
  (forall t : R, Within (TestImpactPoint + CapsuleDown *v t)%vec = Within TestImpactPoint) /\
  (forall t : R, Within (CapsuleLocation + CapsuleDown *v t)%vec = true) /\
  (Within TestImpactPoint = true ->
   SWEEP_EDGE_REJECT_DISTANCE E + KINDA_SMALL_NUMBER
   <= Radius - SWEEP_EDGE_REJECT_DISTANCE E ->
   Lateral2 < (Radius - SWEEP_EDGE_REJECT_DISTANCE E)
              * (Radius - SWEEP_EDGE_REJECT_DISTANCE E)).
Proof.
  intros Hunit Hrej Within Lateral2 Reduced.
  assert (Hiff : forall P, Within P = true <->
            SizeSquared (P - CapsuleLocation)
            - Dot (P - CapsuleLocation) CapsuleDown * Dot (P - CapsuleLocation) CapsuleDown
            < Reduced * Reduced).
  { intros P; subst Within Reduced.
    now rewrite (IsWithinEdgeToleranceEx_lateral E _ _ Radius P Hunit). }
  assert (Hshift : forall P t,
            SizeSquared (P + CapsuleDown *v t - CapsuleLocation)
            - Dot (P + CapsuleDown *v t - CapsuleLocation) CapsuleDown
              * Dot (P + CapsuleDown *v t - CapsuleLocation) CapsuleDown
            = SizeSquared (P - CapsuleLocation)
              - Dot (P - CapsuleLocation) CapsuleDown
                * Dot (P - CapsuleLocation) CapsuleDown).
  { intros P t.
    transitivity (SizeSquared (P - CapsuleLocation)
                  - Dot (P - CapsuleLocation) CapsuleDown
                    * Dot (P - CapsuleLocation) CapsuleDown
                  + t * t * SizeSquared CapsuleDown * (1 - SizeSquared CapsuleDown)
                  + 2 * t * Dot (P - CapsuleLocation) CapsuleDown
                    * (1 - SizeSquared CapsuleDown)).
    - unfold SizeSquared, Dot; simpl; ring.
    - rewrite Hunit; ring. }
  assert (Hbool : forall a b : bool, (a = true <-> b = true) -> a = b).
  { intros a b [H1 H2]; destruct a, b; try reflexivity;
      [ symmetry; now apply H1 | now apply H2 ]. }
  split; [ apply Hiff | ].
  split; [ | split ].
  - intros t; apply Hbool.
    rewrite (Hiff (TestImpactPoint + CapsuleDown *v t)%vec), (Hiff TestImpactPoint).
    now rewrite Hshift.
  - intros t; apply Hiff.
    rewrite Hshift.
    replace (SizeSquared (CapsuleLocation - CapsuleLocation)
             - Dot (CapsuleLocation - CapsuleLocation) CapsuleDown
               * Dot (CapsuleLocation - CapsuleLocation) CapsuleDown)
      with 0 by (unfold SizeSquared, Dot; simpl; ring).
    subst Reduced.
    destruct (FMath_Max_cases (SWEEP_EDGE_REJECT_DISTANCE E + KINDA_SMALL_NUMBER)
                (Radius - SWEEP_EDGE_REJECT_DISTANCE E)) as [[H ->] | [H ->]];
      unfold KINDA_SMALL_NUMBER in *; nra.
  - intros Hw Hwide; apply Hiff in Hw; subst Reduced.
    destruct (FMath_Max_cases (SWEEP_EDGE_REJECT_DISTANCE E + KINDA_SMALL_NUMBER)
                (Radius - SWEEP_EDGE_REJECT_DISTANCE E)) as [[H Hmax] | [H Hmax]];
      rewrite Hmax in Hw.
    + exact Hw.
    + replace (Radius - SWEEP_EDGE_REJECT_DISTANCE E)
        with (SWEEP_EDGE_REJECT_DISTANCE E + KINDA_SMALL_NUMBER) by lra.
      exact Hw.
Qed.

Lemma IsWithinEdgeToleranceEx_geometry_witness :
  IsWithinEdgeToleranceEx SampleEngine (MakeVector 1 2 3) DownVector 34
    (MakeVector 1 2 3 + DownVector *v 88)%vec = true.
Proof.
  assert (Hunit : SizeSquared DownVector = 1) by (unfold SizeSquared; simpl; ring).
  assert (Hrej : 0 <= SWEEP_EDGE_REJECT_DISTANCE SampleEngine) by (simpl; lra).
  exact (proj1 (proj2 (proj2
    (IsWithinEdgeToleranceEx_geometry SampleEngine (MakeVector 1 2 3) DownVector 34
       ZeroVector Hunit Hrej))) 88).
Defined.

(** ** Rotation *)

Lemma GetGravityDirection_keeps (T : Type) (f : Movement -> T) (b : bool) (s : Movement) :
  (forall (s0 : Movement) (a0 b0 : FVector), f (set_GravityVectors s0 a0 b0) = f s0) ->
  f (snd (GetGravityDirection b s)) = f s.
Proof.
  intros Hf.
  assert (Hswitch : forall k, f (snd (GravityDirectionSwitch k s)) = f s).
  { intros k; unfold GravityDirectionSwitch, LiveGravitySpline, LiveGravityActor.
    destruct (GravityDirectionMode s); simpl; try reflexivity;
      destruct (GravityActor s) as [a | ]; simpl; try reflexivity;
      destruct (IsPendingKill a); simpl; try reflexivity;
      try (destruct (GetSplineComponent a); simpl; now rewrite ?Hf);
      try now rewrite ?Hf.
    destruct (Rltb 0 _); simpl; now rewrite ?Hf. }
  unfold GetGravityDirection.
  destruct (negb (HasValidData s)); [ reflexivity | ].
  destruct (negb (Reqb (GravityScale s) 0)).
  - pose proof (Hswitch (fun v => v *v GravityScaleSign s)) as H.
    destruct (GravityDirectionSwitch _ s) as [d s']; simpl in *.
    now destruct (b && IsZero d).
  - destruct b; [ | reflexivity ].
    pose proof (Hswitch (fun v => v)) as H.
    destruct (GravityDirectionSwitch _ s) as [d s']; simpl in *.
    now destruct (IsZero d).
Qed.

(** X21.  [GetComponentDesiredAxisZ] answers the world up vector itself or
    a vector that is not within the parallel threshold of it: its Z is
    neither 1 nor at least [ThresholdParallelCosine].  Code that tests
    [Z == 1] on the desired axis therefore sees every nearly upright
    axis. *)
Theorem GetComponentDesiredAxisZ_snap (c : NinjaComponent) :
  let D := fst (GetComponentDesiredAxisZ c) in
  (D = UpVector \/
   (D = fst (DesiredAxisZ_raw c) /\ Z D <> 1 /\ Z D < ThresholdParallelCosine (Core c))) /\
  (Z D = 1 -> D = UpVector) /\
  (Coincident D UpVector (ThresholdParallelCosine (Core c)) = true -> D = UpVector).
Proof.
  intros D; subst D; unfold GetComponentDesiredAxisZ.
  assert (Hthr : ThresholdParallelCosine (snd (DesiredAxisZ_raw c))
                 = ThresholdParallelCosine (Core c)).
  { unfold DesiredAxisZ_raw.
    destruct (bAlignComponentToFloor c && _ && _); [ reflexivity | ].
    destruct (bAlignComponentToGravity c); [ | reflexivity ].
    pose proof (GetGravityDirection_keeps R ThresholdParallelCosine true (Core c)
                  (fun _ _ _ => eq_refl)) as H.
    now destruct (GetGravityDirection true (Core c)). }
  destruct (DesiredAxisZ_raw c) as [d s']; simpl in *; rewrite Hthr.
  assert (Hdot : Dot d UpVector = Z d) by (unfold Dot; simpl; ring).
  destruct (Reqb (Z d) 1) eqn:E1; simpl.
  { repeat split; auto. }
  apply Reqb_false in E1.
  unfold Coincident; rewrite Hdot.
  destruct (Rleb (ThresholdParallelCosine (Core c)) (Z d)) eqn:E2.
  { repeat split; auto. }
  apply Rleb_false in E2; simpl.
  split; [ right; auto | ].
  split; [ intros H; contradiction | ].
  intros H; unfold Coincident in H; rewrite Hdot in H; apply Rleb_true in H; lra.
Qed.

Lemma FMath_Clamp_bounds (x lo hi : R) :
  lo <= hi -> lo <= FMath_Clamp x lo hi <= hi.
Proof.
  intros H; unfold FMath_Clamp.
  destruct (Rltb x lo) eqn:E1; [ lra | ].
  apply Rltb_false in E1.
  destruct (Rltb x hi) eqn:E2; [ apply Rltb_true in E2 | ]; lra.
Qed.

Lemma Orthogonal_excludes_Parallel (v w : FVector) (co cp : R) :
  co < cp -> Orthogonal v w co = true -> Parallel v w cp = false.
Proof.
  unfold Orthogonal, Parallel; intros Hlt Ho.
  apply Rleb_true in Ho; apply Rleb_false; lra.
Qed.

(** X22.  After [SetThresholdParallelAngle], whatever angle was asked for,
    the stored angle lies between 0.25 and 1 degree, the two cosine
    thresholds satisfy [0 < orthogonal < parallel < 1] and
    [orthogonal^2 + parallel^2 = 1] (the orthogonal one is the sine of the
    angle), and no pair of vectors is both [Orthogonal] and [Parallel] for
    the stored thresholds. *)
Theorem SetThresholdParallelAngle_spec (c : NinjaComponent) (NewThresholdParallelAngle : R) :
  let c' := SetThresholdParallelAngle c NewThresholdParallelAngle in
  let Orth := ThresholdOrthogonalCosine c' in
  let Par := ThresholdParallelCosine (Core c') in
  1 / 4 <= ThresholdParallelAngle c' <= 1 /\
  Orth = sin (DegreesToRadians (ThresholdParallelAngle c')) /\
  0 < Orth /\ Orth < Par /\ Par < 1 /\
  Orth * Orth + Par * Par = 1 /\
  (forall v w : FVector, Orthogonal v w Orth = true -> Parallel v w Par = false).
Proof.
  intros c' Orth Par; subst c' Orth Par; simpl.
  set (a := FMath_Clamp NewThresholdParallelAngle (1 / 4) 1).
  assert (Ha : 1 / 4 <= a <= 1) by (apply FMath_Clamp_bounds; lra).
  unfold DegreesToRadians.
  set (x := a * (PI / 180)).
  pose proof PI_RGT_0 as Hpi.
  assert (Hx : 0 < x /\ x <= PI / 180) by (subst x; split; nra).
  assert (Hshift : (90 - a) * (PI / 180) = PI / 2 - x) by (subst x; field).
  rewrite Hshift, cos_shift.
  assert (Hsin : 0 < sin x) by (apply sin_gt_0; lra).
  assert (Hlt : sin x < cos x).
  { rewrite <- (sin_shift x).
    apply sin_increasing_1; lra. }
  assert (Hcos : cos x < 1).
  { rewrite <- cos_0.
    apply cos_decreasing_1; lra. }
  assert (Hsq : sin x * sin x + cos x * cos x = 1).
  { pose proof (sin2_cos2 x) as H; unfold Rsqr in H; exact H. }
  repeat split; try lra.
  intros v w; now apply Orthogonal_excludes_Parallel.
Qed.

(** ** The character *)

Lemma VectorPlaneProject_vadd (V W N : FVector) :
  VectorPlaneProject (V + W) N = (VectorPlaneProject V N + VectorPlaneProject W N)%vec.
Proof. unfold VectorPlaneProject, Dot; apply vec_eq; simpl; ring. Qed.

Lemma Dot_recompose (H V N : FVector) :
  SizeSquared N = 1 ->
  Dot (VectorPlaneProject H N + N *v Dot V N) N = Dot V N.
Proof.
  intros HN.
  rewrite Dot_vadd_l, Dot_VectorPlaneProject, Dot_vscale_l, HN.
  assert (Hd : Dot N N = 1) by exact HN.
  rewrite Hd; ring.
Qed.

(** X23.  For a unit actor axis, [LaunchCharacterRotated] launches a
    velocity whose part along the axis is the launch velocity's when the
    vertical override is set, the current velocity's when only the
    horizontal override is set, and their sum otherwise; and whose part
    orthogonal to the axis is the launch velocity's when the horizontal
    override is set, the current velocity's when only the vertical override
    is set, and their sum otherwise. *)
Theorem LaunchCharacterRotated_parts (N : ANinjaCharacter) (LaunchVelocity F : FVector)
    (bHorizontalOverride bVerticalOverride : bool) :
  SizeSquared (GetActorAxisZ N) = 1 ->
  LaunchCharacterRotated N LaunchVelocity bHorizontalOverride bVerticalOverride = Some F ->
  let AxisZ := GetActorAxisZ N in
  let V := GetVelocity N in
  Dot F AxisZ
  = (if bVerticalOverride then Dot LaunchVelocity AxisZ
     else if bHorizontalOverride then Dot V AxisZ
     else Dot V AxisZ + Dot LaunchVelocity AxisZ) /\
  VectorPlaneProject F AxisZ
  = (if bHorizontalOverride then VectorPlaneProject LaunchVelocity AxisZ
     else if bVerticalOverride then VectorPlaneProject V AxisZ
     else (VectorPlaneProject V AxisZ + VectorPlaneProject LaunchVelocity AxisZ)%vec).
Proof.
  intros Hunit Hlaunch AxisZ V; subst AxisZ V.
  unfold LaunchCharacterRotated in Hlaunch.
  destruct (GetCharacterMovement N) as [cm | ] eqn:Hcm; [ | discriminate ].
  set (A := GetActorAxisZ N) in *.
  destruct bHorizontalOverride, bVerticalOverride; simpl in Hlaunch;
    injection Hlaunch as <-.
  - split; reflexivity.
  - split; [ now apply Dot_recompose | now apply VectorPlaneProject_vadd_axis ].
  - split; [ now apply Dot_recompose | now apply VectorPlaneProject_vadd_axis ].
  - split; [ apply Dot_vadd_l | apply VectorPlaneProject_vadd ].
Qed.

Lemma LaunchCharacterRotated_parts_witness :
  exists F,
    LaunchCharacterRotated SampleNinja (MakeVector 0 30 700) true false = Some F /\
    Dot F (GetActorAxisZ SampleNinja) = 50.
Proof.
  assert (Hunit : SizeSquared (GetActorAxisZ SampleNinja) = 1)
    by (unfold SizeSquared; simpl; ring).
  eexists; split; [ reflexivity | ].
  rewrite (proj1 (LaunchCharacterRotated_parts SampleNinja (MakeVector 0 30 700) _
                    true false Hunit eq_refl)).
  unfold Dot; simpl; ring.
Defined.

(** X24.  For a unit actor axis, the impulse that [ApplyDamageMomentum]
    adds keeps the part of the damage impulse orthogonal to the axis, and
    its part along the axis is either unchanged or, when the character
    already rises faster than the default [JumpZVelocity] and the impulse
    points up, halved; it is never longer than the damage impulse. *)
Theorem ApplyDamageMomentum_limit (N : ANinjaCharacter) (DamageEvent : FDamageEvent)
    (Added : FVector) (bVelChange : bool) :
  SizeSquared (GetActorAxisZ N) = 1 ->
  ApplyDamageMomentum N DamageEvent = Some (Added, bVelChange) ->
  let AxisZ := GetActorAxisZ N in
  let Impulse := ImpulseDir DamageEvent *v DamageImpulse DamageEvent in
  VectorPlaneProject Added AxisZ = VectorPlaneProject Impulse AxisZ /\
  (Dot Added AxisZ = Dot Impulse AxisZ \/
   (Dot Added AxisZ = Dot Impulse AxisZ / 2 /\ 0 < Dot Impulse AxisZ)) /\
  SizeSquared Added <= SizeSquared Impulse.
Proof.
  intros Hunit Happly AxisZ Impulse; subst AxisZ.
  unfold ApplyDamageMomentum in Happly.
  destruct (GetCharacterMovement N) as [cm | ] eqn:Hcm; [ | discriminate ].
  destruct (Rltb 3 (DamageImpulse DamageEvent)); [ | discriminate ].
  fold Impulse in Happly.
  set (A := GetActorAxisZ N) in *.
  destruct (Rltb (Default_JumpZVelocity N) (Dot (Velocity (Core cm)) A)
            && Rltb 0 (Dot (if negb (negb (bScaleMomentumByMass DamageEvent))
                                  && Rltb SMALL_NUMBER (Mass N)
                               then Impulse /v Mass N else Impulse) A)) eqn:Elimit;
    injection Happly as <- _.
  - apply andb_true_iff in Elimit; destruct Elimit as [_ Hup].
    apply Rltb_true in Hup.
    assert (Hpos : 0 < Dot Impulse A).
    { destruct (negb (negb (bScaleMomentumByMass DamageEvent))
                && Rltb SMALL_NUMBER (Mass N)) eqn:Em; [ | exact Hup ].
      apply andb_true_iff in Em; destruct Em as [_ Hm].
      apply Rltb_true in Hm; unfold SMALL_NUMBER in Hm.
      unfold vdiv in Hup; fold (Impulse *v (1 / Mass N)) in Hup.
      rewrite Dot_vscale_l in Hup.
      assert (Hinv : 0 < 1 / Mass N) by (apply Rdiv_lt_0_compat; lra).
      nra. }
    assert (Hvert : Dot (VectorPlaneProject Impulse A + A *v (Dot Impulse A * (1 / 2))) A
                    = Dot Impulse A / 2).
    { rewrite Dot_vadd_l, Dot_VectorPlaneProject, Dot_vscale_l, Hunit.
      assert (Hd : Dot A A = 1) by exact Hunit.
      rewrite Hd; field. }
    split; [ now apply VectorPlaneProject_vadd_axis | ].
    split; [ right; split; assumption | ].
    assert (Hsz : SizeSquared (VectorPlaneProject Impulse A
                               + A *v (Dot Impulse A * (1 / 2)))
                  = SizeSquared Impulse - 3 / 4 * (Dot Impulse A * Dot Impulse A)).
    { transitivity (SizeSquared Impulse
                    - Dot Impulse A * Dot Impulse A * (2 - SizeSquared A)
                    + Dot Impulse A * Dot Impulse A * (1 - SizeSquared A)
                    + Dot Impulse A * Dot Impulse A * SizeSquared A / 4).
      - unfold VectorPlaneProject, SizeSquared, Dot; simpl; field.
      - rewrite Hunit; field. }
    rewrite Hsz; nra.
  - split; [ reflexivity | ].
    split; [ now left | lra ].
Qed.

Lemma ApplyDamageMomentum_limit_witness :
  let N := MakeNinja false
             (Some (set_Core SampleComponent
                      (set_Velocity SampleMovement (MakeVector 0 0 500))))
             true UpVector (MakeVector 0 0 500) 100 420 in
  let D := MakeDamage 800 true (MakeVector 0 0 1) in
  exists Added b,
    ApplyDamageMomentum N D = Some (Added, b) /\
    SizeSquared Added <= SizeSquared (ImpulseDir D *v DamageImpulse D).
Proof.
  intros N D.
  assert (Hunit : SizeSquared (GetActorAxisZ N) = 1)
    by (unfold SizeSquared; simpl; ring).
  destruct (ApplyDamageMomentum N D) as [[Added b] | ] eqn:Happly.
  - exists Added, b; split; [ reflexivity | ].
    exact (proj2 (proj2 (ApplyDamageMomentum_limit N D Added b Hunit Happly))).
  - exfalso; revert Happly; unfold ApplyDamageMomentum; simpl.
    assert (E : Rltb 3 800 = true) by (apply Rltb_true; lra).
    rewrite E; discriminate.
Defined.

(** ** Floors *)

Lemma FMath_Max_ge_l (a b : R) : a <= FMath_Max a b.
Proof. destruct (FMath_Max_cases a b) as [[H ->] | [H ->]]; lra. Qed.

Lemma IsWalkable_keeps (T : Type) (f : Movement -> T) (s : Movement) (Hit : FHitResult) :
  (forall (s0 : Movement) (a0 b0 : FVector), f (set_GravityVectors s0 a0 b0) = f s0) ->
  f (snd (IsWalkable s Hit)) = f s.
Proof.
  intros Hf; unfold IsWalkable.
  destruct (negb (IsValidBlockingHit Hit)); [ reflexivity | ].
  destruct (Rltb _ KINDA_SMALL_NUMBER); [ reflexivity | ].
  destruct (Rltb _ (TestWalkableZ s Hit)); [ reflexivity | ].
  destruct (negb (bLandOnAnySurface s) && IsFalling s); [ | reflexivity ].
  pose proof (GetGravityDirection_keeps T f false s Hf) as H.
  destruct (GetGravityDirection false s) as [g s']; simpl in *.
  now destruct (Rltb _ _).
Qed.

Lemma GetScaledCapsuleSize_IsWalkable (s : Movement) (Hit : FHitResult) :
  GetScaledCapsuleSize (snd (IsWalkable s Hit)) = GetScaledCapsuleSize s.
Proof.
  unfold GetScaledCapsuleSize.
  now rewrite (IsWalkable_keeps _ CharacterOwner s Hit (fun _ _ _ => eq_refl)).
Qed.

(** The sweep test returns with a floor inside the sweep distance, or
    leaves a result that is not walkable (or the one it was given). *)
Lemma ComputeFloorDist_sweep_spec (E : Engine) (W : World) (s : Movement)
    (CapsuleLocation : FVector) (SweepDistance SweepRadius : R) (Out : FFindFloorResult) :
  let r := ComputeFloorDist_sweep E W s CapsuleLocation SweepDistance SweepRadius Out in
  let Out' := snd (fst r) in
  GetScaledCapsuleSize (snd r) = GetScaledCapsuleSize s /\
  (fst (fst r) = true ->
   bLineTrace Out' = false /\
   - FMath_Max (MAX_FLOOR_DIST E) (fst (GetScaledCapsuleSize s)) <= FloorDist Out'
   /\ FloorDist Out' <= SweepDistance) /\
  (fst (fst r) = false -> Out' = Out \/ bWalkableFloor Out' = false).
Proof.
  unfold ComputeFloorDist_sweep.
  destruct (GetScaledCapsuleSize s) as [PawnRadius PawnHalfHeight] eqn:Hsize.
  cbv zeta.
  destruct (FloorSweepTest W s _ _ _ _) as [bHit Hit].
  destruct bHit; [ | simpl; repeat split; auto; discriminate ].
  destruct (if bStartPenetrating Hit || _ then _ else _) as [[Shrink2 Trace2] Hit2].
  destruct (IsValidBlockingHit Hit2);
    [ | simpl; repeat split; auto; discriminate ].
  pose proof (GetScaledCapsuleSize_IsWalkable s Hit2) as Hkeep.
  destruct (IsWalkable s Hit2) as [bWalkable s']; simpl in Hkeep.
  destruct (bWalkable && Rleb _ SweepDistance) eqn:Eok; simpl.
  - apply andb_true_iff in Eok; destruct Eok as [_ Hle]; apply Rleb_true in Hle.
    rewrite Hkeep, Hsize; repeat split; try discriminate; try assumption.
    apply FMath_Max_ge_l.
  - rewrite Hkeep, Hsize; repeat split; auto; discriminate.
Qed.

(** The line trace, started from a result that is not walkable, returns with
    a line result inside the line distance or with a result that is not
    walkable. *)
Lemma ComputeFloorDist_line_spec (E : Engine) (W : World) (s : Movement)
    (CapsuleLocation : FVector) (LineDistance : R) (Out : FFindFloorResult) :
  bWalkableFloor Out = false ->
  let r := ComputeFloorDist_line E W s CapsuleLocation LineDistance Out in
  let Out' := snd (fst r) in
  (bWalkableFloor Out' = true ->
   bLineTrace Out' = true /\
   - FMath_Max (MAX_FLOOR_DIST E) (fst (GetScaledCapsuleSize s)) <= LineDist Out'
   /\ LineDist Out' <= LineDistance).
Proof.
  intros Hnot; unfold ComputeFloorDist_line.
  destruct (GetScaledCapsuleSize s) as [PawnRadius PawnHalfHeight] eqn:Hsize.
  cbv zeta.
  destruct (LineTraceSingleByChannel W s _ _) as [bHit Hit].
  destruct bHit; [ | simpl; intros H; congruence ].
  destruct (Rltb 0 (Time Hit)); [ | simpl; intros H; congruence ].
  destruct (Rleb _ LineDistance) eqn:Ele; [ | simpl; intros H; congruence ].
  apply Rleb_true in Ele.
  destruct (IsWalkable s Hit) as [bWalkable s'].
  destruct bWalkable; [ | simpl; intros H; congruence ].
  unfold SetFromLineTrace; simpl.
  destruct (bBlockingHit (HitResult Out) && bBlockingHit Hit); simpl.
  - intros _; repeat split; try assumption.
    apply FMath_Max_ge_l.
  - intros H; congruence.
Qed.

(** X25.  Without a supplied sweep, a walkable floor answered by
    [ComputeFloorDist] was found by the sweep test, which therefore ran
    ([SweepDistance] and [SweepRadius] positive, [SweepDistance] not below
    [LineDistance]), and its distance [GetDistanceToFloor] lies between
    minus the largest penetration adjustment
    [max(MAX_FLOOR_DIST, capsule radius)] and [SweepDistance]; when the
    result comes from the line trace its line distance is at most
    [LineDistance]. *)
Theorem ComputeFloorDist_walkable_range (E : Engine) (W : World) (s : Movement)
    (CapsuleLocation : FVector) (LineDistance SweepDistance SweepRadius : R) :
  let Out :=
    fst (ComputeFloorDist E W s CapsuleLocation LineDistance SweepDistance SweepRadius
           None) in
  IsWalkableFloor Out = true ->
  - FMath_Max (MAX_FLOOR_DIST E) (fst (GetScaledCapsuleSize s)) <= GetDistanceToFloor Out /\
  GetDistanceToFloor Out <= SweepDistance /\
  LineDistance <= SweepDistance /\ 0 < SweepDistance /\ 0 < SweepRadius /\
  (bLineTrace Out = true -> 0 < LineDistance /\ LineDist Out <= LineDistance).
Proof.
  intros Out; subst Out.
  unfold ComputeFloorDist, ComputeFloorDist_supplied.
  destruct (GetScaledCapsuleSize s) as [PawnRadius PawnHalfHeight] eqn:Hsize.
  cbv iota beta zeta.
  destruct (Rltb SweepDistance LineDistance) eqn:Eorder;
    [ simpl; discriminate | ].
  apply Rltb_false in Eorder.
  destruct (negb false && Rltb 0 SweepDistance && Rltb 0 SweepRadius) eqn:Erun.
  - simpl in Erun; apply andb_true_iff in Erun; destruct Erun as [Hsd Hsr].
    apply Rltb_true in Hsd, Hsr.
    pose proof (ComputeFloorDist_sweep_spec E W s CapsuleLocation SweepDistance
                  SweepRadius FFindFloorResult_Clear) as Hsweep.
    destruct (ComputeFloorDist_sweep E W s CapsuleLocation SweepDistance SweepRadius
                FFindFloorResult_Clear) as [[bReturn2 Out2] s2].
    simpl in Hsweep; destruct Hsweep as (Hkeep & Hfound & Hmiss).
    rewrite Hsize in Hfound; simpl in Hfound.
    destruct bReturn2.
    + destruct (Hfound eq_refl) as (Hline & Hlo & Hhi); simpl.
      intros _; unfold GetDistanceToFloor; rewrite Hline.
      repeat split; try assumption; discriminate.
    + assert (Hnot : bWalkableFloor Out2 = false)
        by (destruct (Hmiss eq_refl) as [-> | H]; [ reflexivity | exact H ]).
      destruct (negb (Floor_bBlockingHit Out2)
                && negb (bStartPenetrating (HitResult Out2))).
      { simpl; unfold IsWalkableFloor; simpl; rewrite Hnot, andb_false_r; discriminate. }
      destruct (Rltb 0 LineDistance) eqn:Eline.
      * apply Rltb_true in Eline.
        pose proof (ComputeFloorDist_line_spec E W s2 CapsuleLocation LineDistance Out2
                      Hnot) as Hl.
        rewrite Hkeep, Hsize in Hl; simpl in Hl.
        destruct (ComputeFloorDist_line E W s2 CapsuleLocation LineDistance Out2)
          as [[bReturn3 Out3] s3]; simpl in Hl.
        destruct bReturn3; simpl.
        -- unfold IsWalkableFloor; intros Hw.
           apply andb_true_iff in Hw; destruct Hw as [_ Hw].
           destruct (Hl Hw) as (Hlt & Hlo & Hhi).
           unfold GetDistanceToFloor; rewrite Hlt.
           repeat split; try assumption; lra.
        -- unfold IsWalkableFloor; simpl; rewrite andb_false_r; discriminate.
      * simpl; unfold IsWalkableFloor; simpl; rewrite andb_false_r; discriminate.
  - simpl; unfold IsWalkableFloor; simpl; discriminate.
Qed.

Ltac decide_R :=
  repeat match goal with
         | |- context [Rltb ?a ?b] =>
             first [ rewrite (proj2 (Rltb_true a b)) by (simpl; lra)
                   | rewrite (proj2 (Rltb_false a b)) by (simpl; lra) ]
         | |- context [Rleb ?a ?b] =>
             first [ rewrite (proj2 (Rleb_true a b)) by (simpl; lra)
                   | rewrite (proj2 (Rleb_false a b)) by (simpl; lra) ]
         | |- context [Reqb ?a ?b] =>
             first [ rewrite (proj2 (Reqb_true a b)) by (simpl; lra)
                   | rewrite (proj2 (Reqb_false a b)) by (simpl; lra) ]
         end.

Lemma ComputeFloorDist_walkable_range_witness :
  GetDistanceToFloor
    (fst (ComputeFloorDist SampleEngine SampleWorld SampleMovement ZeroVector 2 4 34 None))
  <= 4.
Proof.
  assert (Hw : IsWalkableFloor
                 (fst (ComputeFloorDist SampleEngine SampleWorld SampleMovement
                         ZeroVector 2 4 34 None)) = true).
  { unfold ComputeFloorDist, ComputeFloorDist_supplied, ComputeFloorDist_sweep,
      IsWithinEdgeToleranceEx, IsWalkable, TestWalkableZ, GetDistanceToFloor,
      FMath_Square, FMath_Max, SizeSquared, Dot, KINDA_SMALL_NUMBER; simpl.
    decide_R; simpl; decide_R; simpl; decide_R; reflexivity. }
  exact (proj1 (proj2 (ComputeFloorDist_walkable_range SampleEngine SampleWorld
                         SampleMovement ZeroVector 2 4 34 Hw))).
Defined.

(** X26.  For a positive [InMaxFloorDist], [ComputePerchResult] returns
    true exactly when the perch floor it answers is a walkable floor, and
    then the floor lies within reach: the height of the hit above the
    capsule base plus the floor distance is at most [InMaxFloorDist]. *)
Theorem ComputePerchResult_spec (E : Engine) (W : World) (s : Movement) (TestRadius : R)
    (InHit : FHitResult) (InMaxFloorDist : R) (OutPerchFloorResult : FFindFloorResult) :
  0 < InMaxFloorDist ->
  let r := ComputePerchResult E W s TestRadius InHit InMaxFloorDist OutPerchFloorResult in
  let Out := snd (fst r) in
  fst (fst r) = IsWalkableFloor Out /\
  (fst (fst r) = true ->
   InHitAboveBase s InHit + FloorDist Out <= InMaxFloorDist).
Proof.
  intros Hpos r Out; subst Out r; unfold ComputePerchResult.
  apply Rleb_false in Hpos; rewrite Hpos.
  destruct (GetScaledCapsuleSize s) as [PawnRadius PawnHalfHeight].
  destruct (ComputeFloorDist E W s (Location InHit) _ _ TestRadius None) as [Out s'].
  destruct (IsWalkableFloor Out) eqn:Hw; simpl.
  - destruct (Rltb InMaxFloorDist (InHitAboveBase s InHit + FloorDist Out)) eqn:Efar;
      simpl.
    + unfold IsWalkableFloor; simpl; rewrite andb_false_r.
      split; [ reflexivity | discriminate ].
    + apply Rltb_false in Efar; rewrite Hw; split; [ reflexivity | intros _; lra ].
  - rewrite Hw; split; [ reflexivity | discriminate ].
Qed.

Lemma ComputePerchResult_spec_witness :
  let r := ComputePerchResult SampleEngine SampleWorld SampleMovement 34 SampleFloorHit 50
             SampleFloor in
  fst (fst r) = IsWalkableFloor (snd (fst r)).
Proof.
  assert (Hpos : 0 < 50) by lra.
  exact (proj1 (ComputePerchResult_spec SampleEngine SampleWorld SampleMovement 34
                  SampleFloorHit 50 SampleFloor Hpos)).
Defined.

Lemma IsWalkable_true_slope (s : Movement) (Hit : FHitResult) :
  fst (IsWalkable s Hit) = true ->
  IsValidBlockingHit Hit = true /\
  KINDA_SMALL_NUMBER <= Dot (ImpactNormal Hit) (GetComponentAxisZ s) /\
  TestWalkableZ s Hit <= Dot (ImpactNormal Hit) (GetComponentAxisZ s).
Proof.
  unfold IsWalkable.
  destruct (IsValidBlockingHit Hit); simpl; [ | discriminate ].
  destruct (Rltb _ KINDA_SMALL_NUMBER) eqn:E1; [ discriminate | ].
  destruct (Rltb _ (TestWalkableZ s Hit)) eqn:E2; [ discriminate | ].
  apply Rltb_false in E1, E2; auto.
Qed.

(** X27.  With a normalised rotation, a hit that [IsValidLandingSpot]
    accepts is a blocking hit.  If it does not start in penetration, its
    impact normal makes a walkable slope with the capsule axis, the impact
    point lies below the centre of the bottom hemisphere of the capsule
    and within the edge tolerance of the capsule axis; if it starts in
    penetration, its normal points up along the capsule axis by at least
    [KINDA_SMALL_NUMBER]. *)
Theorem IsValidLandingSpot_sound (E : Engine) (s : Movement) (CapsuleLocation : FVector)
    (Hit : FHitResult) :
  Quat_IsNormalized (ComponentQuat s) ->
  fst (IsValidLandingSpot E s CapsuleLocation Hit) = true ->
  let Up := GetComponentAxisZ s in
  let CapsuleDown := Up *v (-1) in
  let BottomPoint :=
    (Location Hit
     + CapsuleDown *v FMath_Max 0 (snd (GetScaledCapsuleSize s) - fst (GetScaledCapsuleSize s)))%vec in
  bBlockingHit Hit = true /\
  (bStartPenetrating Hit = false ->
   KINDA_SMALL_NUMBER <= Dot (ImpactNormal Hit) Up /\
   TestWalkableZ s Hit <= Dot (ImpactNormal Hit) Up /\
   0 < Dot (ImpactPoint Hit - BottomPoint) CapsuleDown /\
   IsWithinEdgeToleranceEx E (Location Hit) CapsuleDown (fst (GetScaledCapsuleSize s))
     (ImpactPoint Hit) = true) /\
  (bStartPenetrating Hit = true -> KINDA_SMALL_NUMBER <= Dot (Normal Hit) Up).
Proof.
  intros Hq Hvalid Up CapsuleDown BottomPoint.
  pose proof (Dot_axis_self _ Hq) as Huu; fold (GetComponentAxisZ s) in Huu; fold Up in Huu.
  unfold IsValidLandingSpot in Hvalid.
  destruct (bBlockingHit Hit); simpl in Hvalid; [ | discriminate ].
  split; [ reflexivity | ].
  unfold LandingSpot_precheck in Hvalid; fold Up CapsuleDown in Hvalid.
  destruct (bStartPenetrating Hit) eqn:Hpen; simpl in Hvalid.
  - split; [ discriminate | intros _ ].
    destruct (Rltb (- KINDA_SMALL_NUMBER) (Dot (Normal Hit) CapsuleDown)) eqn:En;
      [ discriminate | ].
    apply Rltb_false in En.
    subst CapsuleDown; rewrite Dot_vscale_r in En; lra.
  - split; [ intros _ | discriminate ].
    pose proof (IsWalkable_true_slope s Hit) as Hslope.
    pose proof (GetScaledCapsuleSize_IsWalkable s Hit) as Hkeep.
    destruct (IsWalkable s Hit) as [bWalkable s1]; simpl in *.
    destruct bWalkable; simpl in Hvalid; [ | discriminate ].
    destruct (Hslope eq_refl) as (_ & Hk & Hz).
    rewrite Hkeep in Hvalid.
    subst BottomPoint.
    destruct (GetScaledCapsuleSize s) as [PawnRadius PawnHalfHeight]; simpl in *.
    set (m := FMath_Max 0 (PawnHalfHeight - PawnRadius)) in *.
    set (BP := (Location Hit + CapsuleDown *v m)%vec) in *.
    destruct (Rleb 0 _) eqn:Ealpha; [ discriminate | ].
    destruct (IsWithinEdgeToleranceEx E (Location Hit) CapsuleDown PawnRadius
                (ImpactPoint Hit)); simpl in Hvalid; [ | discriminate ].
    repeat split; try assumption.
    apply Rleb_false in Ealpha.
    assert (Hm : 0 <= m) by (subst m; apply FMath_Max_ge_l).
    assert (Hdd : Dot CapsuleDown CapsuleDown = 1).
    { subst CapsuleDown; rewrite Dot_vscale_l, Dot_vscale_r, Huu; ring. }
    assert (Hseg : (Location Hit - CapsuleDown - BP)%vec = CapsuleDown *v (- (1 + m))).
    { subst BP; apply vec_eq; simpl; ring. }
    rewrite Hseg in Ealpha.
    rewrite Dot_vscale_r, SizeSquared_vscale in Ealpha.
    assert (Hss : SizeSquared CapsuleDown = 1) by exact Hdd.
    rewrite Hss in Ealpha.
    replace (- (1 + m) * Dot (ImpactPoint Hit - BP) CapsuleDown
             / (- (1 + m) * - (1 + m) * 1))
      with (- Dot (ImpactPoint Hit - BP) CapsuleDown / (1 + m)) in Ealpha
      by (field; lra).
    assert (Hinv : 0 < / (1 + m)) by (apply Rinv_0_lt_compat; lra).
    unfold Rdiv in Ealpha.
    nra.
Qed.

Lemma IsValidLandingSpot_sound_witness :
  KINDA_SMALL_NUMBER
  <= Dot (ImpactNormal SampleFloorHit) (GetComponentAxisZ SampleMovement).
Proof.
  assert (Hq : Quat_IsNormalized (ComponentQuat SampleMovement))
    by (unfold Quat_IsNormalized; simpl; lra).
  assert (Hvalid : fst (IsValidLandingSpot GroundEngine SampleMovement ZeroVector
                          SampleFloorHit) = true).
  { unfold IsValidLandingSpot, LandingSpot_precheck, IsWithinEdgeToleranceEx,
      IsWalkable, TestWalkableZ, FMath_Square, FMath_Max, SizeSquared, Dot,
      KINDA_SMALL_NUMBER; simpl.
    decide_R; simpl; decide_R; simpl; decide_R; reflexivity. }
  exact (proj1 (proj1 (proj2 (IsValidLandingSpot_sound GroundEngine SampleMovement
                                ZeroVector SampleFloorHit Hq Hvalid)) eq_refl)).
Defined.

(** ** The physics volume *)

(** X28.  A component with valid data and a gravity volume with the same
    gravity settings (scale, mode, vectors, gravity actor) and the same
    engine gravity compute the same gravity and the same gravity direction
    at the component's location: always in the fixed, point, line,
    segment, plane and box modes; in the spline modes when the gravity
    actor is alive and has a spline component; in the collision mode when
    the gravity actor is alive and its collision is at a positive
    distance. *)
Theorem Volume_component_gravity_agree (V : ANinjaPhysicsVolume) (s : Movement) :
  HasValidData s = true ->
  GravityScale s = Volume_GravityScale V ->
  GravityDirectionMode s = Volume_GravityDirectionMode V ->
  GravityVectorA s = Volume_GravityVectorA V ->
  GravityVectorB s = Volume_GravityVectorB V ->
  GravityActor s = Volume_GravityActor V ->
  GetGravityZ (PhysicsVolume s) = Volume_GetGravityZ V ->
  let Agree :=
    fst (GetGravity s) = Volume_GetGravity V (ComponentLocation s) /\
    fst (GetGravityDirection false s)
    = Volume_GetGravityDirection V (ComponentLocation s) in
  match Volume_GravityDirectionMode V with
  | SplineTangent | Spline | SplinePlane =>
      (exists a Sp, LiveActor (Volume_GravityActor V) = Some a /\
                    GetSplineComponent a = Some Sp) -> Agree
  | Collision =>
      (exists a, LiveActor (Volume_GravityActor V) = Some a /\
                 0 < fst (GetClosestPointOnCollision a (ComponentLocation s))) -> Agree
  | _ => Agree
  end.
Proof.
  intros Hvalid Hscale Hmode Ha Hb Hactor Hgz Agree; subst Agree.
  assert (HL : LiveGravityActor s = LiveActor (Volume_GravityActor V))
    by (unfold LiveGravityActor, LiveActor; now rewrite Hactor).
  unfold GetGravity, GetGravityDirection, Volume_GetGravity, Volume_GetGravityDirection,
    GravityDirectionSwitch, LiveGravitySpline, Volume_Spline, GravityScaleSign.
  rewrite Hvalid, Hmode, HL, Hscale, Hgz.
  remember (LiveActor (Volume_GravityActor V)) as L eqn:HLdef.
  cbn [negb].
  destruct (Reqb (Volume_GravityScale V) 0) eqn:Ezero; cbn [negb].
  { destruct (Volume_GravityDirectionMode V); try (intros _); split; reflexivity. }
  destruct (Volume_GravityDirectionMode V);
    try (cbn [fst snd]; rewrite ?Ha, ?Hb; split; reflexivity);
    try (intros (a & Sp & Hlive & Hsp); rewrite Hlive, Hsp; simpl; split; reflexivity).
  - intros (a & Sp & Hlive & Hsp); rewrite Hlive, Hsp; simpl; split; [ | reflexivity ].
    destruct (IsZero (FindDirectionClosestToWorldLocation Sp (ComponentLocation s))) eqn:Ez;
      simpl; [ | reflexivity ].
    apply IsZero_true in Ez; rewrite Ez; now rewrite vscale_ZeroVector.
  - destruct L; simpl; rewrite ?Ha; split; reflexivity.
  - destruct L as [g | ]; simpl.
    + destruct (GetActorBounds g); split; reflexivity.
    + rewrite Ha, Hb; split; reflexivity.
  - intros (a & Hlive & Hdist); rewrite Hlive; simpl.
    apply Rltb_true in Hdist; rewrite Hdist; simpl; split; reflexivity.
Qed.

Lemma Volume_component_gravity_agree_witness :
  fst (GetGravity SampleMovement)
  = Volume_GetGravity SampleNinjaVolume (ComponentLocation SampleMovement).
Proof.
  exact (proj1 (Volume_component_gravity_agree SampleNinjaVolume SampleMovement
                  eq_refl eq_refl eq_refl eq_refl eq_refl eq_refl eq_refl)).
Defined.

(** *** Setters seen from outside *)

Lemma AssignGravityDirection_fields (c : NinjaComponent) (bDirty : bool)
    (m : ENinjaGravityDirectionMode) (a b : FVector) (g : option AActor) :
  let c' := fst (AssignGravityDirection c bDirty m a b g) in
  GravityDirectionMode (Core c') = m /\ GravityVectorA (Core c') = a /\
  GravityVectorB (Core c') = b /\ GravityActor (Core c') = g /\
  GravityScale (Core c') = GravityScale (Core c).
Proof. unfold AssignGravityDirection; destruct bDirty; simpl; auto. Qed.

Ltac setter_post :=
  unfold AssignGravityDirection;
  match goal with
  | |- context [if ?g then (?c, []) else _] =>
      let G := fresh "G" in
      destruct g eqn:G;
      [ rewrite ?orb_true_iff, ?andb_true_iff in G;
        repeat match goal with
               | H : _ /\ _ |- _ => destruct H
               | H : _ \/ _ |- _ => destruct H
               end;
        repeat match goal with
               | H : InMode _ _ = true |- _ => apply InMode_true in H
               | H : vec_eqb _ _ = true |- _ => apply vec_eqb_true in H
               | H : IsZero _ = true |- _ => apply IsZero_true in H
               end
      | ]
  end;
  simpl; rewrite ?SameActor_refl; try congruence; auto.

Lemma SetFixedGravityDirection_post (c : NinjaComponent) (v : FVector) :
  IsZero v = false ->
  let c' := fst (SetFixedGravityDirection c v) in
  GravityDirectionMode (Core c') = Fixed /\ GravityVectorA (Core c') = v.
Proof.
  intros Hv; unfold SetFixedGravityDirection; rewrite Hv; simpl.
  setter_post.
Qed.

Lemma SetPointGravityDirection_post (c : NinjaComponent) (v : FVector) :
  let c' := fst (SetPointGravityDirection c v) in
  GravityDirectionMode (Core c') = Point /\ GravityVectorA (Core c') = v.
Proof. unfold SetPointGravityDirection; setter_post. Qed.

Lemma SetTwoPointGravityDirection_post (m : ENinjaGravityDirectionMode)
    (c : NinjaComponent) (a b : FVector) :
  a <> b ->
  let c' := fst (SetTwoPointGravityDirection m c a b) in
  GravityDirectionMode (Core c') = m /\ GravityVectorA (Core c') = a /\
  GravityVectorB (Core c') = b.
Proof.
  intros Hab; unfold SetTwoPointGravityDirection.
  assert (E : vec_eqb a b = false).
  { destruct (vec_eqb a b) eqn:E; [ apply vec_eqb_true in E; contradiction | reflexivity ]. }
  rewrite E; simpl.
  setter_post.
Qed.

Lemma SetPlaneGravityDirection_post (c : NinjaComponent) (a b : FVector) :
  IsZero b = false ->
  let c' := fst (SetPlaneGravityDirection c a b) in
  GravityDirectionMode (Core c') = Plane /\ GravityVectorA (Core c') = a /\
  GravityVectorB (Core c') = b.
Proof.
  intros Hb; unfold SetPlaneGravityDirection; rewrite Hb; simpl.
  setter_post.
Qed.

Lemma SetBoxGravityDirection_post (c : NinjaComponent) (a b : FVector) :
  let c' := fst (SetBoxGravityDirection c a b) in
  GravityDirectionMode (Core c') = Box /\ GravityVectorA (Core c') = a /\
  GravityVectorB (Core c') = b.
Proof. unfold SetBoxGravityDirection; setter_post. Qed.

Lemma SetSplineActorGravityDirection_post (A : Actors) (m : ENinjaGravityDirectionMode)
    (c : NinjaComponent) (a : AActor) (Sp : USplineComponent) :
  GetSplineComponent a = Some Sp ->
  let c' := fst (SetSplineActorGravityDirection A m c (Some a)) in
  GravityDirectionMode (Core c') = m /\
  SameActor A (GravityActor (Core c')) (Some a) = true.
Proof.
  intros Hs; unfold SetSplineActorGravityDirection; rewrite Hs.
  destruct (InMode c m && SameActor A (GravityActor (Core c)) (Some a)) eqn:G.
  - apply andb_true_iff in G; destruct G as [Hm Hsame].
    apply InMode_true in Hm; simpl; auto.
  - unfold AssignGravityDirection; simpl; rewrite Nat.eqb_refl; auto.
Qed.

Lemma SetFromActorGravityDirection_post (A : Actors) (c : NinjaComponent)
    (g : option AActor) :
  (let c' := fst (SetPointGravityDirectionFromActor A c g) in
   GravityDirectionMode (Core c') = Point /\
   SameActor A (GravityActor (Core c')) g = true) /\
  (let c' := fst (SetBoxGravityDirectionFromActor A c g) in
   GravityDirectionMode (Core c') = Box /\
   SameActor A (GravityActor (Core c')) g = true).
Proof.
  split.
  - unfold SetPointGravityDirectionFromActor.
    destruct (InMode c Point && SameActor A (GravityActor (Core c)) g) eqn:G.
    + apply andb_true_iff in G; destruct G as [Hm Hsame].
      apply InMode_true in Hm; simpl; auto.
    + unfold AssignGravityDirection; simpl; rewrite SameActor_refl; auto.
  - unfold SetBoxGravityDirectionFromActor.
    destruct (InMode c Box && SameActor A (GravityActor (Core c)) g) eqn:G.
    + apply andb_true_iff in G; destruct G as [Hm Hsame].
      apply InMode_true in Hm; simpl; auto.
    + unfold AssignGravityDirection; simpl; rewrite SameActor_refl; auto.
Qed.

Lemma SetCollisionGravityDirection_post (A : Actors) (c : NinjaComponent) (a : AActor) :
  HasRootPrimitive A a = true ->
  let c' := fst (SetCollisionGravityDirection A c (Some a)) in
  GravityDirectionMode (Core c') = Collision /\
  SameActor A (GravityActor (Core c')) (Some a) = true.
Proof.
  intros Hp; unfold SetCollisionGravityDirection; rewrite Hp.
  destruct (InMode c Collision && SameActor A (GravityActor (Core c)) (Some a)) eqn:G.
  - apply andb_true_iff in G; destruct G as [Hm Hsame].
    apply InMode_true in Hm; simpl; auto.
  - unfold AssignGravityDirection; simpl; rewrite Nat.eqb_refl; auto.
Qed.

(** *** The heap of characters *)

Lemma nth_error_heap_update_eq (H : NinjaHeap) (p : nat) (N N0 : ANinjaCharacter) :
  nth_error H p = Some N0 -> nth_error (heap_update H p N) p = Some N.
Proof.
  revert p; induction H as [ | X0 T IH ]; intros [ | q ]; simpl; intros Hp;
    try discriminate; auto.
Qed.

Lemma nth_error_heap_update_neq (H : NinjaHeap) (p q : nat) (N : ANinjaCharacter) :
  q <> p -> nth_error (heap_update H p N) q = nth_error H q.
Proof.
  revert p q; induction H as [ | X0 T IH ]; intros [ | p ] [ | q ]; simpl; intros Hne;
    try reflexivity; try contradiction.
  apply IH; congruence.
Qed.

Lemma ApplyToNinja_preserves
    (f : NinjaComponent -> NinjaComponent * list GravityNotification)
    (P : NinjaComponent -> Prop) (H : NinjaHeap) (Ninja : option nat) (p : nat) :
  (forall c, P (fst (f c))) ->
  NinjaAt H p P -> NinjaAt (fst (ApplyToNinja f H Ninja)) p P.
Proof.
  intros Hf Hat; unfold ApplyToNinja.
  destruct Ninja as [q | ]; [ | exact Hat ].
  destruct (nth_error H q) as [N | ] eqn:Hq; [ | exact Hat ].
  destruct (Ninja_IsPendingKill N) eqn:Hkill; simpl; [ exact Hat | ].
  destruct (GetCharacterMovement N) as [c | ] eqn:Hc; [ | exact Hat ].
  destruct (f c) as [c' n] eqn:Hfc; simpl.
  intros N1 c1 Hn1 Hlive Hc1.
  destruct (Nat.eq_dec p q) as [-> | Hne].
  - rewrite (nth_error_heap_update_eq H q _ N Hq) in Hn1.
    injection Hn1 as <-; simpl in Hc1; injection Hc1 as <-.
    specialize (Hf c); now rewrite Hfc in Hf.
  - rewrite nth_error_heap_update_neq in Hn1 by exact Hne.
    exact (Hat N1 c1 Hn1 Hlive Hc1).
Qed.

Lemma ApplyToNinja_establishes
    (f : NinjaComponent -> NinjaComponent * list GravityNotification)
    (P : NinjaComponent -> Prop) (H : NinjaHeap) (p : nat) :
  (forall c, P (fst (f c))) ->
  NinjaAt (fst (ApplyToNinja f H (Some p))) p P.
Proof.
  intros Hf; unfold ApplyToNinja.
  destruct (nth_error H p) as [N | ] eqn:Hp;
    [ | intros N1 c1 Hn1; simpl in Hn1; congruence ].
  destruct (Ninja_IsPendingKill N) eqn:Hkill; simpl.
  { intros N1 c1 Hn1 Hlive; congruence. }
  destruct (GetCharacterMovement N) as [c | ] eqn:Hc.
  - destruct (f c) as [c' n] eqn:Hfc; simpl.
    intros N1 c1 Hn1 Hlive Hc1.
    rewrite (nth_error_heap_update_eq H p _ N Hp) in Hn1.
    injection Hn1 as <-; simpl in Hc1; injection Hc1 as <-.
    specialize (Hf c); now rewrite Hfc in Hf.
  - intros N1 c1 Hn1 Hlive Hc1; simpl in Hn1; congruence.
Qed.

Lemma ForEachTrackedNinja_preserves
    (f : NinjaComponent -> NinjaComponent * list GravityNotification)
    (P : NinjaComponent -> Prop) (Tracked : list (option nat)) (p : nat) :
  (forall c, P (fst (f c))) ->
  forall H : NinjaHeap,
    NinjaAt H p P -> NinjaAt (fst (ForEachTrackedNinja f Tracked H)) p P.
Proof.
  intros Hf; induction Tracked as [ | Ninja Rest IH ]; intros H Hat; simpl.
  - exact Hat.
  - pose proof (ApplyToNinja_preserves f P H Ninja p Hf Hat) as H1.
    destruct (ApplyToNinja f H Ninja) as [H1' n1]; simpl in H1.
    specialize (IH H1' H1).
    destruct (ForEachTrackedNinja f Rest H1') as [H2 n2]; exact IH.
Qed.

(** After the loop every tracked address holds a character that has been
    through the setter, whatever its place in the list and however often it
    occurs. *)
Lemma ForEachTrackedNinja_all
    (f : NinjaComponent -> NinjaComponent * list GravityNotification)
    (P : NinjaComponent -> Prop) (Tracked : list (option nat)) :
  (forall c, P (fst (f c))) ->
  forall (H : NinjaHeap) (p : nat),
    In (Some p) Tracked -> NinjaAt (fst (ForEachTrackedNinja f Tracked H)) p P.
Proof.
  intros Hf; induction Tracked as [ | Ninja Rest IH ]; intros H p Hin; simpl.
  - contradiction.
  - destruct Hin as [-> | Hin].
    + pose proof (ApplyToNinja_establishes f P H p Hf) as H1.
      destruct (ApplyToNinja f H (Some p)) as [H1' n1]; simpl in H1.
      pose proof (ForEachTrackedNinja_preserves f P Rest p Hf H1' H1) as H2.
      destruct (ForEachTrackedNinja f Rest H1') as [H2' n2]; exact H2.
    + destruct (ApplyToNinja f H Ninja) as [H1' n1].
      specialize (IH H1' p Hin).
      destruct (ForEachTrackedNinja f Rest H1') as [H2' n2]; exact IH.
Qed.

Lemma Volume_AssignGravityDirection_result (V : ANinjaPhysicsVolume) (H : NinjaHeap)
    (m : ENinjaGravityDirectionMode) (a b : FVector) (g : option AActor)
    (f : NinjaComponent -> NinjaComponent * list GravityNotification)
    (P : NinjaComponent -> Prop) :
  (forall c, P (fst (f c))) ->
  let r := Volume_AssignGravityDirection V H m a b g f in
  Volume_GravityDirectionMode (fst (fst r)) = m /\
  Volume_GravityVectorA (fst (fst r)) = a /\
  Volume_GravityVectorB (fst (fst r)) = b /\
  Volume_GravityActor (fst (fst r)) = g /\
  TrackedNinjas (fst (fst r)) = TrackedNinjas V /\
  AllTrackedNinjas (fst (fst r)) (snd (fst r)) P.
Proof.
  intros Hf; unfold Volume_AssignGravityDirection; simpl.
  pose proof (ForEachTrackedNinja_all f P (TrackedNinjas V) Hf H) as Hall.
  destruct (ForEachTrackedNinja f (TrackedNinjas V) H) as [H' n]; simpl in *.
  repeat split.
  intros p N c Hin; exact (Hall p Hin N c).
Qed.

Lemma vec_eqb_false (a b : FVector) : vec_eqb a b = false -> a <> b.
Proof. intros E ->; rewrite vec_eqb_refl in E; discriminate. Qed.

(** X30.  A setter of the volume either ignores the call (an unusable
    argument, or the volume already has the setting) and then changes
    nothing, or it stores the setting in the volume and leaves every tracked
    Ninja that is alive with the same mode and the same data, wherever the
    Ninja is in the list and however often; the list itself is kept.
    [SetGravityScale] always stores the scale, in the volume and in every
    tracked Ninja. *)
Theorem Volume_setters_reach_tracked_Ninjas (A : Actors) (V : ANinjaPhysicsVolume)
    (H : NinjaHeap) (v a b : FVector) (g : option AActor) (k : R) :
  VolumeSetterResult V H
    (IsZero v || (Volume_InMode V Fixed && vec_eqb (Volume_GravityVectorA V) v))
    (Volume_SetFixedGravityDirection V H v)
    (fun V' => Volume_GravityDirectionMode V' = Fixed /\ Volume_GravityVectorA V' = v)
    (fun c => GravityDirectionMode (Core c) = Fixed /\ GravityVectorA (Core c) = v) /\
  VolumeSetterResult V H
    (Volume_InMode V Point && vec_eqb (Volume_GravityVectorA V) v)
    (Volume_SetPointGravityDirection V H v)
    (fun V' => Volume_GravityDirectionMode V' = Point /\ Volume_GravityVectorA V' = v /\
               Volume_GravityActor V' = None)
    (fun c => GravityDirectionMode (Core c) = Point /\ GravityVectorA (Core c) = v) /\
  (forall m,
     VolumeSetterResult V H
       (vec_eqb a b
        || (Volume_InMode V m && vec_eqb (Volume_GravityVectorA V) a
            && vec_eqb (Volume_GravityVectorB V) b))
       (Volume_SetTwoPointGravityDirection m V H a b)
       (fun V' => Volume_GravityDirectionMode V' = m /\ Volume_GravityVectorA V' = a /\
                  Volume_GravityVectorB V' = b)
       (fun c => GravityDirectionMode (Core c) = m /\ GravityVectorA (Core c) = a /\
                 GravityVectorB (Core c) = b)) /\
  VolumeSetterResult V H
    (IsZero b
     || (Volume_InMode V Plane && vec_eqb (Volume_GravityVectorA V) a
         && vec_eqb (Volume_GravityVectorB V) b))
    (Volume_SetPlaneGravityDirection V H a b)
    (fun V' => Volume_GravityDirectionMode V' = Plane /\ Volume_GravityVectorA V' = a /\
               Volume_GravityVectorB V' = b)
    (fun c => GravityDirectionMode (Core c) = Plane /\ GravityVectorA (Core c) = a /\
              GravityVectorB (Core c) = b) /\
  VolumeSetterResult V H
    (Volume_InMode V Box && vec_eqb (Volume_GravityVectorA V) a
     && vec_eqb (Volume_GravityVectorB V) b)
    (Volume_SetBoxGravityDirection V H a b)
    (fun V' => Volume_GravityDirectionMode V' = Box /\ Volume_GravityVectorA V' = a /\
               Volume_GravityVectorB V' = b /\ Volume_GravityActor V' = None)
    (fun c => GravityDirectionMode (Core c) = Box /\ GravityVectorA (Core c) = a /\
              GravityVectorB (Core c) = b) /\
  (forall m,
     VolumeSetterResult V H
       match g with
       | Some x =>
           (Volume_InMode V m && SameActor A (Volume_GravityActor V) g)
           || match GetSplineComponent x with Some _ => false | None => true end
       | None => true
       end
       (Volume_SetSplineActorGravityDirection A m V H g)
       (fun V' => Volume_GravityDirectionMode V' = m /\ Volume_GravityActor V' = g)
       (fun c => GravityDirectionMode (Core c) = m /\
                 SameActor A (GravityActor (Core c)) g = true)) /\
  VolumeSetterResult V H
    (Volume_InMode V Point && SameActor A (Volume_GravityActor V) g)
    (Volume_SetPointGravityDirectionFromActor A V H g)
    (fun V' => Volume_GravityDirectionMode V' = Point /\ Volume_GravityActor V' = g)
    (fun c => GravityDirectionMode (Core c) = Point /\
              SameActor A (GravityActor (Core c)) g = true) /\
  VolumeSetterResult V H
    (Volume_InMode V Box && SameActor A (Volume_GravityActor V) g)
    (Volume_SetBoxGravityDirectionFromActor A V H g)
    (fun V' => Volume_GravityDirectionMode V' = Box /\ Volume_GravityActor V' = g)
    (fun c => GravityDirectionMode (Core c) = Box /\
              SameActor A (GravityActor (Core c)) g = true) /\
  VolumeSetterResult V H
    match g with
    | Some x =>
        (Volume_InMode V Collision && SameActor A (Volume_GravityActor V) g)
        || negb (HasRootPrimitive A x)
    | None => true
    end
    (Volume_SetCollisionGravityDirection A V H g)
    (fun V' => Volume_GravityDirectionMode V' = Collision /\ Volume_GravityActor V' = g)
    (fun c => GravityDirectionMode (Core c) = Collision /\
              SameActor A (GravityActor (Core c)) g = true) /\
  (let r := Volume_SetGravityScale V H k in
   Volume_GravityScale (fst r) = k /\
   TrackedNinjas (fst r) = TrackedNinjas V /\
   AllTrackedNinjas (fst r) (snd r) (fun c => GravityScale (Core c) = k)).
Proof.
  repeat match goal with |- _ /\ _ => split end.
  - unfold VolumeSetterResult, Volume_SetFixedGravityDirection.
    destruct (IsZero v) eqn:Hz; cbn [orb]; [ reflexivity | ].
    destruct (Volume_InMode V Fixed && vec_eqb (Volume_GravityVectorA V) v);
      [ reflexivity | ].
    pose proof (Volume_AssignGravityDirection_result V H Fixed v (Volume_GravityVectorB V)
                  (Volume_GravityActor V) (fun c => SetFixedGravityDirection c v)
                  (fun c => GravityDirectionMode (Core c) = Fixed /\
                            GravityVectorA (Core c) = v)
                  (fun c => SetFixedGravityDirection_post c v Hz)) as R.
    cbv zeta in R; tauto.
  - unfold VolumeSetterResult, Volume_SetPointGravityDirection.
    destruct (Volume_InMode V Point && vec_eqb (Volume_GravityVectorA V) v);
      [ reflexivity | ].
    pose proof (Volume_AssignGravityDirection_result V H Point v (Volume_GravityVectorB V)
                  None (fun c => SetPointGravityDirection c v)
                  (fun c => GravityDirectionMode (Core c) = Point /\
                            GravityVectorA (Core c) = v)
                  (fun c => SetPointGravityDirection_post c v)) as R.
    cbv zeta in R; tauto.
  - intros m; unfold VolumeSetterResult, Volume_SetTwoPointGravityDirection.
    destruct (vec_eqb a b) eqn:Hab; cbn [orb]; [ reflexivity | ].
    apply vec_eqb_false in Hab.
    destruct (Volume_InMode V m && vec_eqb (Volume_GravityVectorA V) a
              && vec_eqb (Volume_GravityVectorB V) b); [ reflexivity | ].
    pose proof (Volume_AssignGravityDirection_result V H m a b (Volume_GravityActor V)
                  (fun c => SetTwoPointGravityDirection m c a b)
                  (fun c => GravityDirectionMode (Core c) = m /\
                            GravityVectorA (Core c) = a /\ GravityVectorB (Core c) = b)
                  (fun c => SetTwoPointGravityDirection_post m c a b Hab)) as R.
    cbv zeta in R; tauto.
  - unfold VolumeSetterResult, Volume_SetPlaneGravityDirection.
    destruct (IsZero b) eqn:Hz; cbn [orb]; [ reflexivity | ].
    destruct (Volume_InMode V Plane && vec_eqb (Volume_GravityVectorA V) a
              && vec_eqb (Volume_GravityVectorB V) b); [ reflexivity | ].
    pose proof (Volume_AssignGravityDirection_result V H Plane a b (Volume_GravityActor V)
                  (fun c => SetPlaneGravityDirection c a b)
                  (fun c => GravityDirectionMode (Core c) = Plane /\
                            GravityVectorA (Core c) = a /\ GravityVectorB (Core c) = b)
                  (fun c => SetPlaneGravityDirection_post c a b Hz)) as R.
    cbv zeta in R; tauto.
  - unfold VolumeSetterResult, Volume_SetBoxGravityDirection.
    destruct (Volume_InMode V Box && vec_eqb (Volume_GravityVectorA V) a
              && vec_eqb (Volume_GravityVectorB V) b); [ reflexivity | ].
    pose proof (Volume_AssignGravityDirection_result V H Box a b None
                  (fun c => SetBoxGravityDirection c a b)
                  (fun c => GravityDirectionMode (Core c) = Box /\
                            GravityVectorA (Core c) = a /\ GravityVectorB (Core c) = b)
                  (fun c => SetBoxGravityDirection_post c a b)) as R.
    cbv zeta in R; tauto.
  - intros m; unfold VolumeSetterResult, Volume_SetSplineActorGravityDirection.
    destruct g as [x | ]; [ | reflexivity ].
    destruct (Volume_InMode V m && SameActor A (Volume_GravityActor V) (Some x));
      cbn [orb]; [ reflexivity | ].
    destruct (GetSplineComponent x) as [Sp | ] eqn:Hsp; [ | reflexivity ].
    pose proof (Volume_AssignGravityDirection_result V H m (Volume_GravityVectorA V)
                  (Volume_GravityVectorB V) (Some x)
                  (fun c => SetSplineActorGravityDirection A m c (Some x))
                  (fun c => GravityDirectionMode (Core c) = m /\
                            SameActor A (GravityActor (Core c)) (Some x) = true)
                  (fun c => SetSplineActorGravityDirection_post A m c x Sp Hsp)) as R.
    cbv zeta in R; tauto.
  - unfold VolumeSetterResult, Volume_SetPointGravityDirectionFromActor.
    destruct (Volume_InMode V Point && SameActor A (Volume_GravityActor V) g);
      [ reflexivity | ].
    pose proof (Volume_AssignGravityDirection_result V H Point (Volume_GravityVectorA V)
                  (Volume_GravityVectorB V) g
                  (fun c => SetPointGravityDirectionFromActor A c g)
                  (fun c => GravityDirectionMode (Core c) = Point /\
                            SameActor A (GravityActor (Core c)) g = true)
                  (fun c => proj1 (SetFromActorGravityDirection_post A c g))) as R.
    cbv zeta in R; tauto.
  - unfold VolumeSetterResult, Volume_SetBoxGravityDirectionFromActor.
    destruct (Volume_InMode V Box && SameActor A (Volume_GravityActor V) g);
      [ reflexivity | ].
    pose proof (Volume_AssignGravityDirection_result V H Box (Volume_GravityVectorA V)
                  (Volume_GravityVectorB V) g
                  (fun c => SetBoxGravityDirectionFromActor A c g)
                  (fun c => GravityDirectionMode (Core c) = Box /\
                            SameActor A (GravityActor (Core c)) g = true)
                  (fun c => proj2 (SetFromActorGravityDirection_post A c g))) as R.
    cbv zeta in R; tauto.
  - unfold VolumeSetterResult, Volume_SetCollisionGravityDirection.
    destruct g as [x | ]; [ | reflexivity ].
    destruct (Volume_InMode V Collision && SameActor A (Volume_GravityActor V) (Some x));
      cbn [orb]; [ reflexivity | ].
    destruct (HasRootPrimitive A x) eqn:Hp; cbn [negb]; [ | reflexivity ].
    pose proof (Volume_AssignGravityDirection_result V H Collision
                  (Volume_GravityVectorA V) (Volume_GravityVectorB V) (Some x)
                  (fun c => SetCollisionGravityDirection A c (Some x))
                  (fun c => GravityDirectionMode (Core c) = Collision /\
                            SameActor A (GravityActor (Core c)) (Some x) = true)
                  (fun c => SetCollisionGravityDirection_post A c x Hp)) as R.
    cbv zeta in R; tauto.
  - unfold Volume_SetGravityScale; cbn [fst snd].
    split; [ reflexivity | split; [ reflexivity | ] ].
    intros p N c Hin.
    exact (ForEachTrackedNinja_all
             (fun c0 => (set_Core c0 (set_GravityScale (Core c0) k), []))
             (fun c0 => GravityScale (Core c0) = k)
             (TrackedNinjas V) (fun c0 => eq_refl) H p Hin N c).
Qed.

(** *** Entering and leaving *)

(** The setters of the gravity direction touch nothing but the gravity
    direction: the movement mode, the updated component and the gravity
    scale are kept. *)
Ltac setter_frame :=
  unfold AssignGravityDirection;
  repeat match goal with
         | |- context [if ?g then _ else _] => destruct g
         | |- context [match ?x with Some _ => _ | None => _ end] => destruct x
         end;
  simpl; auto.

Lemma ActorEnteredVolume_Settings_frame (A : Actors) (V : ANinjaPhysicsVolume)
    (c : NinjaComponent) :
  let c' := fst (ActorEnteredVolume_Settings A V c) in
  MovementMode (Core c') = MovementMode (Core c) /\
  bUpdatedComponent (Core c') = bUpdatedComponent (Core c) /\
  GravityScale (Core c') = Volume_GravityScale V.
Proof.
  unfold ActorEnteredVolume_Settings, Volume_GetGravityScale.
  destruct (Volume_GravityDirectionMode V);
    try (simpl; auto; fail);
    destruct (LiveActor (Volume_GravityActor V)) as [g | ];
    unfold SetFixedGravityDirection, SetSplineTangentGravityDirection,
      SetSplineGravityDirection, SetSplinePlaneGravityDirection,
      SetSplineActorGravityDirection, SetPointGravityDirection,
      SetPointGravityDirectionFromActor, SetLineGravityDirection,
      SetSegmentGravityDirection, SetTwoPointGravityDirection, SetPlaneGravityDirection,
      SetBoxGravityDirection, SetBoxGravityDirectionFromActor,
      SetCollisionGravityDirection;
    setter_frame.
Qed.

Lemma RemoveNullNinjas_In (T : list (option nat)) (x : option nat) :
  In x (RemoveNullNinjas T) <-> In x T /\ x <> None.
Proof.
  unfold RemoveNullNinjas; rewrite filter_In.
  destruct x as [q | ]; split; intros [H1 H2]; split; try assumption;
    try discriminate; try reflexivity; congruence.
Qed.

Lemma RemoveNinja_In (p : nat) (T : list (option nat)) (q : nat) :
  In (Some q) (RemoveNinja p T) <-> In (Some q) T /\ q <> p.
Proof.
  unfold RemoveNinja; rewrite filter_In, negb_true_iff, Nat.eqb_neq; tauto.
Qed.

(** X29.  A Ninja that is alive and enters the volume is added once at the
    end of the list of tracked Ninjas, from which the null entries have
    gone.  Only this Ninja is changed: it receives the volume's gravity
    scale and, through the setter of the volume's mode, the volume's gravity
    settings whenever that setter accepts them; its movement mode is kept,
    so it is launched exactly when the fall velocity of the volume is not
    zero and the Ninja was walking.  When it leaves, none of its entries
    stays, and the other Ninjas stay tracked. *)
Theorem ActorEnteredVolume_spec (A : Actors) (V : ANinjaPhysicsVolume) (H : NinjaHeap)
    (p : nat) (Ninja : ANinjaCharacter) (c : NinjaComponent) :
  nth_error H p = Some Ninja ->
  Ninja_IsPendingKill Ninja = false ->
  GetCharacterMovement Ninja = Some c ->
  let r := ActorEnteredVolume A V H (Some p) in
  let V' := fst (fst (fst r)) in
  let H' := snd (fst (fst r)) in
  let c' := fst (ActorEnteredVolume_Settings A V c) in
  let Vol_A := Volume_GravityVectorA V in
  let Vol_B := Volume_GravityVectorB V in
  let Mode' := GravityDirectionMode (Core c') in
  let Actor' := GravityActor (Core c') in
  (TrackedNinjas V' = RemoveNullNinjas (TrackedNinjas V) ++ [Some p] /\
   ~ In None (TrackedNinjas V')) /\
  (nth_error H' p = Some (set_CharacterMovement Ninja c') /\
   forall q, q <> p -> nth_error H' q = nth_error H q) /\
  GravityScale (Core c') = Volume_GravityScale V /\
  match Volume_GravityDirectionMode V with
  | Fixed =>
      IsZero Vol_A = false -> Mode' = Fixed /\ GravityVectorA (Core c') = Vol_A
  | Line =>
      Vol_A <> Vol_B ->
      Mode' = Line /\ GravityVectorA (Core c') = Vol_A /\ GravityVectorB (Core c') = Vol_B
  | Segment =>
      Vol_A <> Vol_B ->
      Mode' = Segment /\ GravityVectorA (Core c') = Vol_A /\
      GravityVectorB (Core c') = Vol_B
  | Plane =>
      IsZero Vol_B = false ->
      Mode' = Plane /\ GravityVectorA (Core c') = Vol_A /\ GravityVectorB (Core c') = Vol_B
  | Point =>
      Mode' = Point /\
      match LiveActor (Volume_GravityActor V) with
      | Some g => SameActor A Actor' (Some g) = true
      | None => GravityVectorA (Core c') = Vol_A
      end
  | Box =>
      Mode' = Box /\
      match LiveActor (Volume_GravityActor V) with
      | Some g => SameActor A Actor' (Some g) = true
      | None => GravityVectorA (Core c') = Vol_A /\ GravityVectorB (Core c') = Vol_B
      end
  | SplineTangent | Spline | SplinePlane =>
      Volume_Spline V <> None ->
      Mode' = Volume_GravityDirectionMode V /\
      SameActor A Actor'
        match LiveActor (Volume_GravityActor V) with
        | Some g => Some g
        | None => Some (Volume_AsActor V)
        end = true
  | Collision =>
      forall g, LiveActor (Volume_GravityActor V) = Some g ->
                HasRootPrimitive A g = true ->
                Mode' = Collision /\ SameActor A Actor' (Some g) = true
  | _ => Core c' = set_GravityScale (Core c) (Volume_GravityScale V)
  end /\
  (snd r = if negb (IsZero (NinjaFallVelocity V)) && IsWalking (Core c)
           then Some (NinjaFallVelocity V) else None) /\
  (let V'' := ActorLeavingVolume V' (Some p) in
   ~ In (Some p) (TrackedNinjas V'') /\
   ~ In None (TrackedNinjas V'') /\
   forall q, q <> p ->
             (In (Some q) (TrackedNinjas V'') <-> In (Some q) (TrackedNinjas V))).
Proof.
  intros Hp Hlive Hc r V' H' c' Vol_A Vol_B Mode' Actor'.
  pose proof (ActorEnteredVolume_Settings_frame A V c) as [Fmode [Fupd Fscale]].
  fold c' in Fmode, Fupd, Fscale.
  assert (Hr : r = (Volume_set_TrackedNinjas V
                      (RemoveNullNinjas (TrackedNinjas V) ++ [Some p]),
                    heap_update H p (set_CharacterMovement Ninja c'),
                    snd (ActorEnteredVolume_Settings A V c),
                    if negb (IsZero (NinjaFallVelocity V)) && IsWalking (Core c')
                    then Some (NinjaFallVelocity V) else None)).
  { subst r c'; unfold ActorEnteredVolume; rewrite Hp, Hlive, Hc; cbn [negb].
    destruct (ActorEnteredVolume_Settings A V c) as [c1 n1]; reflexivity. }
  assert (HV' : TrackedNinjas V' = RemoveNullNinjas (TrackedNinjas V) ++ [Some p])
    by (subst V'; rewrite Hr; reflexivity).
  assert (HH' : H' = heap_update H p (set_CharacterMovement Ninja c'))
    by (subst H'; rewrite Hr; reflexivity).
  assert (Hwalk : IsWalking (Core c') = IsWalking (Core c))
    by (unfold IsWalking, IsMovingOnGround; now rewrite Fmode, Fupd).
  repeat match goal with |- _ /\ _ => split end.
  - exact HV'.
  - rewrite HV', in_app_iff, RemoveNullNinjas_In.
    intros [[_ Hn] | [Hn | []]]; [ now apply Hn | discriminate ].
  - rewrite HH'; exact (nth_error_heap_update_eq H p _ Ninja Hp).
  - intros q Hq; rewrite HH'; now apply nth_error_heap_update_neq.
  - exact Fscale.
  - subst Mode' Actor' c' Vol_A Vol_B.
    unfold ActorEnteredVolume_Settings, Volume_Spline.
    destruct (Volume_GravityDirectionMode V) eqn:Hm; try reflexivity.
    + intros Hz; now apply SetFixedGravityDirection_post.
    + destruct (LiveActor (Volume_GravityActor V)) as [g | ] eqn:HL; intros Hs.
      * destruct (GetSplineComponent g) as [Sp | ] eqn:Hsp; [ | contradiction ].
        exact (SetSplineActorGravityDirection_post A SplineTangent _ g Sp Hsp).
      * destruct (GetSplineComponent (Volume_AsActor V)) as [Sp | ] eqn:Hsp;
          [ | contradiction ].
        exact (SetSplineActorGravityDirection_post A SplineTangent _ _ Sp Hsp).
    + destruct (LiveActor (Volume_GravityActor V)) as [g | ] eqn:HL.
      * exact (proj1 (SetFromActorGravityDirection_post A _ (Some g))).
      * apply SetPointGravityDirection_post.
    + intros Hab; now apply SetTwoPointGravityDirection_post.
    + intros Hab; now apply SetTwoPointGravityDirection_post.
    + destruct (LiveActor (Volume_GravityActor V)) as [g | ] eqn:HL; intros Hs.
      * destruct (GetSplineComponent g) as [Sp | ] eqn:Hsp; [ | contradiction ].
        exact (SetSplineActorGravityDirection_post A Spline _ g Sp Hsp).
      * destruct (GetSplineComponent (Volume_AsActor V)) as [Sp | ] eqn:Hsp;
          [ | contradiction ].
        exact (SetSplineActorGravityDirection_post A Spline _ _ Sp Hsp).
    + intros Hz; now apply SetPlaneGravityDirection_post.
    + destruct (LiveActor (Volume_GravityActor V)) as [g | ] eqn:HL; intros Hs.
      * destruct (GetSplineComponent g) as [Sp | ] eqn:Hsp; [ | contradiction ].
        exact (SetSplineActorGravityDirection_post A SplinePlane _ g Sp Hsp).
      * destruct (GetSplineComponent (Volume_AsActor V)) as [Sp | ] eqn:Hsp;
          [ | contradiction ].
        exact (SetSplineActorGravityDirection_post A SplinePlane _ _ Sp Hsp).
    + destruct (LiveActor (Volume_GravityActor V)) as [g | ] eqn:HL.
      * exact (proj2 (SetFromActorGravityDirection_post A _ (Some g))).
      * apply SetBoxGravityDirection_post.
    + intros g HL Hprim; rewrite HL.
      now apply SetCollisionGravityDirection_post.
  - rewrite Hr; cbn [snd]; now rewrite Hwalk.
  - unfold ActorLeavingVolume; cbn [TrackedNinjas Volume_set_TrackedNinjas].
    split; [ | split ].
    + rewrite RemoveNullNinjas_In, RemoveNinja_In; intros [[_ Hn] _]; now apply Hn.
    + rewrite RemoveNullNinjas_In; intros [_ Hn]; now apply Hn.
    + intros q Hq.
      rewrite RemoveNullNinjas_In, RemoveNinja_In, HV', in_app_iff, RemoveNullNinjas_In.
      split.
      * intros [[[[Hin _] | [Heq | []]] _] _]; [ exact Hin | congruence ].
      * intros Hin; repeat split; try assumption; try discriminate.
        left; split; [ exact Hin | discriminate ].
Qed.

Lemma ActorEnteredVolume_spec_witness :
  TrackedNinjas
    (fst (fst (fst (ActorEnteredVolume SampleActors SampleNinjaVolume [SampleNinja]
                      (Some 0%nat)))))
  = [Some 0%nat; Some 0%nat; Some 0%nat] /\
  GravityScale
    (Core (fst (ActorEnteredVolume_Settings SampleActors SampleNinjaVolume
                  SampleComponent)))
  = 1.
Proof.
  pose proof (ActorEnteredVolume_spec SampleActors SampleNinjaVolume [SampleNinja] 0
                SampleNinja SampleComponent eq_refl eq_refl eq_refl) as W.
  cbv zeta in W.
  destruct W as [[Wtracked _] [_ [Wscale _]]].
  split; [ exact Wtracked | exact Wscale ].
Defined.
